(** * Medusa configuration API (medusa/server/api/v2/config.py)

    A shallow embedding of the request handler [ConfigHandler] and of the
    section producers of [DataGenerator], together with the helpers the
    handler imports from [medusa.server.api.v2.base] and
    [medusa.helper.mappings]. *)

From Stdlib Require Import String Ascii List ZArith Bool Lia.
#[global] Set Warnings "-register-all".
Import ListNotations.
Open Scope string_scope.

(** ** Python values

    The values that travel through the handler: what [json_decode] yields
    and what the attributes of the [app] module hold.  A Python [dict]
    keeps its keys in insertion order, so it is an association list; a
    well-formed one ([wf_value]) has no repeated key.  Numbers with a
    fractional part are not part of the model. *)

Inductive value : Type :=
| VNone
| VBool (b : bool)
| VInt (z : Z)
| VStr (s : string)
| VList (l : list value)
| VDict (d : list (string * value)).

Definition dict := list (string * value).

(** Truth value of an object, as [if x:] and [x or y] test it. *)
Definition truthy (v : value) : bool :=
  match v with
  | VNone => false
  | VBool b => b
  | VInt z => negb (Z.eqb z 0)
  | VStr s => negb (String.eqb s "")
  | VList l => match l with [] => false | _ => true end
  | VDict d => match d with [] => false | _ => true end
  end.

Definition py_or (x y : value) : value := if truthy x then x else y.

Definition is_dict (v : value) : bool :=
  match v with VDict _ => true | _ => false end.

(** [d.get(k)] / [k in d] / [d[k] = v] / [d.pop(k)] on an insertion-ordered
    dictionary. *)
Fixpoint dict_get (d : dict) (k : string) : option value :=
  match d with
  | [] => None
  | (k', v) :: r => if String.eqb k' k then Some v else dict_get r k
  end.

Definition dict_mem (d : dict) (k : string) : bool :=
  match dict_get d k with Some _ => true | None => false end.

Fixpoint dict_set (d : dict) (k : string) (v : value) : dict :=
  match d with
  | [] => [(k, v)]
  | (k', v') :: r =>
      if String.eqb k' k then (k', v) :: r else (k', v') :: dict_set r k v
  end.

Fixpoint dict_remove (d : dict) (k : string) : dict :=
  match d with
  | [] => []
  | (k', v') :: r =>
      if String.eqb k' k then r else (k', v') :: dict_remove r k
  end.

Definition dict_pop (d : dict) (k : string) : option (value * dict) :=
  match dict_get d k with
  | Some v => Some (v, dict_remove d k)
  | None => None
  end.

(** No key occurs twice, at any depth. *)
Fixpoint mem_string (k : string) (l : list string) : bool :=
  match l with
  | [] => false
  | x :: r => String.eqb x k || mem_string k r
  end.

Fixpoint nodup_strings (l : list string) : bool :=
  match l with
  | [] => true
  | x :: r => negb (mem_string x r) && nodup_strings r
  end.

Fixpoint wf_value (v : value) : bool :=
  match v with
  | VDict d =>
      nodup_strings (map fst d) && forallb (fun e => wf_value (snd e)) d
  | _ => true
  end.

(** ** Exceptions *)

Inductive exc : Type :=
| KeyError | TypeError | ValueError | AttributeError | OtherError.

Inductive result (A : Type) : Type :=
| Ok (a : A)
| Raise (e : exc).
Arguments Ok {A} a.
Arguments Raise {A} e.

Definition rbind {A B : Type} (r : result A) (k : A -> result B) : result B :=
  match r with
  | Ok a => k a
  | Raise e => Raise e
  end.

(** ** Dotted paths

    [key.split('.')] and ['.'.join(keys)]. *)

Definition dot : ascii := "."%char.

Fixpoint split_dots (s : string) : list string :=
  match s with
  | EmptyString => [EmptyString]
  | String c r =>
      if Ascii.eqb c dot then EmptyString :: split_dots r
      else match split_dots r with
           | h :: t => String c h :: t
           | [] => [String c EmptyString]
           end
  end.

Definition join_dots (ks : list string) : string := String.concat "." ks.

Fixpoint has_dot (s : string) : bool :=
  match s with
  | EmptyString => false
  | String c r => Ascii.eqb c dot || has_dot r
  end.

(** Every key of the tree, at any depth, is free of dots: the body is
    nested, as in [{"torrents": {"enabled": true}}], not addressed by
    dotted keys. *)
Fixpoint dot_free (v : value) : bool :=
  match v with
  | VDict d =>
      forallb (fun e => negb (has_dot (fst e)) && dot_free (snd e)) d
  | _ => true
  end.

(** ** Path codec

    [iter_nested_items] and [set_nested_value] are imported from
    [medusa.server.api.v2.base], which is not among the sources. *)

(** Modelled from the spec: [flatten] of section 4.1, with paths kept as
    key lists.  It yields every leaf of the tree with the keys from the root
    to it, in the tree's own key order; a leaf is any value that is not
    itself a nested tree, and an empty nested tree yields nothing. *)
Fixpoint iter_nested_keys (v : value) : list (list string * value) :=
  match v with
  | VDict d =>
      flat_map
        (fun e =>
           match snd e with
           | VDict _ =>
               map (fun q => (fst e :: fst q, snd q)) (iter_nested_keys (snd e))
           | x => [([fst e], x)]
           end) d
  | _ => []
  end.

(** What one entry of a mapping contributes to the leaves. *)
Definition leaf_entry (e : string * value) : list (list string * value) :=
  match snd e with
  | VDict _ => map (fun q => (fst e :: fst q, snd q)) (iter_nested_keys (snd e))
  | x => [([fst e], x)]
  end.

(** Modelled from the spec: [iter_nested_items], the [flatten] of section
    4.1: every leaf paired with the dot-joined path of its keys. *)
Definition iter_nested_items (data : dict) : list (string * value) :=
  map (fun e => (join_dots (fst e), snd e)) (iter_nested_keys (VDict data)).

(** Modelled from the spec: [setPath] of section 4.1 on the key segments.
    It walks, and creates where absent, a nested tree for every segment but
    the last, then assigns under the last segment, overwriting what is
    there.  A segment on the way that already holds something other than a
    tree is the contract violation of the spec: the call raises. *)
Fixpoint set_path (d : dict) (ks : list string) (v : value) : result dict :=
  match ks with
  | [] => Raise KeyError
  | [k] => Ok (dict_set d k v)
  | k :: rest =>
      match dict_get d k with
      | None =>
          rbind (set_path [] rest v) (fun sub => Ok (dict_set d k (VDict sub)))
      | Some (VDict sub) =>
          rbind (set_path sub rest v) (fun sub' => Ok (dict_set d k (VDict sub')))
      | Some _ => Raise TypeError
      end
  end.

(** Modelled from the spec: [set_nested_value], the [setPath] of section
    4.1 on a dotted path. *)
Definition set_nested_value (data : dict) (key : string) (v : value)
  : result dict :=
  set_path data (split_dots key) v.

(** Reading a tree along a list of keys. *)
Fixpoint get_path (v : value) (ks : list string) : option value :=
  match ks with
  | [] => Some v
  | k :: rest =>
      match v with
      | VDict d =>
          match dict_get d k with
          | Some x => get_path x rest
          | None => None
          end
      | _ => None
      end
  end.

(** Induction over a value and the values nested in its mappings. *)
Section ValueInduction.

Variable P : value -> Prop.
Hypothesis HNone : P VNone.
Hypothesis HBool : forall b, P (VBool b).
Hypothesis HInt : forall z, P (VInt z).
Hypothesis HStr : forall s, P (VStr s).
Hypothesis HList : forall l, P (VList l).
Hypothesis HDict : forall d, Forall (fun e => P (snd e)) d -> P (VDict d).

Fixpoint value_tree_ind (v : value) : P v :=
  match v with
  | VNone => HNone
  | VBool b => HBool b
  | VInt z => HInt z
  | VStr s => HStr s
  | VList l => HList l
  | VDict d =>
      HDict d
        ((fix all (l : list (string * value)) : Forall (fun e => P (snd e)) l :=
            match l with
            | [] => Forall_nil _
            | e :: r => Forall_cons e (value_tree_ind (snd e)) (all r)
            end) d)
  end.

End ValueInduction.

(** One path is the beginning of another. *)
Fixpoint is_prefix (p q : list string) : bool :=
  match p, q with
  | [], _ => true
  | x :: p', y :: q' => String.eqb x y && is_prefix p' q'
  | _ :: _, [] => false
  end.

Definition comparable (p q : list string) : bool :=
  is_prefix p q || is_prefix q p.

(** ** The [app] module and the collaborators of the handler *)

(** [medusa.app] holds the settings as module attributes, all of them
    initialised at start-up: the store is a total map from attribute names
    to values, [app.X] is [app "X"] and [setattr] overrides one name. *)
Definition App := string -> value.

Definition setattr (app : App) (name : string) (v : value) : App :=
  fun a => if String.eqb a name then v else app a.

(** What the handler calls outside this module.  Each field stands for one
    callable or constant of the application or of a library; the handler
    is verified for every behaviour of them. *)
Record Env : Type := {
  (** [tornado.escape.json_decode] on the request body *)
  json_decode : string -> result value;
  (** [int(text)]: [None] is [ValueError] *)
  int_text : string -> option Z;
  (** [six.text_type(x)] for an [x] that is not text *)
  text_type : value -> string;
  (** [float(x)] *)
  py_float : value -> result value;
  (** attributes of [medusa.common], [Quality.] ones included *)
  common : string -> value;
  (** read-only calls into other modules, named by their source text *)
  external : string -> result value;
  (** [EnumField(app, attr, enums, int)]: what an [EnumField] that was
      given a fourth positional argument makes of a candidate, from that
      argument, the members and the candidate; the constructor is in
      [base.py] *)
  enum_with_fourth : (value -> result value) -> list value -> value
                     -> result value;
  (** [Quality.is_valid_combined_quality] *)
  Quality_is_valid_combined_quality : value -> result bool;
  (** [config.change_theme(value)]: the store it leaves, and whether it raised *)
  change_theme : value -> App -> App * result unit;
  (** [MetadataStructureField(app, 'metadata_provider_dict').patch(app, v)] *)
  metadata_structure_patch : App -> value -> bool * App;
  (** [provider.to_json()] *)
  provider_to_json : value -> result value;
  (** [app.instance.save_config()] *)
  save_config : App -> result unit;
  (** [ws.Message('configUpdated', {section, config}).push()] *)
  push : string -> value -> result unit
}.

(** What the request leaves behind besides the store. *)
Inductive event : Type :=
| LogWarning (ignored : dict)
| SaveConfig (app : App)
| WsPush (section : string) (config : value).

Record world : Type := { w_app : App; w_trace : list event }.

(** State and exception monad of the handler: an exception keeps the
    store and the trace as they were when it was raised. *)
Definition M (A : Type) : Type := world -> result A * world.

Definition ret {A : Type} (a : A) : M A := fun w => (Ok a, w).

Definition raise {A : Type} (e : exc) : M A := fun w => (Raise e, w).

Definition bind {A B : Type} (m : M A) (k : A -> M B) : M B :=
  fun w =>
    match m w with
    | (Ok a, w') => k a w'
    | (Raise e, w') => (Raise e, w')
    end.

Definition lift {A : Type} (r : result A) : M A := fun w => (r, w).

Definition get_app : M App := fun w => (Ok (w_app w), w).

Definition put_app (app : App) : M unit :=
  fun w => (Ok tt, {| w_app := app; w_trace := w_trace w |}).

Definition emit (e : event) : M unit :=
  fun w => (Ok tt, {| w_app := w_app w; w_trace := w_trace w ++ [e] |}).

Declare Scope monad_scope.
Delimit Scope monad_scope with monad.
Notation "x <- m ;; k" := (bind m (fun x => k))
  (at level 61, m at next level, right associativity) : monad_scope.
Notation "m ;; k" := (bind m (fun _ => k))
  (at level 61, right associativity) : monad_scope.

(** ** Replies

    [_ok], [_bad_request] and [_not_found] belong to [BaseRequestHandler]
    of [medusa.server.api.v2.base], which is not among the sources. *)

Inductive payload : Type :=
| Data (v : value)
| Error (message : string).

Record reply : Type := { status : Z; body : payload }.

(** Modelled from the spec: a successful reply has status 200 and carries
    the nested tree (section 6). *)
Definition _ok (data : value) : reply := {| status := 200; body := Data data |}.

(** Modelled from the spec: BadRequest is surfaced as 400 (section 7). *)
Definition _bad_request (msg : string) : reply := {| status := 400; body := Error msg |}.

(** Modelled from the spec: NotFound is surfaced as 404 (section 7). *)
Definition _not_found (msg : string) : reply := {| status := 404; body := Error msg |}.

(** ** [NonEmptyDict]

    The class comes from [medusa.helper.mappings], which is not among the
    sources. *)

(** Modelled from the spec: the empty values a [NonEmptyDict] omits
    (section 3), [None] and the empty text.  A mapping is not one of them,
    even with no key yet: the producers below store a fresh
    [NonEmptyDict()] and assign into it through its key on the next
    line. *)
Definition is_empty_value (v : value) : bool :=
  match v with
  | VNone => true
  | VStr s => String.eqb s ""
  | _ => false
  end.

(** Modelled from the spec: [NonEmptyDict.__setitem__] stores nothing for
    an empty value. *)
Definition nonempty_setitem (d : dict) (k : string) (v : value) : dict :=
  if is_empty_value v then d else dict_set d k v.

(** ** Fields

    The Field classes are imported from [medusa.server.api.v2.base], which
    is not among the sources. *)

(** Modelled from the spec: the kind of a Field (section 3), which
    determines its default conversion. *)
Inductive Kind : Type :=
| String_
| Boolean
| Integer
| Enum (members : list value)
| List_
| Structured.

(** Modelled from the spec: a Field (section 3) names the attribute of
    the container it reads and writes and its kind, and optionally carries
    a default, a validator, a converter, a setter and a post-processor.
    The container is always the [app] module.  A validator may read the
    store and may raise; a setter returns the store it leaves and whether
    it raised. *)
Record Field : Type := {
  attribute : string;
  kind : Kind;
  default_value : option value;
  validator : option (App -> value -> result bool);
  converter : option (value -> result value);
  setter : option (App -> string -> value -> App * result unit);
  post_processor : option (value -> App -> App)
}.

Definition plain_field (k : Kind) (attr : string) : Field :=
  {| attribute := attr; kind := k; default_value := None; validator := None;
     converter := None; setter := None; post_processor := None |}.

(** Modelled from the spec: the constructors the table calls, one per
    kind; [app], their first argument, is the container of every Field. *)
Definition StringField := plain_field String_.
Definition BooleanField := plain_field Boolean.
Definition IntegerField := plain_field Integer.
Definition ListField := plain_field List_.
Definition EnumField (attr : string) (enums : list value) : Field :=
  plain_field (Enum enums) attr.

(** Keyword arguments of the constructors. *)
Definition default_value_ (v : value) (f : Field) : Field :=
  {| attribute := attribute f; kind := kind f; default_value := Some v;
     validator := validator f; converter := converter f; setter := setter f;
     post_processor := post_processor f |}.

Definition validator_ (p : App -> value -> result bool) (f : Field) : Field :=
  {| attribute := attribute f; kind := kind f; default_value := default_value f;
     validator := Some p; converter := converter f; setter := setter f;
     post_processor := post_processor f |}.

Definition converter_ (c : value -> result value) (f : Field) : Field :=
  {| attribute := attribute f; kind := kind f; default_value := default_value f;
     validator := validator f; converter := Some c; setter := setter f;
     post_processor := post_processor f |}.

Definition setter_ (s : App -> string -> value -> App * result unit) (f : Field)
  : Field :=
  {| attribute := attribute f; kind := kind f; default_value := default_value f;
     validator := validator f; converter := converter f; setter := Some s;
     post_processor := post_processor f |}.

Definition post_processor_ (p : value -> App -> App) (f : Field) : Field :=
  {| attribute := attribute f; kind := kind f; default_value := default_value f;
     validator := validator f; converter := converter f; setter := setter f;
     post_processor := Some p |}.


(** Python's [==] and [in] on the modelled values ([True == 1]; mappings
    compare without regard to order). *)
Fixpoint py_eq (a b : value) {struct a} : bool :=
  match a, b with
  | VNone, VNone => true
  | VBool x, VBool y => Bool.eqb x y
  | VBool x, VInt z => Z.eqb z (if x then 1 else 0)
  | VInt z, VBool x => Z.eqb z (if x then 1 else 0)
  | VInt x, VInt y => Z.eqb x y
  | VStr x, VStr y => String.eqb x y
  | VList l1, VList l2 =>
      (fix go (l1 l2 : list value) : bool :=
         match l1, l2 with
         | [], [] => true
         | x :: r, y :: s => py_eq x y && go r s
         | _, _ => false
         end) l1 l2
  | VDict d1, VDict d2 =>
      Nat.eqb (List.length d1) (List.length d2) &&
      (fix go (d1 : dict) : bool :=
         match d1 with
         | [] => true
         | (k, x) :: r =>
             match dict_get d2 k with
             | Some y => py_eq x y && go r
             | None => false
             end
         end) d1
  | _, _ => false
  end.

Definition py_in (x : value) (l : list value) : bool :=
  existsb (py_eq x) l.

Definition bool_ (v : value) : result value := Ok (VBool (truthy v)).
Section Model.

Variable E : Env.

(** [int(x)] *)
Definition int_ (v : value) : result value :=
  match v with
  | VInt z => Ok (VInt z)
  | VBool b => Ok (VInt (if b then 1 else 0))
  | VStr s =>
      match int_text E s with
      | Some z => Ok (VInt z)
      | None => Raise ValueError
      end
  | _ => Raise TypeError
  end.

(** Modelled from the spec: the table gives two Enum Fields a fourth
    positional argument, [int].  Of the steps of section 4.2 the one that
    turns a candidate into the stored value is step 2, so what the
    constructor makes of that argument takes the converter's place; what it
    is, is left to the environment. *)
Definition fourth_ (t : value -> result value) (f : Field) : Field :=
  converter_ (enum_with_fourth E t
                (match kind f with Enum members => members | _ => [] end)) f.

(** *** [Field.patch]

    The contract of section 4.2 of the spec, step by step. *)

(** Modelled from the spec: step 1, the validator; a Field without one
    lets every candidate through. *)
Definition run_validator (f : Field) (app : App) (candidate : value)
  : result bool :=
  match validator f with
  | Some p => p app candidate
  | None => Ok true
  end.

(** Modelled from the spec: the conversion of the kind in step 2.
    Boolean coerces to a boolean; Integer coerces to an integer and
    rejects when that fails; Enum keeps a member of the declared set and
    takes the default otherwise (with no default there is nothing to
    store); the other kinds keep the candidate. *)
Definition default_conversion (f : Field) (candidate : value) : result value :=
  match kind f with
  | Boolean => bool_ candidate
  | Integer => int_ candidate
  | Enum members =>
      if py_in candidate members then Ok candidate
      else match default_value f with
           | Some d => Ok d
           | None => Raise ValueError
           end
  | String_ | List_ | Structured => Ok candidate
  end.

(** Modelled from the spec: step 2, the stored value is the converter's
    result when there is a converter. *)
Definition stored_value (f : Field) (candidate : value) : result value :=
  match converter f with
  | Some c => c candidate
  | None => default_conversion f candidate
  end.

(** Modelled from the spec: step 3, the setter is called if there is one,
    else the attribute is assigned. *)
Definition apply_value (f : Field) (app : App) (stored : value)
  : App * result unit :=
  match setter f with
  | Some s => s app (attribute f) stored
  | None => (setattr app (attribute f) stored, Ok tt)
  end.

(** Modelled from the spec: step 4, the post-processor. *)
Definition run_post_processor (f : Field) (stored : value) (app : App) : App :=
  match post_processor f with
  | Some p => p stored app
  | None => app
  end.

(** Modelled from the spec: [patch(field, container, candidate)] of
    section 4.2.  A validator that returns false rejects with no mutation;
    an exception of the validator, the converter or the setter rejects the
    field; otherwise the write is accepted. *)
Definition patch (f : Field) (app : App) (candidate : value) : bool * App :=
  match run_validator f app candidate with
  | Ok true =>
      match stored_value f candidate with
      | Ok stored =>
          match apply_value f app stored with
          | (app', Ok _) => (true, run_post_processor f stored app')
          | (app', Raise _) => (false, app')
          end
      | Raise _ => (false, app)
      end
  | Ok false => (false, app)
  | Raise _ => (false, app)
  end.

(** *** Module-level helpers of config.py *)

(** [layout_schedule_post_processor] (lines 44-47): calendar layout sorts
    by date. *)
Definition layout_schedule_post_processor (v : value) (app : App) : App :=
  if py_eq v (VStr "calendar") then setattr app "COMING_EPS_SORT" (VStr "date")
  else app.

(** [theme_name_setter] (lines 50-52): hot-swaps the theme; the attribute
    is not assigned here. *)
Definition theme_name_setter (app : App) (name : string) (v : value)
  : App * result unit :=
  change_theme E v app.

(** [season_folders_validator] (lines 55-57):
    [not (app.NAMING_FORCE_FOLDERS and value is False)]. *)
Definition is_False (v : value) : bool :=
  match v with VBool false => true | _ => false end.

Definition season_folders_validator (app : App) (v : value) : result bool :=
  Ok (negb (truthy (app "NAMING_FORCE_FOLDERS") && is_False v)).

Definition SKIPPED : value := common E "SKIPPED".
Definition WANTED : value := common E "WANTED".
Definition IGNORED : value := common E "IGNORED".

(** *** [ConfigHandler.patches] (lines 72-364), entry by entry *)

Definition patches : list (string * Field) :=
  [
    ("anonRedirect", StringField "ANON_REDIRECT");
    ("emby.enabled", BooleanField "USE_EMBY");
    ("torrents.authType", StringField "TORRENT_AUTH_TYPE");
    ("torrents.dir", StringField "TORRENT_DIR");
    ("torrents.enabled", BooleanField "USE_TORRENTS");
    ("torrents.highBandwidth", StringField "TORRENT_HIGH_BANDWIDTH");
    ("torrents.host", StringField "TORRENT_HOST");
    ("torrents.label", StringField "TORRENT_LABEL");
    ("torrents.labelAnime", StringField "TORRENT_LABEL_ANIME");
    ("torrents.method", StringField "TORRENT_METHOD");
    ("torrents.password", StringField "TORRENT_PASSWORD");
    ("torrents.path", BooleanField "TORRENT_PATH");
    ("torrents.paused", BooleanField "TORRENT_PAUSED");
    ("torrents.rpcurl", StringField "TORRENT_RPCURL");
    ("torrents.seedLocation", StringField "TORRENT_SEED_LOCATION");
    ("torrents.seedTime", StringField "TORRENT_SEED_TIME");
    ("torrents.username", StringField "TORRENT_USERNAME");
    ("torrents.verifySSL", BooleanField "TORRENT_VERIFY_CERT");
    ("nzb.enabled", BooleanField "USE_NZBS");
    ("nzb.dir", StringField "NZB_DIR");
    ("nzb.method", StringField "NZB_METHOD");
    ("nzb.nzbget.category", StringField "NZBGET_CATEGORY");
    ("nzb.nzbget.categoryAnime", StringField "NZBGET_CATEGORY_ANIME");
    ("nzb.nzbget.categoryAnimeBacklog", StringField "NZBGET_CATEGORY_ANIME_BACKLOG");
    ("nzb.nzbget.categoryBacklog", StringField "NZBGET_CATEGORY_BACKLOG");
    ("nzb.nzbget.host", StringField "NZBGET_HOST");
    ("nzb.nzbget.password", StringField "NZBGET_PASSWORD");
    ("nzb.nzbget.priority", StringField "NZBGET_PRIORITY");
    ("nzb.nzbget.useHttps", BooleanField "NZBGET_USE_HTTPS");
    ("nzb.nzbget.username", StringField "NZBGET_USERNAME");
    ("nzb.sabnzbd.apiKey", StringField "SAB_APIKEY");
    ("nzb.sabnzbd.category", StringField "SAB_CATEGORY");
    ("nzb.sabnzbd.categoryAnime", StringField "SAB_CATEGORY_ANIME");
    ("nzb.sabnzbd.categoryAnimeBacklog", StringField "SAB_CATEGORY_ANIME_BACKLOG");
    ("nzb.sabnzbd.categoryBacklog", StringField "SAB_CATEGORY_BACKLOG");
    ("nzb.sabnzbd.forced", BooleanField "SAB_FORCED");
    ("nzb.sabnzbd.host", StringField "SAB_HOST");
    ("nzb.sabnzbd.password", StringField "SAB_PASSWORD");
    ("nzb.sabnzbd.username", StringField "SAB_USERNAME");
    ("selectedRootIndex", IntegerField "SELECTED_ROOT");
    ("layout.schedule", post_processor_ layout_schedule_post_processor (default_value_ (VStr "banner") (EnumField "COMING_EPS_LAYOUT" [VStr "poster"; VStr "banner"; VStr "list"; VStr "calendar"])));
    ("layout.history", default_value_ (VStr "detailed") (EnumField "HISTORY_LAYOUT" [VStr "compact"; VStr "detailed"]));
    ("layout.home", default_value_ (VStr "poster") (EnumField "HOME_LAYOUT" [VStr "poster"; VStr "small"; VStr "banner"; VStr "simple"; VStr "coverflow"]));
    ("layout.show.allSeasons", BooleanField "DISPLAY_ALL_SEASONS");
    ("layout.show.specials", BooleanField "DISPLAY_SHOW_SPECIALS");
    ("layout.show.showListOrder", ListField "SHOW_LIST_ORDER");
    ("theme.name", setter_ theme_name_setter (StringField "THEME_NAME"));
    ("backlogOverview.period", StringField "BACKLOG_PERIOD");
    ("backlogOverview.status", StringField "BACKLOG_STATUS");
    ("rootDirs", ListField "ROOT_DIRS");
    ("showDefaults.status", fourth_ int_ (EnumField "STATUS_DEFAULT" [SKIPPED; WANTED; IGNORED]));
    ("showDefaults.statusAfter", fourth_ int_ (EnumField "STATUS_DEFAULT_AFTER" [SKIPPED; WANTED; IGNORED]));
    ("showDefaults.quality", validator_ (fun _ => Quality_is_valid_combined_quality E) (IntegerField "QUALITY_DEFAULT"));
    ("showDefaults.subtitles", converter_ bool_ (validator_ (fun app v => Ok (truthy (app "USE_SUBTITLES"))) (BooleanField "SUBTITLES_DEFAULT")));
    ("showDefaults.seasonFolders", converter_ bool_ (validator_ season_folders_validator (BooleanField "SEASON_FOLDERS_DEFAULT")));
    ("showDefaults.anime", converter_ bool_ (BooleanField "ANIME_DEFAULT"));
    ("showDefaults.scene", converter_ bool_ (BooleanField "SCENE_DEFAULT"));
    ("postProcessing.showDownloadDir", StringField "TV_DOWNLOAD_DIR");
    ("postProcessing.processAutomatically", BooleanField "PROCESS_AUTOMATICALLY");
    ("postProcessing.processMethod", StringField "PROCESS_METHOD");
    ("postProcessing.deleteRarContent", BooleanField "DELRARCONTENTS");
    ("postProcessing.unpack", BooleanField "UNPACK");
    ("postProcessing.noDelete", BooleanField "NO_DELETE");
    ("postProcessing.postponeIfSyncFiles", BooleanField "POSTPONE_IF_SYNC_FILES");
    ("postProcessing.autoPostprocessorFrequency", IntegerField "AUTOPOSTPROCESSOR_FREQUENCY");
    ("postProcessing.airdateEpisodes", BooleanField "AIRDATE_EPISODES");
    ("postProcessing.moveAssociatedFiles", BooleanField "MOVE_ASSOCIATED_FILES");
    ("postProcessing.allowedExtensions", ListField "ALLOWED_EXTENSIONS");
    ("postProcessing.addShowsWithoutDir", BooleanField "ADD_SHOWS_WO_DIR");
    ("postProcessing.createMissingShowDirs", BooleanField "CREATE_MISSING_SHOW_DIRS");
    ("postProcessing.renameEpisodes", BooleanField "RENAME_EPISODES");
    ("postProcessing.postponeIfNoSubs", BooleanField "POSTPONE_IF_NO_SUBS");
    ("postProcessing.nfoRename", BooleanField "NFO_RENAME");
    ("postProcessing.syncFiles", ListField "SYNC_FILES");
    ("postProcessing.fileTimestampTimezone", StringField "FILE_TIMESTAMP_TIMEZONE");
    ("postProcessing.extraScripts", ListField "EXTRA_SCRIPTS");
    ("postProcessing.extraScriptsUrl", StringField "EXTRA_SCRIPTS_URL");
    ("postProcessing.naming.pattern", StringField "NAMING_PATTERN");
    ("postProcessing.naming.enableCustomNamingAnime", BooleanField "NAMING_CUSTOM_ANIME");
    ("postProcessing.naming.enableCustomNamingSports", BooleanField "NAMING_CUSTOM_SPORTS");
    ("postProcessing.naming.enableCustomNamingAirByDate", BooleanField "NAMING_CUSTOM_ABD");
    ("postProcessing.naming.patternSports", StringField "NAMING_SPORTS_PATTERN");
    ("postProcessing.naming.patternAirByDate", StringField "NAMING_ABD_PATTERN");
    ("postProcessing.naming.patternAnime", StringField "NAMING_ANIME_PATTERN");
    ("postProcessing.naming.animeMultiEp", IntegerField "NAMING_ANIME_MULTI_EP");
    ("postProcessing.naming.animeNamingType", IntegerField "NAMING_ANIME");
    ("postProcessing.naming.multiEp", IntegerField "NAMING_MULTI_EP");
    ("postProcessing.naming.stripYear", BooleanField "NAMING_STRIP_YEAR");
    ("search.general.randomizeProviders", BooleanField "RANDOMIZE_PROVIDERS");
    ("search.general.downloadPropers", BooleanField "DOWNLOAD_PROPERS");
    ("search.general.checkPropersInterval", StringField "CHECK_PROPERS_INTERVAL");
    ("search.general.propersSearchDays", IntegerField "PROPERS_SEARCH_DAYS");
    ("search.general.backlogDays", IntegerField "BACKLOG_DAYS");
    ("search.general.backlogFrequency", IntegerField "BACKLOG_FREQUENCY");
    ("search.general.minBacklogFrequency", IntegerField "MIN_BACKLOG_FREQUENCY");
    ("search.general.dailySearchFrequency", IntegerField "DAILYSEARCH_FREQUENCY");
    ("search.general.minDailySearchFrequency", IntegerField "MIN_DAILYSEARCH_FREQUENCY");
    ("search.general.removeFromClient", BooleanField "REMOVE_FROM_CLIENT");
    ("search.general.torrentCheckerFrequency", IntegerField "TORRENT_CHECKER_FREQUENCY");
    ("search.general.minTorrentCheckerFrequency", IntegerField "MIN_TORRENT_CHECKER_FREQUENCY");
    ("search.general.usenetRetention", IntegerField "USENET_RETENTION");
    ("search.general.trackersList", ListField "TRACKERS_LIST");
    ("search.general.allowHighPriority", BooleanField "ALLOW_HIGH_PRIORITY");
    ("search.general.useFailedDownloads", BooleanField "USE_FAILED_DOWNLOADS");
    ("search.general.deleteFailed", BooleanField "DELETE_FAILED");
    ("search.general.cacheTrimming", BooleanField "CACHE_TRIMMING");
    ("search.general.maxCacheAge", IntegerField "MAX_CACHE_AGE");
    ("search.filters.ignored", ListField "IGNORE_WORDS");
    ("search.filters.undesired", ListField "UNDESIRED_WORDS");
    ("search.filters.preferred", ListField "PREFERRED_WORDS");
    ("search.filters.required", ListField "REQUIRE_WORDS");
    ("search.filters.ignoredSubsList", ListField "IGNORED_SUBS_LIST");
    ("search.filters.ignoreUnknownSubs", BooleanField "IGNORE_UND_SUBS");
    ("notifiers.kodi.enabled", BooleanField "USE_KODI");
    ("notifiers.kodi.alwaysOn", BooleanField "USE_KODI");
    ("notifiers.kodi.notifyOnSnatch", BooleanField "KODI_NOTIFY_ONSNATCH");
    ("notifiers.kodi.notifyOnDownload", BooleanField "KODI_NOTIFY_ONDOWNLOAD");
    ("notifiers.kodi.notifyOnSubtitleDownload", BooleanField "KODI_NOTIFY_ONSUBTITLEDOWNLOAD");
    ("notifiers.kodi.update.library", BooleanField "KODI_UPDATE_LIBRARY");
    ("notifiers.kodi.update.full", BooleanField "KODI_UPDATE_FULL");
    ("notifiers.kodi.update.onlyFirst", BooleanField "KODI_UPDATE_ONLYFIRST");
    ("notifiers.kodi.host", ListField "KODI_HOST");
    ("notifiers.kodi.username", StringField "KODI_USERNAME");
    ("notifiers.kodi.password", StringField "KODI_PASSWORD");
    ("notifiers.kodi.libraryCleanPending", BooleanField "KODI_LIBRARY_CLEAN_PENDING");
    ("notifiers.kodi.cleanLibrary", BooleanField "KODI_CLEAN_LIBRARY");
    ("notifiers.plex.server.enabled", BooleanField "USE_PLEX_SERVER");
    ("notifiers.plex.server.updateLibrary", BooleanField "PLEX_UPDATE_LIBRARY");
    ("notifiers.plex.server.host", ListField "PLEX_SERVER_HOST");
    ("notifiers.plex.server.https", BooleanField "PLEX_SERVER_HTTPS");
    ("notifiers.plex.server.username", StringField "PLEX_SERVER_HOST");
    ("notifiers.plex.server.password", StringField "PLEX_SERVER_HOST");
    ("notifiers.plex.server.token", StringField "PLEX_SERVER_HOST");
    ("notifiers.plex.client.enabled", BooleanField "USE_PLEX_CLIENT");
    ("notifiers.plex.client.username", StringField "PLEX_CLIENT_USERNAME");
    ("notifiers.plex.client.host", ListField "PLEX_CLIENT_HOST");
    ("notifiers.plex.client.notifyOnSnatch", BooleanField "PLEX_NOTIFY_ONSNATCH");
    ("notifiers.plex.client.notifyOnDownload", BooleanField "PLEX_NOTIFY_ONDOWNLOAD");
    ("notifiers.plex.client.notifyOnSubtitleDownload", BooleanField "PLEX_NOTIFY_ONSUBTITLEDOWNLOAD");
    ("notifiers.emby.enabled", BooleanField "USE_EMBY");
    ("notifiers.emby.host", StringField "EMBY_HOST");
    ("notifiers.emby.apiKey", StringField "EMBY_APIKEY");
    ("notifiers.nmj.enabled", BooleanField "USE_NMJ");
    ("notifiers.nmj.host", StringField "NMJ_HOST");
    ("notifiers.nmj.database", StringField "NMJ_DATABASE");
    ("notifiers.nmj.mount", StringField "NMJ_MOUNT");
    ("notifiers.nmjv2.enabled", BooleanField "USE_NMJv2");
    ("notifiers.nmjv2.host", StringField "NMJv2_HOST");
    ("notifiers.nmjv2.dbloc", StringField "NMJv2_DBLOC");
    ("notifiers.nmjv2.database", StringField "NMJv2_DATABASE");
    ("notifiers.synologyIndex.enabled", BooleanField "USE_SYNOINDEX");
    ("notifiers.synology.enabled", BooleanField "USE_SYNOLOGYNOTIFIER");
    ("notifiers.synology.notifyOnSnatch", BooleanField "SYNOLOGYNOTIFIER_NOTIFY_ONSNATCH");
    ("notifiers.synology.notifyOnDownload", BooleanField "SYNOLOGYNOTIFIER_NOTIFY_ONDOWNLOAD");
    ("notifiers.synology.notifyOnSubtitleDownload", BooleanField "SYNOLOGYNOTIFIER_NOTIFY_ONSUBTITLEDOWNLOAD");
    ("notifiers.pyTivo.enabled", BooleanField "USE_PYTIVO");
    ("notifiers.pyTivo.host", StringField "PYTIVO_HOST");
    ("notifiers.pyTivo.name", StringField "PYTIVO_TIVO_NAME");
    ("notifiers.pyTivo.shareName", StringField "PYTIVO_SHARE_NAME");
    ("notifiers.growl.enabled", BooleanField "USE_GROWL");
    ("notifiers.growl.host", StringField "GROWL_HOST");
    ("notifiers.growl.password", StringField "GROWL_PASSWORD");
    ("notifiers.growl.notifyOnSnatch", BooleanField "GROWL_NOTIFY_ONSNATCH");
    ("notifiers.growl.notifyOnDownload", BooleanField "GROWL_NOTIFY_ONDOWNLOAD");
    ("notifiers.growl.notifyOnSubtitleDownload", BooleanField "GROWL_NOTIFY_ONSUBTITLEDOWNLOAD");
    ("notifiers.prowl.enabled", BooleanField "USE_PROWL");
    ("notifiers.prowl.api", ListField "PROWL_API");
    ("notifiers.prowl.messageTitle", StringField "PROWL_MESSAGE_TITLE");
    ("notifiers.prowl.priority", IntegerField "PROWL_PRIORITY");
    ("notifiers.prowl.notifyOnSnatch", BooleanField "PROWL_NOTIFY_ONSNATCH");
    ("notifiers.prowl.notifyOnDownload", BooleanField "PROWL_NOTIFY_ONDOWNLOAD");
    ("notifiers.prowl.notifyOnSubtitleDownload", BooleanField "PROWL_NOTIFY_ONSUBTITLEDOWNLOAD");
    ("notifiers.libnotify.enabled", BooleanField "USE_LIBNOTIFY");
    ("notifiers.libnotify.notifyOnSnatch", BooleanField "LIBNOTIFY_NOTIFY_ONSNATCH");
    ("notifiers.libnotify.notifyOnDownload", BooleanField "LIBNOTIFY_NOTIFY_ONDOWNLOAD");
    ("notifiers.libnotify.notifyOnSubtitleDownload", BooleanField "LIBNOTIFY_NOTIFY_ONSUBTITLEDOWNLOAD");
    ("notifiers.pushover.enabled", BooleanField "USE_PUSHOVER");
    ("notifiers.pushover.apiKey", StringField "PUSHOVER_APIKEY");
    ("notifiers.pushover.userKey", StringField "PUSHOVER_USERKEY");
    ("notifiers.pushover.device", ListField "PUSHOVER_DEVICE");
    ("notifiers.pushover.sound", StringField "PUSHOVER_SOUND");
    ("notifiers.pushover.priority", IntegerField "PUSHOVER_PRIORITY");
    ("notifiers.pushover.notifyOnSnatch", BooleanField "PUSHOVER_NOTIFY_ONSNATCH");
    ("notifiers.pushover.notifyOnDownload", BooleanField "PUSHOVER_NOTIFY_ONDOWNLOAD");
    ("notifiers.pushover.notifyOnSubtitleDownload", BooleanField "PUSHOVER_NOTIFY_ONSUBTITLEDOWNLOAD");
    ("notifiers.boxcar2.enabled", BooleanField "USE_BOXCAR2");
    ("notifiers.boxcar2.accessToken", StringField "BOXCAR2_ACCESSTOKEN");
    ("notifiers.boxcar2.notifyOnSnatch", BooleanField "BOXCAR2_NOTIFY_ONSNATCH");
    ("notifiers.boxcar2.notifyOnDownload", BooleanField "BOXCAR2_NOTIFY_ONDOWNLOAD");
    ("notifiers.boxcar2.notifyOnSubtitleDownload", BooleanField "BOXCAR2_NOTIFY_ONSUBTITLEDOWNLOAD");
    ("notifiers.pushalot.enabled", BooleanField "USE_PUSHALOT");
    ("notifiers.pushalot.authToken", StringField "PUSHALOT_AUTHORIZATIONTOKEN");
    ("notifiers.pushalot.notifyOnSnatch", BooleanField "PUSHALOT_NOTIFY_ONSNATCH");
    ("notifiers.pushalot.notifyOnDownload", BooleanField "PUSHALOT_NOTIFY_ONDOWNLOAD");
    ("notifiers.pushalot.notifyOnSubtitleDownload", BooleanField "PUSHALOT_NOTIFY_ONSUBTITLEDOWNLOAD");
    ("notifiers.pushbullet.enabled", BooleanField "USE_PUSHBULLET");
    ("notifiers.pushbullet.api", StringField "PUSHBULLET_API");
    ("notifiers.pushbullet.device", StringField "PUSHBULLET_DEVICE");
    ("notifiers.pushbullet.notifyOnSnatch", BooleanField "PUSHBULLET_NOTIFY_ONSNATCH");
    ("notifiers.pushbullet.notifyOnDownload", BooleanField "PUSHBULLET_NOTIFY_ONDOWNLOAD");
    ("notifiers.pushbullet.notifyOnSubtitleDownload", BooleanField "PUSHBULLET_NOTIFY_ONSUBTITLEDOWNLOAD");
    ("notifiers.join.enabled", BooleanField "USE_JOIN");
    ("notifiers.join.api", StringField "JOIN_API");
    ("notifiers.join.device", StringField "JOIN_DEVICE");
    ("notifiers.join.notifyOnSnatch", BooleanField "JOIN_NOTIFY_ONSNATCH");
    ("notifiers.join.notifyOnDownload", BooleanField "JOIN_NOTIFY_ONDOWNLOAD");
    ("notifiers.join.notifyOnSubtitleDownload", BooleanField "JOIN_NOTIFY_ONSUBTITLEDOWNLOAD");
    ("notifiers.freemobile.enabled", BooleanField "USE_FREEMOBILE");
    ("notifiers.freemobile.api", StringField "FREEMOBILE_APIKEY");
    ("notifiers.freemobile.id", StringField "FREEMOBILE_ID");
    ("notifiers.freemobile.notifyOnSnatch", BooleanField "FREEMOBILE_NOTIFY_ONSNATCH");
    ("notifiers.freemobile.notifyOnDownload", BooleanField "FREEMOBILE_NOTIFY_ONDOWNLOAD");
    ("notifiers.freemobile.notifyOnSubtitleDownload", BooleanField "FREEMOBILE_NOTIFY_ONSUBTITLEDOWNLOAD");
    ("notifiers.telegram.enabled", BooleanField "USE_TELEGRAM");
    ("notifiers.telegram.api", StringField "TELEGRAM_APIKEY");
    ("notifiers.telegram.id", StringField "TELEGRAM_ID");
    ("notifiers.telegram.notifyOnSnatch", BooleanField "TELEGRAM_NOTIFY_ONSNATCH");
    ("notifiers.telegram.notifyOnDownload", BooleanField "TELEGRAM_NOTIFY_ONDOWNLOAD");
    ("notifiers.telegram.notifyOnSubtitleDownload", BooleanField "TELEGRAM_NOTIFY_ONSUBTITLEDOWNLOAD");
    ("notifiers.twitter.enabled", BooleanField "USE_TWITTER");
    ("notifiers.twitter.dmto", StringField "TWITTER_DMTO");
    ("notifiers.twitter.username", StringField "TWITTER_USERNAME");
    ("notifiers.twitter.password", StringField "TWITTER_PASSWORD");
    ("notifiers.twitter.prefix", StringField "TWITTER_PREFIX");
    ("notifiers.twitter.directMessage", BooleanField "TWITTER_USEDM");
    ("notifiers.twitter.notifyOnSnatch", BooleanField "TWITTER_NOTIFY_ONSNATCH");
    ("notifiers.twitter.notifyOnDownload", BooleanField "TWITTER_NOTIFY_ONDOWNLOAD");
    ("notifiers.twitter.notifyOnSubtitleDownload", BooleanField "TWITTER_NOTIFY_ONSUBTITLEDOWNLOAD");
    ("notifiers.trakt.enabled", BooleanField "USE_TRAKT");
    ("notifiers.trakt.pinUrl", StringField "TRAKT_PIN_URL");
    ("notifiers.trakt.username", StringField "TRAKT_USERNAME");
    ("notifiers.trakt.accessToken", StringField "TRAKT_ACCESS_TOKEN");
    ("notifiers.trakt.timeout", IntegerField "TRAKT_TIMEOUT");
    ("notifiers.trakt.defaultIndexer", IntegerField "TRAKT_DEFAULT_INDEXER");
    ("notifiers.trakt.sync", BooleanField "TRAKT_SYNC");
    ("notifiers.trakt.syncRemove", BooleanField "TRAKT_SYNC_REMOVE");
    ("notifiers.trakt.syncWatchlist", BooleanField "TRAKT_SYNC_WATCHLIST");
    ("notifiers.trakt.methodAdd", IntegerField "TRAKT_METHOD_ADD");
    ("notifiers.trakt.removeWatchlist", BooleanField "TRAKT_REMOVE_WATCHLIST");
    ("notifiers.trakt.removeSerieslist", BooleanField "TRAKT_REMOVE_SERIESLIST");
    ("notifiers.trakt.removeShowFromApplication", BooleanField "TRAKT_REMOVE_SHOW_FROM_APPLICATION");
    ("notifiers.trakt.startPaused", BooleanField "TRAKT_START_PAUSED");
    ("notifiers.trakt.blacklistName", StringField "TRAKT_BLACKLIST_NAME");
    ("notifiers.email.enabled", BooleanField "USE_EMAIL");
    ("notifiers.email.host", StringField "EMAIL_HOST");
    ("notifiers.email.port", IntegerField "EMAIL_PORT");
    ("notifiers.email.from", StringField "EMAIL_FROM");
    ("notifiers.email.tls", BooleanField "EMAIL_TLS");
    ("notifiers.email.username", StringField "EMAIL_USER");
    ("notifiers.email.password", StringField "EMAIL_PASSWORD");
    ("notifiers.email.addressList", ListField "EMAIL_LIST");
    ("notifiers.email.subject", StringField "EMAIL_SUBJECT");
    ("notifiers.email.notifyOnSnatch", BooleanField "EMAIL_NOTIFY_ONSNATCH");
    ("notifiers.email.notifyOnDownload", BooleanField "EMAIL_NOTIFY_ONDOWNLOAD");
    ("notifiers.email.notifyOnSubtitleDownload", BooleanField "EMAIL_NOTIFY_ONSUBTITLEDOWNLOAD");
    ("notifiers.slack.enabled", BooleanField "USE_SLACK");
    ("notifiers.slack.webhook", StringField "SLACK_WEBHOOK");
    ("notifiers.slack.notifyOnSnatch", BooleanField "SLACK_NOTIFY_SNATCH");
    ("notifiers.slack.notifyOnDownload", BooleanField "SLACK_NOTIFY_DOWNLOAD");
    ("notifiers.slack.notifyOnSubtitleDownload", BooleanField "SLACK_NOTIFY_SUBTITLEDOWNLOAD")
  ].

(** *** Read side: the section producers of [DataGenerator]

    Every producer but [data_metadata] is a sequence of item assignments
    into [section_data], listed below in source order ([data_main] lines
    460-631, [data_qualities] 633-678, [data_statuses] 680-700, [data_search]
    715-752, [data_notifiers] 754-953).  An assignment names the container it reaches through
    [section_data[k1]...[kn]], whether that container is a [NonEmptyDict]
    or a plain [dict] (the class it was created with), the key, and the
    right-hand side. *)

Inductive coercion : Type :=
| Raw           (* app.X *)
| Bool_         (* bool(app.X) *)
| Int_          (* int(app.X) *)
| IntOrMinus1.  (* int(app.X) if app.X is not None else -1 *)

Inductive rhs : Type :=
| NewNonEmptyDict
| NewDict
| Attr (c : coercion) (a : string)
| Computed (f : App -> result value).

Record assignment : Type := {
  in_nonempty : bool;
  container : list string;
  item_key : string;
  item_rhs : rhs
}.

Definition nonempty_item (c : list string) (k : string) (r : rhs) : assignment :=
  {| in_nonempty := true; container := c; item_key := k; item_rhs := r |}.

Definition dict_item (c : list string) (k : string) (r : rhs) : assignment :=
  {| in_nonempty := false; container := c; item_key := k; item_rhs := r |}.

Definition coerce (c : coercion) (v : value) : result value :=
  match c with
  | Raw => Ok v
  | Bool_ => bool_ v
  | Int_ => int_ v
  | IntOrMinus1 =>
      match v with
      | VNone => Ok (VInt (-1))
      | _ => int_ v
      end
  end.

Definition eval_rhs (app : App) (r : rhs) : result value :=
  match r with
  | NewNonEmptyDict => Ok (VDict [])
  | NewDict => Ok (VDict [])
  | Attr c a => coerce c (app a)
  | Computed f => f app
  end.

(** [t[k1]...[kn]] reached for an in-place update: a missing key is a
    [KeyError]. *)
Fixpoint update_at (t : dict) (cp : list string) (f : dict -> dict)
  : result dict :=
  match cp with
  | [] => Ok (f t)
  | k :: rest =>
      match dict_get t k with
      | None => Raise KeyError
      | Some (VDict sub) =>
          rbind (update_at sub rest f) (fun sub' => Ok (dict_set t k (VDict sub')))
      | Some _ => Raise TypeError
      end
  end.

Definition setitem (ne : bool) (k : string) (x : value) (d : dict) : dict :=
  if ne then nonempty_setitem d k x else dict_set d k x.

Definition exec_assignment (app : App) (t : dict) (s : assignment)
  : result dict :=
  rbind (eval_rhs app (item_rhs s)) (fun x =>
  update_at t (container s) (setitem (in_nonempty s) (item_key s) x)).

Fixpoint exec (app : App) (body : list assignment) (t : dict) : result dict :=
  match body with
  | [] => Ok t
  | s :: rest => rbind (exec_assignment app t s) (exec app rest)
  end.

(** [for x in v] *)
Definition py_iter (v : value) : result (list value) :=
  match v with
  | VList l => Ok l
  | VStr s => Ok (map (fun c => VStr (String c EmptyString)) (list_ascii_of_string s))
  | VDict d => Ok (map (fun e => VStr (fst e)) d)
  | _ => Raise TypeError
  end.

Definition text_of (v : value) : string :=
  match v with
  | VStr s => s
  | _ => text_type E v
  end.

(** ['.'.join([text_type(loc or 'Unknown') for loc in app.LOCALE])] *)
Definition locale_string (locale : value) : result value :=
  rbind (py_iter locale) (fun l =>
  Ok (VStr (join_dots (map (fun loc => text_of (py_or loc (VStr "Unknown"))) l)))).

Definition data_main_body : list assignment :=
  [
    nonempty_item [] "anonRedirect" (Attr Raw "ANON_REDIRECT");
    nonempty_item [] "animeSplitHome" (Attr Bool_ "ANIME_SPLIT_HOME");
    nonempty_item [] "animeSplitHomeInTabs" (Attr Bool_ "ANIME_SPLIT_HOME_IN_TABS");
    nonempty_item [] "comingEpsSort" (Attr Raw "COMING_EPS_SORT");
    nonempty_item [] "comingEpsDisplayPaused" (Attr Bool_ "COMING_EPS_DISPLAY_PAUSED");
    nonempty_item [] "datePreset" (Attr Raw "DATE_PRESET");
    nonempty_item [] "fuzzyDating" (Attr Bool_ "FUZZY_DATING");
    nonempty_item [] "themeName" (Attr Raw "THEME_NAME");
    nonempty_item [] "posterSortby" (Attr Raw "POSTER_SORTBY");
    nonempty_item [] "posterSortdir" (Attr Raw "POSTER_SORTDIR");
    nonempty_item [] "rootDirs" (Attr Raw "ROOT_DIRS");
    nonempty_item [] "sortArticle" (Attr Bool_ "SORT_ARTICLE");
    nonempty_item [] "timePreset" (Attr Raw "TIME_PRESET");
    nonempty_item [] "trimZero" (Attr Bool_ "TRIM_ZERO");
    nonempty_item [] "fanartBackground" (Attr Bool_ "FANART_BACKGROUND");
    nonempty_item [] "fanartBackgroundOpacity" (Computed (fun app => py_float E (py_or (app "FANART_BACKGROUND_OPACITY") (VInt 0))));
    nonempty_item [] "gitUsername" (Attr Raw "GIT_USERNAME");
    nonempty_item [] "branch" (Attr Raw "BRANCH");
    nonempty_item [] "commitHash" (Attr Raw "CUR_COMMIT_HASH");
    nonempty_item [] "release" (Attr Raw "APP_VERSION");
    nonempty_item [] "sslVersion" (Attr Raw "OPENSSL_VERSION");
    nonempty_item [] "pythonVersion" (Computed (fun _ => external E "sys.version"));
    nonempty_item [] "databaseVersion" (NewNonEmptyDict);
    nonempty_item ["databaseVersion"] "major" (Attr Raw "MAJOR_DB_VERSION");
    nonempty_item ["databaseVersion"] "minor" (Attr Raw "MINOR_DB_VERSION");
    nonempty_item [] "os" (Computed (fun _ => external E "platform.platform()"));
    nonempty_item [] "pid" (Attr Raw "PID");
    nonempty_item [] "locale" (Computed (fun app => locale_string (app "LOCALE")));
    nonempty_item [] "localUser" (Computed (fun app => Ok (py_or (app "OS_USER") (VStr "Unknown"))));
    nonempty_item [] "programDir" (Attr Raw "PROG_DIR");
    nonempty_item [] "dataDir" (Attr Raw "DATA_DIR");
    nonempty_item [] "configFile" (Attr Raw "CONFIG_FILE");
    nonempty_item [] "dbPath" (Computed (fun _ => external E "db.DBConnection().path"));
    nonempty_item [] "cacheDir" (Attr Raw "CACHE_DIR");
    nonempty_item [] "logDir" (Attr Raw "LOG_DIR");
    nonempty_item [] "appArgs" (Attr Raw "MY_ARGS");
    nonempty_item [] "webRoot" (Attr Raw "WEB_ROOT");
    nonempty_item [] "runsInDocker" (Attr Bool_ "RUNS_IN_DOCKER");
    nonempty_item [] "githubUrl" (Attr Raw "GITHUB_IO_URL");
    nonempty_item [] "wikiUrl" (Attr Raw "WIKI_URL");
    nonempty_item [] "donationsUrl" (Attr Raw "DONATIONS_URL");
    nonempty_item [] "sourceUrl" (Attr Raw "APPLICATION_URL");
    nonempty_item [] "downloadUrl" (Attr Raw "DOWNLOAD_URL");
    nonempty_item [] "subtitlesMulti" (Attr Bool_ "SUBTITLES_MULTI");
    nonempty_item [] "namingForceFolders" (Attr Bool_ "NAMING_FORCE_FOLDERS");
    nonempty_item [] "subtitles" (NewNonEmptyDict);
    nonempty_item ["subtitles"] "enabled" (Attr Bool_ "USE_SUBTITLES");
    nonempty_item [] "recentShows" (Attr Raw "SHOWS_RECENT");
    nonempty_item [] "showDefaults" (NewDict);
    dict_item ["showDefaults"] "status" (Attr Raw "STATUS_DEFAULT");
    dict_item ["showDefaults"] "statusAfter" (Attr Raw "STATUS_DEFAULT_AFTER");
    dict_item ["showDefaults"] "quality" (Attr Raw "QUALITY_DEFAULT");
    dict_item ["showDefaults"] "subtitles" (Attr Bool_ "SUBTITLES_DEFAULT");
    dict_item ["showDefaults"] "seasonFolders" (Attr Bool_ "SEASON_FOLDERS_DEFAULT");
    dict_item ["showDefaults"] "anime" (Attr Bool_ "ANIME_DEFAULT");
    dict_item ["showDefaults"] "scene" (Attr Bool_ "SCENE_DEFAULT");
    nonempty_item [] "news" (NewNonEmptyDict);
    nonempty_item ["news"] "lastRead" (Attr Raw "NEWS_LAST_READ");
    nonempty_item ["news"] "latest" (Attr Raw "NEWS_LATEST");
    nonempty_item ["news"] "unread" (Attr Raw "NEWS_UNREAD");
    nonempty_item [] "logs" (NewNonEmptyDict);
    nonempty_item ["logs"] "loggingLevels" (Computed (fun _ => external E "{k.lower(): v for k, v in iteritems(logger.LOGGING_LEVELS)}"));
    nonempty_item ["logs"] "numErrors" (Computed (fun _ => external E "len(classes.ErrorViewer.errors)"));
    nonempty_item ["logs"] "numWarnings" (Computed (fun _ => external E "len(classes.WarningViewer.errors)"));
    nonempty_item [] "failedDownloads" (NewNonEmptyDict);
    nonempty_item ["failedDownloads"] "enabled" (Attr Bool_ "USE_FAILED_DOWNLOADS");
    nonempty_item ["failedDownloads"] "deleteFailed" (Attr Bool_ "DELETE_FAILED");
    nonempty_item [] "torrents" (NewNonEmptyDict);
    nonempty_item ["torrents"] "authType" (Attr Raw "TORRENT_AUTH_TYPE");
    nonempty_item ["torrents"] "dir" (Attr Raw "TORRENT_DIR");
    nonempty_item ["torrents"] "enabled" (Attr Bool_ "USE_TORRENTS");
    nonempty_item ["torrents"] "highBandwidth" (Attr Raw "TORRENT_HIGH_BANDWIDTH");
    nonempty_item ["torrents"] "host" (Attr Raw "TORRENT_HOST");
    nonempty_item ["torrents"] "label" (Attr Raw "TORRENT_LABEL");
    nonempty_item ["torrents"] "labelAnime" (Attr Raw "TORRENT_LABEL_ANIME");
    nonempty_item ["torrents"] "method" (Attr Raw "TORRENT_METHOD");
    nonempty_item ["torrents"] "path" (Attr Raw "TORRENT_PATH");
    nonempty_item ["torrents"] "paused" (Attr Bool_ "TORRENT_PAUSED");
    nonempty_item ["torrents"] "rpcurl" (Attr Raw "TORRENT_RPCURL");
    nonempty_item ["torrents"] "seedLocation" (Attr Raw "TORRENT_SEED_LOCATION");
    nonempty_item ["torrents"] "seedTime" (Attr Raw "TORRENT_SEED_TIME");
    nonempty_item ["torrents"] "username" (Attr Raw "TORRENT_USERNAME");
    nonempty_item ["torrents"] "verifySSL" (Attr Bool_ "TORRENT_VERIFY_CERT");
    nonempty_item [] "nzb" (NewNonEmptyDict);
    nonempty_item ["nzb"] "enabled" (Attr Bool_ "USE_NZBS");
    nonempty_item ["nzb"] "dir" (Attr Raw "NZB_DIR");
    nonempty_item ["nzb"] "method" (Attr Raw "NZB_METHOD");
    nonempty_item ["nzb"] "nzbget" (NewNonEmptyDict);
    nonempty_item ["nzb"; "nzbget"] "category" (Attr Raw "NZBGET_CATEGORY");
    nonempty_item ["nzb"; "nzbget"] "categoryAnime" (Attr Raw "NZBGET_CATEGORY_ANIME");
    nonempty_item ["nzb"; "nzbget"] "categoryAnimeBacklog" (Attr Raw "NZBGET_CATEGORY_ANIME_BACKLOG");
    nonempty_item ["nzb"; "nzbget"] "categoryBacklog" (Attr Raw "NZBGET_CATEGORY_BACKLOG");
    nonempty_item ["nzb"; "nzbget"] "host" (Attr Raw "NZBGET_HOST");
    nonempty_item ["nzb"; "nzbget"] "priority" (Attr Raw "NZBGET_PRIORITY");
    nonempty_item ["nzb"; "nzbget"] "useHttps" (Attr Bool_ "NZBGET_USE_HTTPS");
    nonempty_item ["nzb"; "nzbget"] "username" (Attr Raw "NZBGET_USERNAME");
    nonempty_item ["nzb"] "sabnzbd" (NewNonEmptyDict);
    nonempty_item ["nzb"; "sabnzbd"] "category" (Attr Raw "SAB_CATEGORY");
    nonempty_item ["nzb"; "sabnzbd"] "categoryAnime" (Attr Raw "SAB_CATEGORY_ANIME");
    nonempty_item ["nzb"; "sabnzbd"] "categoryAnimeBacklog" (Attr Raw "SAB_CATEGORY_ANIME_BACKLOG");
    nonempty_item ["nzb"; "sabnzbd"] "categoryBacklog" (Attr Raw "SAB_CATEGORY_BACKLOG");
    nonempty_item ["nzb"; "sabnzbd"] "forced" (Attr Bool_ "SAB_FORCED");
    nonempty_item ["nzb"; "sabnzbd"] "host" (Attr Raw "SAB_HOST");
    nonempty_item ["nzb"; "sabnzbd"] "username" (Attr Raw "SAB_USERNAME");
    nonempty_item [] "layout" (NewNonEmptyDict);
    nonempty_item ["layout"] "schedule" (Attr Raw "COMING_EPS_LAYOUT");
    nonempty_item ["layout"] "history" (Attr Raw "HISTORY_LAYOUT");
    nonempty_item ["layout"] "home" (Attr Raw "HOME_LAYOUT");
    nonempty_item ["layout"] "show" (NewNonEmptyDict);
    nonempty_item ["layout"; "show"] "allSeasons" (Attr Bool_ "DISPLAY_ALL_SEASONS");
    nonempty_item ["layout"; "show"] "specials" (Attr Bool_ "DISPLAY_SHOW_SPECIALS");
    nonempty_item ["layout"; "show"] "showListOrder" (Attr Raw "SHOW_LIST_ORDER");
    nonempty_item [] "selectedRootIndex" (Attr IntOrMinus1 "SELECTED_ROOT");
    nonempty_item [] "backlogOverview" (NewNonEmptyDict);
    nonempty_item ["backlogOverview"] "period" (Attr Raw "BACKLOG_PERIOD");
    nonempty_item ["backlogOverview"] "status" (Attr Raw "BACKLOG_STATUS");
    nonempty_item [] "indexers" (NewNonEmptyDict);
    nonempty_item ["indexers"] "config" (Computed (fun _ => external E "get_indexer_config()"));
    nonempty_item [] "postProcessing" (NewNonEmptyDict);
    nonempty_item ["postProcessing"] "naming" (NewNonEmptyDict);
    nonempty_item ["postProcessing"; "naming"] "pattern" (Attr Raw "NAMING_PATTERN");
    nonempty_item ["postProcessing"; "naming"] "multiEp" (Attr Int_ "NAMING_MULTI_EP");
    nonempty_item ["postProcessing"; "naming"] "patternAirByDate" (Attr Raw "NAMING_ABD_PATTERN");
    nonempty_item ["postProcessing"; "naming"] "patternSports" (Attr Raw "NAMING_SPORTS_PATTERN");
    nonempty_item ["postProcessing"; "naming"] "patternAnime" (Attr Raw "NAMING_ANIME_PATTERN");
    nonempty_item ["postProcessing"; "naming"] "enableCustomNamingAirByDate" (Attr Bool_ "NAMING_CUSTOM_ABD");
    nonempty_item ["postProcessing"; "naming"] "enableCustomNamingSports" (Attr Bool_ "NAMING_CUSTOM_SPORTS");
    nonempty_item ["postProcessing"; "naming"] "enableCustomNamingAnime" (Attr Bool_ "NAMING_CUSTOM_ANIME");
    nonempty_item ["postProcessing"; "naming"] "animeMultiEp" (Attr Int_ "NAMING_ANIME_MULTI_EP");
    nonempty_item ["postProcessing"; "naming"] "animeNamingType" (Attr Int_ "NAMING_ANIME");
    nonempty_item ["postProcessing"; "naming"] "stripYear" (Attr Bool_ "NAMING_STRIP_YEAR");
    nonempty_item ["postProcessing"] "showDownloadDir" (Attr Raw "TV_DOWNLOAD_DIR");
    nonempty_item ["postProcessing"] "processAutomatically" (Attr Bool_ "PROCESS_AUTOMATICALLY");
    nonempty_item ["postProcessing"] "postponeIfSyncFiles" (Attr Bool_ "POSTPONE_IF_SYNC_FILES");
    nonempty_item ["postProcessing"] "postponeIfNoSubs" (Attr Bool_ "POSTPONE_IF_NO_SUBS");
    nonempty_item ["postProcessing"] "renameEpisodes" (Attr Bool_ "RENAME_EPISODES");
    nonempty_item ["postProcessing"] "createMissingShowDirs" (Attr Bool_ "CREATE_MISSING_SHOW_DIRS");
    nonempty_item ["postProcessing"] "addShowsWithoutDir" (Attr Bool_ "ADD_SHOWS_WO_DIR");
    nonempty_item ["postProcessing"] "moveAssociatedFiles" (Attr Bool_ "MOVE_ASSOCIATED_FILES");
    nonempty_item ["postProcessing"] "nfoRename" (Attr Bool_ "NFO_RENAME");
    nonempty_item ["postProcessing"] "airdateEpisodes" (Attr Bool_ "AIRDATE_EPISODES");
    nonempty_item ["postProcessing"] "unpack" (Attr Bool_ "UNPACK");
    nonempty_item ["postProcessing"] "deleteRarContent" (Attr Bool_ "DELRARCONTENTS");
    nonempty_item ["postProcessing"] "noDelete" (Attr Bool_ "NO_DELETE");
    nonempty_item ["postProcessing"] "processMethod" (Attr Raw "PROCESS_METHOD");
    nonempty_item ["postProcessing"] "reflinkAvailable" (Computed (fun _ => external E "bool(pkgutil.find_loader(reflink))"));
    nonempty_item ["postProcessing"] "autoPostprocessorFrequency" (Attr Int_ "AUTOPOSTPROCESSOR_FREQUENCY");
    nonempty_item ["postProcessing"] "syncFiles" (Attr Raw "SYNC_FILES");
    nonempty_item ["postProcessing"] "fileTimestampTimezone" (Attr Raw "FILE_TIMESTAMP_TIMEZONE");
    nonempty_item ["postProcessing"] "allowedExtensions" (Attr Raw "ALLOWED_EXTENSIONS");
    nonempty_item ["postProcessing"] "extraScripts" (Attr Raw "EXTRA_SCRIPTS");
    nonempty_item ["postProcessing"] "extraScriptsUrl" (Attr Raw "EXTRA_SCRIPTS_URL");
    nonempty_item ["postProcessing"] "multiEpStrings" (Computed (fun _ => Ok (common E "MULTI_EP_STRINGS")))
  ].

Definition data_qualities_body : list assignment :=
  [
    nonempty_item [] "values" (NewNonEmptyDict);
    nonempty_item ["values"] "na" (Computed (fun _ => Ok (common E "Quality.NA")));
    nonempty_item ["values"] "unknown" (Computed (fun _ => Ok (common E "Quality.UNKNOWN")));
    nonempty_item ["values"] "sdtv" (Computed (fun _ => Ok (common E "Quality.SDTV")));
    nonempty_item ["values"] "sddvd" (Computed (fun _ => Ok (common E "Quality.SDDVD")));
    nonempty_item ["values"] "hdtv" (Computed (fun _ => Ok (common E "Quality.HDTV")));
    nonempty_item ["values"] "rawhdtv" (Computed (fun _ => Ok (common E "Quality.RAWHDTV")));
    nonempty_item ["values"] "fullhdtv" (Computed (fun _ => Ok (common E "Quality.FULLHDTV")));
    nonempty_item ["values"] "hdwebdl" (Computed (fun _ => Ok (common E "Quality.HDWEBDL")));
    nonempty_item ["values"] "fullhdwebdl" (Computed (fun _ => Ok (common E "Quality.FULLHDWEBDL")));
    nonempty_item ["values"] "hdbluray" (Computed (fun _ => Ok (common E "Quality.HDBLURAY")));
    nonempty_item ["values"] "fullhdbluray" (Computed (fun _ => Ok (common E "Quality.FULLHDBLURAY")));
    nonempty_item ["values"] "uhd4ktv" (Computed (fun _ => Ok (common E "Quality.UHD_4K_TV")));
    nonempty_item ["values"] "uhd4kwebdl" (Computed (fun _ => Ok (common E "Quality.UHD_4K_WEBDL")));
    nonempty_item ["values"] "uhd4kbluray" (Computed (fun _ => Ok (common E "Quality.UHD_4K_BLURAY")));
    nonempty_item ["values"] "uhd8ktv" (Computed (fun _ => Ok (common E "Quality.UHD_8K_TV")));
    nonempty_item ["values"] "uhd8kwebdl" (Computed (fun _ => Ok (common E "Quality.UHD_8K_WEBDL")));
    nonempty_item ["values"] "uhd8kbluray" (Computed (fun _ => Ok (common E "Quality.UHD_8K_BLURAY")));
    nonempty_item [] "anySets" (NewNonEmptyDict);
    nonempty_item ["anySets"] "anyhdtv" (Computed (fun _ => Ok (common E "Quality.ANYHDTV")));
    nonempty_item ["anySets"] "anywebdl" (Computed (fun _ => Ok (common E "Quality.ANYWEBDL")));
    nonempty_item ["anySets"] "anybluray" (Computed (fun _ => Ok (common E "Quality.ANYBLURAY")));
    nonempty_item [] "presets" (NewNonEmptyDict);
    nonempty_item ["presets"] "any" (Computed (fun _ => Ok (common E "ANY")));
    nonempty_item ["presets"] "sd" (Computed (fun _ => Ok (common E "SD")));
    nonempty_item ["presets"] "hd" (Computed (fun _ => Ok (common E "HD")));
    nonempty_item ["presets"] "hd720p" (Computed (fun _ => Ok (common E "HD720p")));
    nonempty_item ["presets"] "hd1080p" (Computed (fun _ => Ok (common E "HD1080p")));
    nonempty_item ["presets"] "uhd" (Computed (fun _ => Ok (common E "UHD")));
    nonempty_item ["presets"] "uhd4k" (Computed (fun _ => Ok (common E "UHD_4K")));
    nonempty_item ["presets"] "uhd8k" (Computed (fun _ => Ok (common E "UHD_8K")));
    nonempty_item [] "strings" (NewNonEmptyDict);
    nonempty_item ["strings"] "values" (Computed (fun _ => Ok (common E "Quality.qualityStrings")));
    nonempty_item ["strings"] "anySets" (Computed (fun _ => Ok (common E "Quality.combinedQualityStrings")));
    nonempty_item ["strings"] "presets" (Computed (fun _ => Ok (common E "qualityPresetStrings")));
    nonempty_item ["strings"] "cssClass" (Computed (fun _ => Ok (common E "Quality.cssClassStrings")))
  ].

Definition data_statuses_body : list assignment :=
  [
    nonempty_item [] "values" (NewNonEmptyDict);
    nonempty_item ["values"] "unset" (Computed (fun _ => Ok (common E "UNSET")));
    nonempty_item ["values"] "unaired" (Computed (fun _ => Ok (common E "UNAIRED")));
    nonempty_item ["values"] "snatched" (Computed (fun _ => Ok (common E "SNATCHED")));
    nonempty_item ["values"] "wanted" (Computed (fun _ => Ok (common E "WANTED")));
    nonempty_item ["values"] "downloaded" (Computed (fun _ => Ok (common E "DOWNLOADED")));
    nonempty_item ["values"] "skipped" (Computed (fun _ => Ok (common E "SKIPPED")));
    nonempty_item ["values"] "archived" (Computed (fun _ => Ok (common E "ARCHIVED")));
    nonempty_item ["values"] "ignored" (Computed (fun _ => Ok (common E "IGNORED")));
    nonempty_item ["values"] "snatchedProper" (Computed (fun _ => Ok (common E "SNATCHED_PROPER")));
    nonempty_item ["values"] "subtitled" (Computed (fun _ => Ok (common E "SUBTITLED")));
    nonempty_item ["values"] "failed" (Computed (fun _ => Ok (common E "FAILED")));
    nonempty_item ["values"] "snatchedBest" (Computed (fun _ => Ok (common E "SNATCHED_BEST")));
    nonempty_item [] "strings" (Computed (fun _ => Ok (common E "statusStrings")))
  ].

Definition data_search_body : list assignment :=
  [
    nonempty_item [] "general" (NewNonEmptyDict);
    nonempty_item ["general"] "randomizeProviders" (Attr Bool_ "RANDOMIZE_PROVIDERS");
    nonempty_item ["general"] "downloadPropers" (Attr Bool_ "DOWNLOAD_PROPERS");
    nonempty_item ["general"] "checkPropersInterval" (Attr Raw "CHECK_PROPERS_INTERVAL");
    nonempty_item ["general"] "propersSearchDays" (Attr Int_ "PROPERS_SEARCH_DAYS");
    nonempty_item ["general"] "backlogDays" (Attr Int_ "BACKLOG_DAYS");
    nonempty_item ["general"] "backlogFrequency" (Attr Int_ "BACKLOG_FREQUENCY");
    nonempty_item ["general"] "minBacklogFrequency" (Attr Int_ "MIN_BACKLOG_FREQUENCY");
    nonempty_item ["general"] "dailySearchFrequency" (Attr Int_ "DAILYSEARCH_FREQUENCY");
    nonempty_item ["general"] "minDailySearchFrequency" (Attr Int_ "MIN_DAILYSEARCH_FREQUENCY");
    nonempty_item ["general"] "removeFromClient" (Attr Bool_ "REMOVE_FROM_CLIENT");
    nonempty_item ["general"] "torrentCheckerFrequency" (Attr Int_ "TORRENT_CHECKER_FREQUENCY");
    nonempty_item ["general"] "minTorrentCheckerFrequency" (Attr Int_ "MIN_TORRENT_CHECKER_FREQUENCY");
    nonempty_item ["general"] "usenetRetention" (Attr Int_ "USENET_RETENTION");
    nonempty_item ["general"] "trackersList" (Attr Raw "TRACKERS_LIST");
    nonempty_item ["general"] "allowHighPriority" (Attr Bool_ "ALLOW_HIGH_PRIORITY");
    nonempty_item ["general"] "useFailedDownloads" (Attr Bool_ "USE_FAILED_DOWNLOADS");
    nonempty_item ["general"] "deleteFailed" (Attr Bool_ "DELETE_FAILED");
    nonempty_item ["general"] "cacheTrimming" (Attr Bool_ "CACHE_TRIMMING");
    nonempty_item ["general"] "maxCacheAge" (Attr Int_ "MAX_CACHE_AGE");
    nonempty_item [] "filters" (NewNonEmptyDict);
    nonempty_item ["filters"] "ignored" (Attr Raw "IGNORE_WORDS");
    nonempty_item ["filters"] "undesired" (Attr Raw "UNDESIRED_WORDS");
    nonempty_item ["filters"] "preferred" (Attr Raw "PREFERRED_WORDS");
    nonempty_item ["filters"] "required" (Attr Raw "REQUIRE_WORDS");
    nonempty_item ["filters"] "ignoredSubsList" (Attr Raw "IGNORED_SUBS_LIST");
    nonempty_item ["filters"] "ignoreUnknownSubs" (Attr Bool_ "IGNORE_UND_SUBS")
  ].

Definition data_notifiers_body : list assignment :=
  [
    nonempty_item [] "kodi" (NewNonEmptyDict);
    nonempty_item ["kodi"] "enabled" (Attr Bool_ "USE_KODI");
    nonempty_item ["kodi"] "alwaysOn" (Attr Bool_ "KODI_ALWAYS_ON");
    nonempty_item ["kodi"] "notifyOnSnatch" (Attr Bool_ "KODI_NOTIFY_ONSNATCH");
    nonempty_item ["kodi"] "notifyOnDownload" (Attr Bool_ "KODI_NOTIFY_ONDOWNLOAD");
    nonempty_item ["kodi"] "notifyOnSubtitleDownload" (Attr Bool_ "KODI_NOTIFY_ONSUBTITLEDOWNLOAD");
    nonempty_item ["kodi"] "update" (NewNonEmptyDict);
    nonempty_item ["kodi"; "update"] "library" (Attr Bool_ "KODI_UPDATE_LIBRARY");
    nonempty_item ["kodi"; "update"] "full" (Attr Bool_ "KODI_UPDATE_FULL");
    nonempty_item ["kodi"; "update"] "onlyFirst" (Attr Bool_ "KODI_UPDATE_ONLYFIRST");
    nonempty_item ["kodi"] "host" (Attr Raw "KODI_HOST");
    nonempty_item ["kodi"] "username" (Attr Raw "KODI_USERNAME");
    nonempty_item ["kodi"] "password" (Attr Raw "KODI_PASSWORD");
    nonempty_item ["kodi"] "libraryCleanPending" (Attr Bool_ "KODI_LIBRARY_CLEAN_PENDING");
    nonempty_item ["kodi"] "cleanLibrary" (Attr Bool_ "KODI_CLEAN_LIBRARY");
    nonempty_item [] "plex" (NewNonEmptyDict);
    nonempty_item ["plex"] "server" (NewNonEmptyDict);
    nonempty_item ["plex"; "server"] "enabled" (Attr Bool_ "USE_PLEX_SERVER");
    nonempty_item ["plex"; "server"] "updateLibrary" (Attr Bool_ "PLEX_UPDATE_LIBRARY");
    nonempty_item ["plex"; "server"] "host" (Attr Raw "PLEX_SERVER_HOST");
    nonempty_item ["plex"; "server"] "https" (Attr Bool_ "PLEX_SERVER_HTTPS");
    nonempty_item ["plex"; "server"] "username" (Attr Raw "PLEX_SERVER_USERNAME");
    nonempty_item ["plex"; "server"] "password" (Attr Raw "PLEX_SERVER_PASSWORD");
    nonempty_item ["plex"; "server"] "token" (Attr Raw "PLEX_SERVER_TOKEN");
    nonempty_item ["plex"] "client" (NewNonEmptyDict);
    nonempty_item ["plex"; "client"] "enabled" (Attr Bool_ "USE_PLEX_CLIENT");
    nonempty_item ["plex"; "client"] "username" (Attr Raw "PLEX_CLIENT_USERNAME");
    nonempty_item ["plex"; "client"] "host" (Attr Raw "PLEX_CLIENT_HOST");
    nonempty_item ["plex"; "client"] "notifyOnSnatch" (Attr Bool_ "PLEX_NOTIFY_ONSNATCH");
    nonempty_item ["plex"; "client"] "notifyOnDownload" (Attr Bool_ "PLEX_NOTIFY_ONDOWNLOAD");
    nonempty_item ["plex"; "client"] "notifyOnSubtitleDownload" (Attr Bool_ "PLEX_NOTIFY_ONSUBTITLEDOWNLOAD");
    nonempty_item [] "emby" (NewNonEmptyDict);
    nonempty_item ["emby"] "enabled" (Attr Bool_ "USE_EMBY");
    nonempty_item ["emby"] "host" (Attr Raw "EMBY_HOST");
    nonempty_item ["emby"] "apiKey" (Attr Raw "EMBY_APIKEY");
    nonempty_item [] "nmj" (NewNonEmptyDict);
    nonempty_item ["nmj"] "enabled" (Attr Bool_ "USE_NMJ");
    nonempty_item ["nmj"] "host" (Attr Raw "NMJ_HOST");
    nonempty_item ["nmj"] "database" (Attr Raw "NMJ_DATABASE");
    nonempty_item ["nmj"] "mount" (Attr Raw "NMJ_MOUNT");
    nonempty_item [] "nmjv2" (NewNonEmptyDict);
    nonempty_item ["nmjv2"] "enabled" (Attr Bool_ "USE_NMJv2");
    nonempty_item ["nmjv2"] "host" (Attr Raw "NMJv2_HOST");
    nonempty_item ["nmjv2"] "dbloc" (Attr Raw "NMJv2_DBLOC");
    nonempty_item ["nmjv2"] "database" (Attr Raw "NMJv2_DATABASE");
    nonempty_item [] "synologyIndex" (NewNonEmptyDict);
    nonempty_item ["synologyIndex"] "enabled" (Attr Bool_ "USE_SYNOINDEX");
    nonempty_item [] "synology" (NewNonEmptyDict);
    nonempty_item ["synology"] "enabled" (Attr Bool_ "USE_SYNOLOGYNOTIFIER");
    nonempty_item ["synology"] "notifyOnSnatch" (Attr Bool_ "SYNOLOGYNOTIFIER_NOTIFY_ONSNATCH");
    nonempty_item ["synology"] "notifyOnDownload" (Attr Bool_ "SYNOLOGYNOTIFIER_NOTIFY_ONDOWNLOAD");
    nonempty_item ["synology"] "notifyOnSubtitleDownload" (Attr Bool_ "SYNOLOGYNOTIFIER_NOTIFY_ONSUBTITLEDOWNLOAD");
    nonempty_item [] "pyTivo" (NewNonEmptyDict);
    nonempty_item ["pyTivo"] "enabled" (Attr Bool_ "USE_PYTIVO");
    nonempty_item ["pyTivo"] "host" (Attr Raw "PYTIVO_HOST");
    nonempty_item ["pyTivo"] "name" (Attr Raw "PYTIVO_TIVO_NAME");
    nonempty_item ["pyTivo"] "shareName" (Attr Raw "PYTIVO_SHARE_NAME");
    nonempty_item [] "growl" (NewNonEmptyDict);
    nonempty_item ["growl"] "enabled" (Attr Bool_ "USE_GROWL");
    nonempty_item ["growl"] "host" (Attr Raw "GROWL_HOST");
    nonempty_item ["growl"] "password" (Attr Raw "GROWL_PASSWORD");
    nonempty_item ["growl"] "notifyOnSnatch" (Attr Bool_ "GROWL_NOTIFY_ONSNATCH");
    nonempty_item ["growl"] "notifyOnDownload" (Attr Bool_ "GROWL_NOTIFY_ONDOWNLOAD");
    nonempty_item ["growl"] "notifyOnSubtitleDownload" (Attr Bool_ "GROWL_NOTIFY_ONSUBTITLEDOWNLOAD");
    nonempty_item [] "prowl" (NewNonEmptyDict);
    nonempty_item ["prowl"] "enabled" (Attr Bool_ "USE_PROWL");
    nonempty_item ["prowl"] "api" (Attr Raw "PROWL_API");
    nonempty_item ["prowl"] "messageTitle" (Attr Raw "PROWL_MESSAGE_TITLE");
    nonempty_item ["prowl"] "priority" (Attr Int_ "PROWL_PRIORITY");
    nonempty_item ["prowl"] "notifyOnSnatch" (Attr Bool_ "PROWL_NOTIFY_ONSNATCH");
    nonempty_item ["prowl"] "notifyOnDownload" (Attr Bool_ "PROWL_NOTIFY_ONDOWNLOAD");
    nonempty_item ["prowl"] "notifyOnSubtitleDownload" (Attr Bool_ "PROWL_NOTIFY_ONSUBTITLEDOWNLOAD");
    nonempty_item [] "libnotify" (NewNonEmptyDict);
    nonempty_item ["libnotify"] "enabled" (Attr Bool_ "USE_LIBNOTIFY");
    nonempty_item ["libnotify"] "notifyOnSnatch" (Attr Bool_ "LIBNOTIFY_NOTIFY_ONSNATCH");
    nonempty_item ["libnotify"] "notifyOnDownload" (Attr Bool_ "LIBNOTIFY_NOTIFY_ONDOWNLOAD");
    nonempty_item ["libnotify"] "notifyOnSubtitleDownload" (Attr Bool_ "LIBNOTIFY_NOTIFY_ONSUBTITLEDOWNLOAD");
    nonempty_item [] "pushover" (NewNonEmptyDict);
    nonempty_item ["pushover"] "enabled" (Attr Bool_ "USE_PUSHOVER");
    nonempty_item ["pushover"] "apiKey" (Attr Raw "PUSHOVER_APIKEY");
    nonempty_item ["pushover"] "userKey" (Attr Raw "PUSHOVER_USERKEY");
    nonempty_item ["pushover"] "device" (Attr Raw "PUSHOVER_DEVICE");
    nonempty_item ["pushover"] "sound" (Attr Raw "PUSHOVER_SOUND");
    nonempty_item ["pushover"] "priority" (Attr Int_ "PUSHOVER_PRIORITY");
    nonempty_item ["pushover"] "notifyOnSnatch" (Attr Bool_ "PUSHOVER_NOTIFY_ONSNATCH");
    nonempty_item ["pushover"] "notifyOnDownload" (Attr Bool_ "PUSHOVER_NOTIFY_ONDOWNLOAD");
    nonempty_item ["pushover"] "notifyOnSubtitleDownload" (Attr Bool_ "PUSHOVER_NOTIFY_ONSUBTITLEDOWNLOAD");
    nonempty_item [] "boxcar2" (NewNonEmptyDict);
    nonempty_item ["boxcar2"] "enabled" (Attr Bool_ "USE_BOXCAR2");
    nonempty_item ["boxcar2"] "notifyOnSnatch" (Attr Bool_ "BOXCAR2_NOTIFY_ONSNATCH");
    nonempty_item ["boxcar2"] "notifyOnDownload" (Attr Bool_ "BOXCAR2_NOTIFY_ONDOWNLOAD");
    nonempty_item ["boxcar2"] "notifyOnSubtitleDownload" (Attr Bool_ "BOXCAR2_NOTIFY_ONSUBTITLEDOWNLOAD");
    nonempty_item ["boxcar2"] "accessToken" (Attr Raw "BOXCAR2_ACCESSTOKEN");
    nonempty_item [] "pushalot" (NewNonEmptyDict);
    nonempty_item ["pushalot"] "enabled" (Attr Bool_ "USE_PUSHALOT");
    nonempty_item ["pushalot"] "notifyOnSnatch" (Attr Bool_ "PUSHALOT_NOTIFY_ONSNATCH");
    nonempty_item ["pushalot"] "notifyOnDownload" (Attr Bool_ "PUSHALOT_NOTIFY_ONDOWNLOAD");
    nonempty_item ["pushalot"] "notifyOnSubtitleDownload" (Attr Bool_ "PUSHALOT_NOTIFY_ONSUBTITLEDOWNLOAD");
    nonempty_item ["pushalot"] "authToken" (Attr Raw "PUSHALOT_AUTHORIZATIONTOKEN");
    nonempty_item [] "pushbullet" (NewNonEmptyDict);
    nonempty_item ["pushbullet"] "enabled" (Attr Bool_ "USE_PUSHBULLET");
    nonempty_item ["pushbullet"] "notifyOnSnatch" (Attr Bool_ "PUSHBULLET_NOTIFY_ONSNATCH");
    nonempty_item ["pushbullet"] "notifyOnDownload" (Attr Bool_ "PUSHBULLET_NOTIFY_ONDOWNLOAD");
    nonempty_item ["pushbullet"] "notifyOnSubtitleDownload" (Attr Bool_ "PUSHBULLET_NOTIFY_ONSUBTITLEDOWNLOAD");
    nonempty_item ["pushbullet"] "api" (Attr Raw "PUSHBULLET_API");
    nonempty_item ["pushbullet"] "device" (Attr Raw "PUSHBULLET_DEVICE");
    nonempty_item [] "join" (NewNonEmptyDict);
    nonempty_item ["join"] "enabled" (Attr Bool_ "USE_JOIN");
    nonempty_item ["join"] "notifyOnSnatch" (Attr Bool_ "JOIN_NOTIFY_ONSNATCH");
    nonempty_item ["join"] "notifyOnDownload" (Attr Bool_ "JOIN_NOTIFY_ONDOWNLOAD");
    nonempty_item ["join"] "notifyOnSubtitleDownload" (Attr Bool_ "JOIN_NOTIFY_ONSUBTITLEDOWNLOAD");
    nonempty_item ["join"] "api" (Attr Raw "JOIN_API");
    nonempty_item ["join"] "device" (Attr Raw "JOIN_DEVICE");
    nonempty_item [] "freemobile" (NewNonEmptyDict);
    nonempty_item ["freemobile"] "enabled" (Attr Bool_ "USE_FREEMOBILE");
    nonempty_item ["freemobile"] "notifyOnSnatch" (Attr Bool_ "FREEMOBILE_NOTIFY_ONSNATCH");
    nonempty_item ["freemobile"] "notifyOnDownload" (Attr Bool_ "FREEMOBILE_NOTIFY_ONDOWNLOAD");
    nonempty_item ["freemobile"] "notifyOnSubtitleDownload" (Attr Bool_ "FREEMOBILE_NOTIFY_ONSUBTITLEDOWNLOAD");
    nonempty_item ["freemobile"] "api" (Attr Raw "FREEMOBILE_APIKEY");
    nonempty_item ["freemobile"] "id" (Attr Raw "FREEMOBILE_ID");
    nonempty_item [] "telegram" (NewNonEmptyDict);
    nonempty_item ["telegram"] "enabled" (Attr Bool_ "USE_TELEGRAM");
    nonempty_item ["telegram"] "notifyOnSnatch" (Attr Bool_ "TELEGRAM_NOTIFY_ONSNATCH");
    nonempty_item ["telegram"] "notifyOnDownload" (Attr Bool_ "TELEGRAM_NOTIFY_ONDOWNLOAD");
    nonempty_item ["telegram"] "notifyOnSubtitleDownload" (Attr Bool_ "TELEGRAM_NOTIFY_ONSUBTITLEDOWNLOAD");
    nonempty_item ["telegram"] "api" (Attr Raw "TELEGRAM_APIKEY");
    nonempty_item ["telegram"] "id" (Attr Raw "TELEGRAM_ID");
    nonempty_item [] "twitter" (NewNonEmptyDict);
    nonempty_item ["twitter"] "enabled" (Attr Bool_ "USE_TWITTER");
    nonempty_item ["twitter"] "notifyOnSnatch" (Attr Bool_ "TWITTER_NOTIFY_ONSNATCH");
    nonempty_item ["twitter"] "notifyOnDownload" (Attr Bool_ "TWITTER_NOTIFY_ONDOWNLOAD");
    nonempty_item ["twitter"] "notifyOnSubtitleDownload" (Attr Bool_ "TWITTER_NOTIFY_ONSUBTITLEDOWNLOAD");
    nonempty_item ["twitter"] "dmto" (Attr Raw "TWITTER_DMTO");
    nonempty_item ["twitter"] "username" (Attr Raw "TWITTER_USERNAME");
    nonempty_item ["twitter"] "password" (Attr Raw "TWITTER_PASSWORD");
    nonempty_item ["twitter"] "prefix" (Attr Raw "TWITTER_PREFIX");
    nonempty_item ["twitter"] "directMessage" (Attr Bool_ "TWITTER_USEDM");
    nonempty_item [] "trakt" (NewNonEmptyDict);
    nonempty_item ["trakt"] "enabled" (Attr Bool_ "USE_TRAKT");
    nonempty_item ["trakt"] "pinUrl" (Attr Raw "TRAKT_PIN_URL");
    nonempty_item ["trakt"] "username" (Attr Raw "TRAKT_USERNAME");
    nonempty_item ["trakt"] "accessToken" (Attr Raw "TRAKT_ACCESS_TOKEN");
    nonempty_item ["trakt"] "timeout" (Attr Int_ "TRAKT_TIMEOUT");
    nonempty_item ["trakt"] "defaultIndexer" (Attr Int_ "TRAKT_DEFAULT_INDEXER");
    nonempty_item ["trakt"] "sync" (Attr Bool_ "TRAKT_SYNC");
    nonempty_item ["trakt"] "syncRemove" (Attr Bool_ "TRAKT_SYNC_REMOVE");
    nonempty_item ["trakt"] "syncWatchlist" (Attr Bool_ "TRAKT_SYNC_WATCHLIST");
    nonempty_item ["trakt"] "methodAdd" (Attr Int_ "TRAKT_METHOD_ADD");
    nonempty_item ["trakt"] "removeWatchlist" (Attr Bool_ "TRAKT_REMOVE_WATCHLIST");
    nonempty_item ["trakt"] "removeSerieslist" (Attr Bool_ "TRAKT_REMOVE_SERIESLIST");
    nonempty_item ["trakt"] "removeShowFromApplication" (Attr Bool_ "TRAKT_REMOVE_SHOW_FROM_APPLICATION");
    nonempty_item ["trakt"] "startPaused" (Attr Bool_ "TRAKT_START_PAUSED");
    nonempty_item ["trakt"] "blacklistName" (Attr Raw "TRAKT_BLACKLIST_NAME");
    nonempty_item [] "email" (NewNonEmptyDict);
    nonempty_item ["email"] "enabled" (Attr Bool_ "USE_EMAIL");
    nonempty_item ["email"] "notifyOnSnatch" (Attr Bool_ "EMAIL_NOTIFY_ONSNATCH");
    nonempty_item ["email"] "notifyOnDownload" (Attr Bool_ "EMAIL_NOTIFY_ONDOWNLOAD");
    nonempty_item ["email"] "notifyOnSubtitleDownload" (Attr Bool_ "EMAIL_NOTIFY_ONSUBTITLEDOWNLOAD");
    nonempty_item ["email"] "host" (Attr Raw "EMAIL_HOST");
    nonempty_item ["email"] "port" (Attr Raw "EMAIL_PORT");
    nonempty_item ["email"] "from" (Attr Raw "EMAIL_FROM");
    nonempty_item ["email"] "tls" (Attr Bool_ "EMAIL_TLS");
    nonempty_item ["email"] "username" (Attr Raw "EMAIL_USER");
    nonempty_item ["email"] "password" (Attr Raw "EMAIL_PASSWORD");
    nonempty_item ["email"] "addressList" (Attr Raw "EMAIL_LIST");
    nonempty_item ["email"] "subject" (Attr Raw "EMAIL_SUBJECT");
    nonempty_item [] "slack" (NewNonEmptyDict);
    nonempty_item ["slack"] "enabled" (Attr Bool_ "USE_SLACK");
    nonempty_item ["slack"] "notifyOnSnatch" (Attr Bool_ "SLACK_NOTIFY_SNATCH");
    nonempty_item ["slack"] "notifyOnDownload" (Attr Bool_ "SLACK_NOTIFY_DOWNLOAD");
    nonempty_item ["slack"] "notifyOnSubtitleDownload" (Attr Bool_ "SLACK_NOTIFY_SUBTITLEDOWNLOAD");
    nonempty_item ["slack"] "webhook" (Attr Raw "SLACK_WEBHOOK")
  ].
Definition run_section (body : list assignment) (app : App) : result dict :=
  exec app body [].

Definition data_main := run_section data_main_body.
Definition data_qualities := run_section data_qualities_body.
Definition data_statuses := run_section data_statuses_body.
Definition data_search := run_section data_search_body.
Definition data_notifiers := run_section data_notifiers_body.

(** [data_metadata] (lines 702-713): one entry per metadata provider,
    keyed by the [id] of its JSON form. *)
Definition itervalues (v : value) : result (list value) :=
  match v with
  | VDict d => Ok (map snd d)
  | _ => Raise AttributeError
  end.

Definition getitem (v : value) (k : string) : result value :=
  match v with
  | VDict d =>
      match dict_get d k with
      | Some x => Ok x
      | None => Raise KeyError
      end
  | _ => Raise TypeError
  end.

Definition as_key (v : value) : result string :=
  match v with
  | VList _ | VDict _ => Raise TypeError
  | _ => Ok (text_of v)
  end.

Fixpoint add_providers (providers : list value) (section_data : dict)
  : result dict :=
  match providers with
  | [] => Ok section_data
  | provider :: rest =>
      rbind (provider_to_json E provider) (fun json_repr =>
      rbind (getitem json_repr "id") (fun id =>
      rbind (as_key id) (fun k =>
      rbind (update_at section_data ["metadataProviders"]
               (setitem true k json_repr))
            (add_providers rest))))
  end.

Definition data_metadata (app : App) : result dict :=
  rbind (exec app [nonempty_item [] "metadataProviders" NewNonEmptyDict] [])
    (fun section_data =>
  rbind (itervalues (app "metadata_provider_dict")) (fun providers =>
  add_providers providers section_data)).

(** [inspect.getmembers(cls, predicate=inspect.isfunction)]: the static
    methods of the class, sorted by name (the class methods [sections] and
    [get_data] are bound methods, not functions). *)
Definition members : list (string * (App -> result dict)) :=
  [ ("data_main", data_main);
    ("data_metadata", data_metadata);
    ("data_notifiers", data_notifiers);
    ("data_qualities", data_qualities);
    ("data_search", data_search);
    ("data_statuses", data_statuses) ].

Definition startswith (s p : string) : bool := String.prefix p s.

Definition drop5 (name : string) : string :=
  String.substring 5 (String.length name - 5) name.

(** [DataGenerator.sections] (lines 446-453) *)
Definition sections : list string :=
  map (fun m => drop5 (fst m))
      (filter (fun m => startswith (fst m) "data_") members).

Fixpoint getattr_member (name : string)
    (ms : list (string * (App -> result dict))) : option (App -> result dict) :=
  match ms with
  | [] => None
  | (n, f) :: r => if String.eqb n name then Some f else getattr_member name r
  end.

(** [DataGenerator.get_data] (lines 455-458):
    [getattr(cls, 'data_' + section)()] *)
Definition get_data (section : string) (app : App) : result dict :=
  match getattr_member ("data_" ++ section) members with
  | Some f => f app
  | None => Raise AttributeError
  end.

(** ** [ConfigHandler.http_get] (lines 366-394) *)

Definition given (x : option string) : bool :=
  match x with
  | Some s => negb (String.eqb s "")
  | None => false
  end.

Definition text (x : option string) : string :=
  match x with Some s => s | None => "" end.

Fixpoint all_sections (names : list string) (app : App) (config_data : dict)
  : result dict :=
  match names with
  | [] => Ok config_data
  | section :: rest =>
      rbind (get_data section app) (fun d =>
      all_sections rest app (nonempty_setitem config_data section (VDict d)))
  end.

Definition http_get (identifier path_param : option string) (app : App)
  : result reply :=
  let config_sections := sections in
  if given identifier && negb (mem_string (text identifier) config_sections)
  then Ok (_not_found "Config not found")
  else if negb (given identifier) then
    rbind (all_sections config_sections app []) (fun config_data =>
    Ok (_ok (VDict config_data)))
  else
    rbind (get_data (text identifier) app) (fun config_data =>
    if given path_param then
      match dict_get config_data (text path_param) with
      | None => Ok (_bad_request (text path_param ++ " is a invalid path"))
      | Some x => Ok (_ok x)
      end
    else Ok (_ok (VDict config_data))).

(** ** [ConfigHandler.http_patch] (lines 396-440) *)

Definition patches_get (key : string) : option Field :=
  (fix get (l : list (string * Field)) : option Field :=
     match l with
     | [] => None
     | (k, f) :: r => if String.eqb k key then Some f else get r
     end) patches.

Open Scope monad_scope.

(** Lines 410-411.  The metadata providers are taken out of the body
    before the leaves are walked: [if data.get('metadata'):] and
    [data['metadata'].pop('metadataProviders')].  The result is the body
    as the pop leaves it and what was popped, if anything. *)
Definition pop_metadata_providers (data : dict) : M (dict * option value) :=
  match dict_get data "metadata" with
  | Some m =>
      if truthy m then
        match m with
        | VDict md =>
            match dict_pop md "metadataProviders" with
            | Some (metadata_providers, md') =>
                ret (dict_set data "metadata" (VDict md'), Some metadata_providers)
            | None => raise KeyError
            end
        | VList _ => raise TypeError
        | _ => raise AttributeError
        end
      else ret (data, None)
  | None => ret (data, None)
  end.

(** Lines 413-418.  What was popped goes, if truthy, to the structured
    field and then whole into one of the two result trees, which are both
    empty until then (lines 405-406). *)
Definition patch_metadata_providers (popped : option value)
  : M (dict * dict) :=
  match popped with
  | Some metadata_providers =>
      if truthy metadata_providers then
        app <- get_app ;;
        let (accepted_it, app') := metadata_structure_patch E app metadata_providers in
        put_app app' ;;
        if accepted_it then
          accepted <- lift (set_nested_value [] "metadata.metadataProviders" metadata_providers) ;;
          ret (accepted, [])
        else
          ignored <- lift (set_nested_value [] "metadata.metadataProviders" metadata_providers) ;;
          ret ([], ignored)
      else ret ([], [])
  | None => ret ([], [])
  end.

(** Lines 421-425: one turn of
    [for key, value in iter_nested_items(data)]. *)
Definition patch_item (key : string) (v : value) (accepted ignored : dict)
  : M (dict * dict) :=
  match patches_get key with
  | Some patch_field =>
      app <- get_app ;;
      let (ok, app') := patch patch_field app v in
      put_app app' ;;
      if ok then
        accepted' <- lift (set_nested_value accepted key v) ;;
        ret (accepted', ignored)
      else
        ignored' <- lift (set_nested_value ignored key v) ;;
        ret (accepted, ignored')
  | None =>
      ignored' <- lift (set_nested_value ignored key v) ;;
      ret (accepted, ignored')
  end.

Fixpoint patch_items (items : list (string * value)) (accepted ignored : dict)
  : M (dict * dict) :=
  match items with
  | [] => ret (accepted, ignored)
  | (key, v) :: rest =>
      r <- patch_item key v accepted ignored ;;
      patch_items rest (fst r) (snd r)
  end.

(** Lines 405-425: everything between decoding the body and the end of
    the loop, which yields the two result trees. *)
Definition dispatch (data : dict) : M (dict * dict) :=
  p <- pop_metadata_providers data ;;
  r <- patch_metadata_providers (snd p) ;;
  patch_items (iter_nested_items (fst p)) (fst r) (snd r).

(** [data.get] wants a mapping: anything else has no such attribute. *)
Definition as_mapping (v : value) : M dict :=
  match v with
  | VDict d => ret d
  | _ => raise AttributeError
  end.

(** Lines 427-428. *)
Definition warn_ignored (ignored : dict) : M unit :=
  if truthy (VDict ignored) then emit (LogWarning ignored) else ret tt.

(** Line 431. *)
Definition save : M unit :=
  app <- get_app ;;
  emit (SaveConfig app) ;;
  lift (save_config E app).

(** Lines 434-438. *)
Definition push_update (identifier : string) : M unit :=
  app <- get_app ;;
  config <- lift (get_data identifier app) ;;
  emit (WsPush identifier (VDict config)) ;;
  lift (push E identifier (VDict config)).

Definition http_patch (identifier : option string) (request_body : string)
  : M reply :=
  if negb (given identifier) then
    ret (_bad_request "Config identifier not specified")
  else if negb (String.eqb (text identifier) "main") then
    ret (_not_found "Config not found")
  else
    decoded <- lift (json_decode E request_body) ;;
    data <- as_mapping decoded ;;
    r <- dispatch data ;;
    let accepted := fst r in
    let ignored := snd r in
    warn_ignored ignored ;;
    save ;;
    push_update (text identifier) ;;
    ret (_ok (VDict accepted)).

Close Scope monad_scope.

End Model.
(** ** Bodies the partition law covers *)

Definition providers_path : list string := ["metadata"; "metadataProviders"].

(** The [metadata] entry of the body is absent or falsy, or it is a
    mapping whose [metadataProviders] entry is truthy or an empty
    mapping. *)
Definition metadata_ok (data : dict) : bool :=
  match dict_get data "metadata" with
  | Some m =>
      if truthy m then
        match m with
        | VDict md =>
            match dict_get md "metadataProviders" with
            | Some mp => truthy mp || is_dict mp
            | None => false
            end
        | _ => false
        end
      else true
  | None => true
  end.

(** A value is a leaf of a tree when a path reaches it and it is not a
    mapping. *)
Definition leaf_in (v : value) (qs : list string) (x : value) : Prop :=
  get_path v qs = Some x /\ is_dict x = false.

Definition leaf_at (t : dict) : list string -> value -> Prop :=
  leaf_in (VDict t).

Definition disjoint_leaves (a b : dict) : Prop :=
  forall qs x y, leaf_at a qs x -> leaf_at b qs y -> False.

Definition as_items (kitems : list (list string * value)) : list (string * value) :=
  map (fun e => (join_dots (fst e), snd e)) kitems.

Definition good_leaf (e : list string * value) : Prop :=
  split_dots (join_dots (fst e)) = fst e /\ fst e <> [] /\ is_dict (snd e) = false.

(** How often the configuration was saved. *)
Fixpoint saves (trace : list event) : nat :=
  match trace with
  | [] => 0
  | SaveConfig _ :: r => S (saves r)
  | _ :: r => saves r
  end.

(** ** Where a written attribute is read back *)

Section ReadBack.

Variable E : Env.

(** What one turn of the loop decides for a leaf: accepted or not, and
    the store it leaves. *)
Definition verdict (key : string) (v : value) (app : App) : bool * App :=
  match patches_get E key with
  | Some f => patch E f app v
  | None => (false, app)
  end.

(** The place an assignment writes: [section_data[k1]...[kn][key]]. *)
Definition target (s : assignment) : list string :=
  (container s ++ [item_key s])%list.

Definition same_path (p q : list string) : bool :=
  is_prefix p q && is_prefix q p.

(** The assignment of a producer that fills [loc], with the assignments
    that follow it. *)
Fixpoint find_assignment (loc : list string) (body : list assignment)
  : option (assignment * list assignment) :=
  match body with
  | [] => None
  | s :: rest =>
      if same_path (target s) loc then Some (s, rest)
      else find_assignment loc rest
  end.

(** [reads body loc = Some (ne, c, a)]: the producer fills [loc] with
    attribute [a] of the store, coerced by [c], in a [NonEmptyDict]
    ([ne]) or a plain [dict], and nothing it does later touches [loc]. *)
Definition reads (body : list assignment) (loc : list string)
  : option (bool * coercion * string) :=
  match find_assignment loc body with
  | Some (s, rest) =>
      if forallb (fun s' => negb (comparable (target s') loc)) rest then
        match item_rhs s with
        | Attr c a => Some (in_nonempty s, c, a)
        | _ => None
        end
      else None
  | None => None
  end.

(** The producers that are plain sequences of assignments. *)
Definition section_body (section : string) : option (list assignment) :=
  if String.eqb section "main" then Some (data_main_body E)
  else if String.eqb section "qualities" then Some (data_qualities_body E)
  else if String.eqb section "statuses" then Some (data_statuses_body E)
  else if String.eqb section "search" then Some data_search_body
  else if String.eqb section "notifiers" then Some data_notifiers_body
  else None.

(** The section and the place in its tree that correspond to a dotted
    path of the patch table: [search.*] and [notifiers.*] name the section
    by their first key, every other path lies in [main]. *)
Definition read_location (key : string) : string * list string :=
  match split_dots key with
  | s :: rest =>
      if String.eqb s "search" || String.eqb s "notifiers" then (s, rest)
      else ("main", s :: rest)
  | [] => ("main", [])
  end.

Definition reads_at (key : string) : option (bool * coercion * string) :=
  match section_body (fst (read_location key)) with
  | Some body => reads body (snd (read_location key))
  | None => None
  end.

(** The registered paths that do not round-trip: no place of any section
    tree corresponds to the first six; the read side fills the place of
    the last four from another attribute than the one the Field writes. *)
Definition write_only_paths : list string :=
  [ "emby.enabled"; "theme.name"; "torrents.password";
    "nzb.nzbget.password"; "nzb.sabnzbd.apiKey"; "nzb.sabnzbd.password" ].

Definition misdirected_paths : list string :=
  [ "notifiers.kodi.alwaysOn"; "notifiers.plex.server.username";
    "notifiers.plex.server.password"; "notifiers.plex.server.token" ].

(** The body that writes one leaf: [{k1: {... {kn: v}}}]. *)
Fixpoint nest (ks : list string) (v : value) : value :=
  match ks with
  | [] => v
  | k :: rest => VDict [(k, nest rest v)]
  end.


End ReadBack.

(** The trace once the ignored writes have been logged, if there are any. *)
Definition warned (ignored : dict) (trace : list event) : list event :=
  if truthy (VDict ignored) then (trace ++ [LogWarning ignored])%list else trace.

Section Checks.

Variable E : Env.

(** The validator, the converter or the setter of a field raises on a
    candidate. *)
Definition field_raises (f : Field) (app : App) (v : value) : Prop :=
  (exists e, run_validator f app v = Raise e) \/
  (run_validator f app v = Ok true /\ exists e, stored_value E f v = Raise e) \/
  (run_validator f app v = Ok true /\
   exists stored app' e,
     stored_value E f v = Ok stored /\ apply_value f app stored = (app', Raise e)).

Definition is_none {A : Type} (o : option A) : bool :=
  match o with None => true | Some _ => false end.

Definition first_key (key : string) : string := hd "" (split_dots key).

(** What the table is checked for, entry by entry: outside the listed
    paths, the place that corresponds to the path is filled from the
    attribute the Field writes, the Field assigns the attribute itself
    (no setter), and only [layout.schedule] has a post-processor. *)
Definition round_trip_check (e : string * Field) : bool :=
  negb (String.eqb (first_key (fst e)) "metadata") &&
  (mem_string (fst e) (write_only_paths ++ misdirected_paths)%list ||
   (match reads_at E (fst e) with
    | Some (_, _, a) => String.eqb a (attribute (snd e))
    | None => false
    end &&
    is_none (setter (snd e)) &&
    (is_none (post_processor (snd e)) || String.eqb (fst e) "layout.schedule"))).


End Checks.
(** ** A concrete environment and store, for the examples *)

Fixpoint digits (s : string) (acc : Z) : option Z :=
  match s with
  | EmptyString => Some acc
  | String c r =>
      let n := nat_of_ascii c in
      if (48 <=? n)%nat && (n <=? 57)%nat
      then digits r (10 * acc + Z.of_nat (n - 48))
      else None
  end.

Definition demo_int_text (s : string) : option Z :=
  match s with
  | EmptyString => None
  | String "-" (String c r) => option_map Z.opp (digits (String c r) 0)
  | _ => digits s 0
  end.

Definition demo_bodies : list (string * value) :=
  [ ("{torrents: {enabled: true, bogusField: 5}}",
     VDict [("torrents", VDict [("enabled", VBool true); ("bogusField", VInt 5)])]);
    ("{torrents: {password: s3cret}}",
     VDict [("torrents", VDict [("password", VStr "s3cret")])]);
    ("{metadata: {metadataProviders: null}, torrents: {enabled: true}}",
     VDict [("metadata", VDict [("metadataProviders", VNone)]);
            ("torrents", VDict [("enabled", VBool true)])]);
    ("{metadata: {other: 1}, torrents: {enabled: true}}",
     VDict [("metadata", VDict [("other", VInt 1)]);
            ("torrents", VDict [("enabled", VBool true)])]);
    ("{notifiers: {plex: {server: {username: bob}}}}",
     VDict [("notifiers", VDict [("plex", VDict [("server",
             VDict [("username", VStr "bob")])])])]);
    ("{notifiers: {kodi: {alwaysOn: true}}}",
     VDict [("notifiers", VDict [("kodi", VDict [("alwaysOn", VBool true)])])]);
    ("{showDefaults: {quality: -1}, torrents: {enabled: true}}",
     VDict [("showDefaults", VDict [("quality", VInt (-1))]);
            ("torrents", VDict [("enabled", VBool true)])]);
    ("{showDefaults: {quality: -1}}",
     VDict [("showDefaults", VDict [("quality", VInt (-1))])]);
    ("{torrents: {enabled: true}}",
     VDict [("torrents", VDict [("enabled", VBool true)])]);
    ("{metadata: {metadataProviders: {kodi: {showMetadata: true}}}, torrents: {enabled: true, bogusField: 5}}",
     VDict [("metadata", VDict [("metadataProviders",
              VDict [("kodi", VDict [("showMetadata", VBool true)])])]);
            ("torrents", VDict [("enabled", VBool true); ("bogusField", VInt 5)])]);
    ("{theme: {name: dark}, torrents: {enabled: true}}",
     VDict [("theme", VDict [("name", VStr "dark")]);
            ("torrents", VDict [("enabled", VBool true)])])
  ].

Definition demo_json_decode (s : string) : result value :=
  (fix find (l : list (string * value)) : result value :=
     match l with
     | [] => Raise ValueError
     | (k, v) :: r => if String.eqb k s then Ok v else find r
     end) demo_bodies.

Definition demo_env : Env :=
  {| json_decode := demo_json_decode;
     int_text := demo_int_text;
     text_type := fun _ => "object";
     py_float := fun v => Ok v;
     common := fun name =>
       if String.eqb name "SKIPPED" then VInt 5
       else if String.eqb name "WANTED" then VInt 3
       else if String.eqb name "IGNORED" then VInt 7
       else VStr name;
     external := fun name => Ok (VStr name);
     enum_with_fourth := fun t members v =>
       if py_in v members then t v else Raise ValueError;
     Quality_is_valid_combined_quality := fun v =>
       match v with
       | VInt z => Ok (0 <=? z)%Z
       | _ => Raise TypeError
       end;
     change_theme := fun v app => (app, Raise OtherError);
     metadata_structure_patch := fun app v =>
       (is_dict v,
        if is_dict v then setattr app "metadata_provider_dict" v else app);
     provider_to_json := fun p => Ok p;
     save_config := fun _ => Ok tt;
     push := fun _ _ => Ok tt |}.

Definition demo_app : App :=
  fun a =>
    if String.eqb a "LOCALE" then VList [VStr "en_US"; VStr "UTF-8"]
    else if String.eqb a "metadata_provider_dict" then
      VDict [("kodi", VDict [("id", VStr "kodi"); ("showMetadata", VBool true)])]
    else if String.eqb a "PLEX_SERVER_PASSWORD" then VStr "hunter2"
    else if String.eqb a "PLEX_SERVER_TOKEN" then VStr "tok"
    else if String.eqb a "PLEX_SERVER_USERNAME" then VStr "alice"
    else VInt 0.

Definition demo_world : world := {| w_app := demo_app; w_trace := [] |}.

Definition demo_patch (raw : string) : result reply * world :=
  http_patch demo_env (Some "main") raw demo_world.

(** The value a section tree of a store holds at a place, if any. *)
Definition demo_read (section : string) (app : App) (loc : list string)
  : option value :=
  match get_data demo_env section app with
  | Ok T => get_path (VDict T) loc
  | Raise _ => None
  end.
(** ** The producers: containers and right-hand sides *)

Definition is_new (r : rhs) : bool :=
  match r with
  | NewNonEmptyDict | NewDict => true
  | _ => false
  end.

Definition mem_path (p : list string) (l : list (list string)) : bool :=
  existsb (same_path p) l.

(** A producer reaches every container it assigns into: the container of
    each line is [section_data] itself or was created by an earlier line
    with [NonEmptyDict()] or [{}], and no line assigns at or above a
    container created before it.  [ready] lists the containers created so
    far. *)
Fixpoint containers_ready (ready : list (list string)) (body : list assignment)
  : bool :=
  match body with
  | [] => true
  | s :: rest =>
      mem_path (container s) ready &&
      forallb (fun q => negb (is_prefix (target s) q)) ready &&
      containers_ready
        (if is_new (item_rhs s) then target s :: ready else ready) rest
  end.

(** The containers of [ready] are mappings of the tree [t]. *)
Definition containers_hold (ready : list (list string)) (t : dict) : Prop :=
  forall q, In q ready -> exists d, get_path (VDict t) q = Some (VDict d).

(** The attributes a producer passes to [int()]. *)
Definition int_attributes (body : list assignment) : list string :=
  flat_map (fun s => match item_rhs s with
                     | Attr Int_ a => [a]
                     | _ => []
                     end) body.

(** A producer all of whose lines create a container or read one
    attribute, as it is or through [bool()] or [int()]. *)
Definition plain_body (body : list assignment) : bool :=
  forallb (fun s => match item_rhs s with
                    | Computed _ | Attr IntOrMinus1 _ => false
                    | _ => true
                    end) body.

(** ** What the read side reads *)

(** The attribute of the store a line of a producer names. *)
Definition rhs_attributes (r : rhs) : list string :=
  match r with
  | Attr _ a => [a]
  | _ => []
  end.

(** The lines of [data_main] that compute their value read these:
    [float(app.FANART_BACKGROUND_OPACITY or 0)], the join over
    [app.LOCALE], and [app.OS_USER or 'Unknown']. *)
Definition computed_attributes : list string :=
  [ "FANART_BACKGROUND_OPACITY"; "LOCALE"; "OS_USER" ].

(** A line that computes its value computes the same in two stores. *)
Definition same_computed (app app' : App) (s : assignment) : Prop :=
  match item_rhs s with
  | Computed f => f app = f app'
  | _ => True
  end.

(** Two stores hold the same under every name of a list. *)
Definition agree (names : list string) (app app' : App) : Prop :=
  forall a, In a names -> app a = app' a.

(** The attributes of the store that take no part in any reply to a GET,
    although the patch table writes them. *)
Definition unserved_secrets : list string :=
  [ "TORRENT_PASSWORD"; "NZBGET_PASSWORD"; "SAB_APIKEY"; "SAB_PASSWORD" ].

Section Footprint.

Variable E : Env.

Definition producer_lines : list assignment :=
  (data_main_body E ++ data_qualities_body E ++ data_statuses_body E
   ++ data_search_body ++ data_notifiers_body)%list.

(** Every attribute of the store the six producers read:
    [app.metadata_provider_dict] in [data_metadata], and what the lines of
    the other five name. *)
Definition attributes_read : list string :=
  ("metadata_provider_dict" :: computed_attributes
   ++ flat_map (fun s => rhs_attributes (item_rhs s)) producer_lines)%list.

End Footprint.

(** ** More requests for the examples *)

Definition cover_bodies : list (string * value) :=
  [ ("{}", VDict []);
    ("{bogus: 1, torrents: {bogusField: 5}}",
     VDict [("bogus", VInt 1); ("torrents", VDict [("bogusField", VInt 5)])]);
    ("{metadata: [1], torrents: {enabled: true}}",
     VDict [("metadata", VList [VInt 1]);
            ("torrents", VDict [("enabled", VBool true)])]);
    ("{metadata: 5, torrents: {enabled: true}}",
     VDict [("metadata", VInt 5);
            ("torrents", VDict [("enabled", VBool true)])]);
    ("{layout: {schedule: calendar}}",
     VDict [("layout", VDict [("schedule", VStr "calendar")])]);
    ("{layout: {schedule: poster}}",
     VDict [("layout", VDict [("schedule", VStr "poster")])]);
    ("{torrents: {enabled: true}, webInterface: {port: 8081}}",
     VDict [("torrents", VDict [("enabled", VBool true)]);
            ("webInterface", VDict [("port", VInt 8081)])])
  ].

Definition cover_json_decode (s : string) : result value :=
  (fix find (l : list (string * value)) : result value :=
     match l with
     | [] => Raise ValueError
     | (k, v) :: r => if String.eqb k s then Ok v else find r
     end) cover_bodies.

(** The example environment with another decoder and another
    broadcast. *)
Definition with_decoder_and_push (decode : string -> result value)
    (push' : string -> value -> result unit) (E : Env) : Env :=
  {| json_decode := decode;
     int_text := int_text E;
     text_type := text_type E;
     py_float := py_float E;
     common := common E;
     external := external E;
     enum_with_fourth := enum_with_fourth E;
     Quality_is_valid_combined_quality := Quality_is_valid_combined_quality E;
     change_theme := change_theme E;
     metadata_structure_patch := metadata_structure_patch E;
     provider_to_json := provider_to_json E;
     save_config := save_config E;
     push := push' |}.

Definition cover_env : Env :=
  with_decoder_and_push cover_json_decode (push demo_env) demo_env.

(** An environment whose broadcast fails. *)
Definition offline_env : Env :=
  with_decoder_and_push cover_json_decode (fun _ _ => Raise OtherError) demo_env.

(** ** [data_metadata]: what is filed under a key *)

(** Of the JSON forms of the providers, in the order of the providers and
    each with the key its [id] makes, the one filed under [k]: the last
    with that key. *)
Definition filed_under (k : string) (jsons : list (string * value))
  : option value :=
  option_map snd (find (fun kj => String.eqb (fst kj) k) (rev jsons)).

(** A provider whose JSON form is a mapping with a text as [id]; the
    pair is that text and the JSON form. *)
Definition has_json (E : Env) (p : string * value) (kj : string * value) : Prop :=
  exists j,
    snd kj = VDict j /\
    provider_to_json E (snd p) = Ok (VDict j) /\
    dict_get j "id" = Some (VStr (fst kj)).

(** ** Places a producer may leave out *)

(** Up to the line that fills [loc], nothing is assigned at [loc] or
    below it, and what is assigned above it is a fresh container. *)
Fixpoint untouched_before (loc : list string) (body : list assignment) : bool :=
  match body with
  | [] => false
  | s :: rest =>
      if same_path (target s) loc then true
      else (negb (comparable (target s) loc)
            || (is_prefix (target s) loc && is_new (item_rhs s)))
           && untouched_before loc rest
  end.

(** [raw_place body loc = Some a]: the producer fills [loc] once, in a
    [NonEmptyDict], with attribute [a] of the store as it is. *)
Definition raw_place (body : list assignment) (loc : list string)
  : option string :=
  match reads body loc with
  | Some (true, Raw, a) => if untouched_before loc body then Some a else None
  | _ => None
  end.

(** ** What a request may write *)

Section Writes.

Variable E : Env.

(** The attributes a leaf under a path of the table may assign: the one
    its Field names and, for [layout.schedule], the [COMING_EPS_SORT] of
    [layout_schedule_post_processor].  ([theme.name] has a setter, which
    is outside this module.) *)
Definition leaf_writes (key : string) : list string :=
  match patches_get E key with
  | Some f =>
      attribute f ::
      (if String.eqb key "layout.schedule" then ["COMING_EPS_SORT"] else [])
  | None => []
  end.

(** Only [theme.name] has a setter and only [layout.schedule] a
    post-processor. *)
Definition frame_check (e : string * Field) : bool :=
  (is_none (setter (snd e)) || String.eqb (fst e) "theme.name") &&
  (is_none (post_processor (snd e)) || String.eqb (fst e) "layout.schedule").

End Writes.

(** ** The turn of a leaf *)

Section Turns.

Variable E : Env.

(** [reaches data w key v app1 post]: a request with body [data], started
    in [w], comes to the leaf [key] with value [v]: the metadata providers
    are out of the body and dealt with, the leaves before this one have
    been processed, [app1] is the store they leave, and [post] are the
    leaves that follow. *)
Definition reaches (data : dict) (w : world) (key : string) (v : value)
    (app1 : App) (post : list (string * value)) : Prop :=
  exists data' popped w0 r0 w0' pre r1 w1,
    pop_metadata_providers data w = (Ok (data', popped), w0) /\
    patch_metadata_providers E popped w0 = (Ok r0, w0') /\
    iter_nested_items data' = (pre ++ (key, v) :: post)%list /\
    patch_items E pre (fst r0) (snd r0) w0' = (Ok r1, w1) /\
    w_app w1 = app1.

(** What the table is checked for besides [round_trip_check]: a place
    that is filled with the attribute as it is, in a [NonEmptyDict], is
    assigned by that one line only. *)
Definition omission_check (e : string * Field) : bool :=
  match reads_at E (fst e),
        section_body E (fst (read_location (fst e))) with
  | Some (true, Raw, _), Some body =>
      untouched_before (snd (read_location (fst e))) body
  | _, _ => true
  end.

End Turns.

(** ** Requests for the round trip *)

Definition round_trip_bodies : list (string * value) :=
  [ ("{torrents: {password: s3cret}}",
     VDict [("torrents", VDict [("password", VStr "s3cret")])]);
    ("{anonRedirect: (empty)}",
     VDict [("anonRedirect", VStr "")]);
    ("{notifiers: {emby: {enabled: true}}, emby: {enabled: false}}",
     VDict [("notifiers", VDict [("emby", VDict [("enabled", VBool true)])]);
            ("emby", VDict [("enabled", VBool false)])]);
    ("{torrents: {enabled: true, bogusField: 5}}",
     VDict [("torrents", VDict [("enabled", VBool true); ("bogusField", VInt 5)])]);
    ("{notifiers: {kodi: {alwaysOn: true}}}",
     VDict [("notifiers", VDict [("kodi", VDict [("alwaysOn", VBool true)])])]);
    ("{metadata: {other: 1}, torrents: {enabled: true}}",
     VDict [("metadata", VDict [("other", VInt 1)]);
            ("torrents", VDict [("enabled", VBool true)])])
  ].

Definition round_trip_decode (s : string) : result value :=
  (fix find (l : list (string * value)) : result value :=
     match l with
     | [] => Raise ValueError
     | (k, v) :: r => if String.eqb k s then Ok v else find r
     end) round_trip_bodies.

Definition round_trip_env : Env :=
  with_decoder_and_push round_trip_decode (push demo_env) demo_env.

(** What a read of a section finds at a place of its tree. *)
Definition read_place (E : Env) (section : string) (app : App)
    (loc : list string) : result (option value) :=
  rbind (get_data E section app) (fun T => Ok (get_path (VDict T) loc)).

(** * Properties *)

(** ** Dotted paths: [split] and [join] are inverse *)

Lemma split_dots_not_nil (s : string) : split_dots s <> [].
Proof.
  destruct s as [|c r]; simpl; [discriminate|].
  destruct (Ascii.eqb c dot); [discriminate|].
  destruct (split_dots r); discriminate.
Qed.

Lemma join_dots_cons_char (c : ascii) (h : string) (t : list string) :
  join_dots (String c h :: t) = String c (join_dots (h :: t)).
Proof. destruct t; reflexivity. Qed.

Lemma join_split (s : string) : join_dots (split_dots s) = s.
Proof.
  induction s as [|c r IH]; simpl; [reflexivity|].
  destruct (Ascii.eqb c dot) eqn:Hc.
  - apply Ascii.eqb_eq in Hc; subst c.
    destruct (split_dots r) as [|h t] eqn:Hs.
    + now apply split_dots_not_nil in Hs.
    + unfold join_dots in *; simpl in *. now rewrite IH.
  - destruct (split_dots r) as [|h t] eqn:Hs.
    + now apply split_dots_not_nil in Hs.
    + rewrite join_dots_cons_char. now rewrite IH.
Qed.

Lemma split_dots_dot_free (h : string) :
  has_dot h = false -> split_dots h = [h].
Proof.
  induction h as [|c r IH]; simpl; [reflexivity|].
  intros H. apply orb_false_iff in H as [Hc Hr].
  rewrite Hc, (IH Hr). reflexivity.
Qed.

Lemma split_dots_app (h rest : string) :
  has_dot h = false ->
  split_dots (h ++ String dot rest) = h :: split_dots rest.
Proof.
  induction h as [|c r IH]; simpl; intros H.
  - reflexivity.
  - apply orb_false_iff in H as [Hc Hr].
    rewrite Hc, (IH Hr). reflexivity.
Qed.

Lemma split_join (ks : list string) :
  ks <> [] -> forallb (fun k => negb (has_dot k)) ks = true ->
  split_dots (join_dots ks) = ks.
Proof.
  induction ks as [|k r IH]; [congruence|].
  intros _ H. simpl in H. apply andb_true_iff in H as [Hk Hr].
  apply negb_true_iff in Hk.
  destruct r as [|k' r'].
  - simpl. now apply split_dots_dot_free.
  - change (join_dots (k :: k' :: r')) with (k ++ String dot (join_dots (k' :: r'))).
    rewrite split_dots_app by assumption.
    rewrite IH; [reflexivity|discriminate|assumption].
Qed.

(** ** Dictionaries *)

Lemma dict_get_set_eq (d : dict) (k : string) (v : value) :
  dict_get (dict_set d k v) k = Some v.
Proof.
  induction d as [|[k' v'] r IH]; simpl.
  - now rewrite String.eqb_refl.
  - destruct (String.eqb k' k) eqn:Hk; simpl; rewrite Hk; [reflexivity|exact IH].
Qed.

Lemma dict_get_set_neq (d : dict) (k k' : string) (v : value) :
  k <> k' -> dict_get (dict_set d k v) k' = dict_get d k'.
Proof.
  intros Hne. induction d as [|[k0 v0] r IH]; simpl.
  - apply String.eqb_neq in Hne. now rewrite Hne.
  - destruct (String.eqb k0 k) eqn:Hk; simpl.
    + apply String.eqb_eq in Hk; subst k0.
      apply String.eqb_neq in Hne. now rewrite Hne.
    + now rewrite IH.
Qed.

Lemma mem_string_In (k : string) (l : list string) :
  mem_string k l = true <-> In k l.
Proof.
  induction l as [|x r IH]; simpl.
  - split; [discriminate|tauto].
  - rewrite orb_true_iff, IH, String.eqb_eq. tauto.
Qed.

Lemma nodup_strings_NoDup (l : list string) :
  nodup_strings l = true <-> NoDup l.
Proof.
  induction l as [|x r IH]; simpl.
  - split; [constructor|reflexivity].
  - rewrite andb_true_iff, negb_true_iff, IH. split.
    + intros [H1 H2]. constructor; [|assumption].
      intros Hin. apply mem_string_In in Hin. congruence.
    + intros H. inversion H; subst. split; [|assumption].
      destruct (mem_string x r) eqn:Hm; [|reflexivity].
      apply mem_string_In in Hm. contradiction.
Qed.

Lemma dict_get_In (d : dict) (k : string) (v : value) :
  dict_get d k = Some v -> In (k, v) d.
Proof.
  induction d as [|[k' v'] r IH]; simpl; [discriminate|].
  destruct (String.eqb k' k) eqn:Hk.
  - apply String.eqb_eq in Hk. intros [= ->]. left. now subst.
  - intros H. right. now apply IH.
Qed.

Lemma dict_get_None (d : dict) (k : string) :
  dict_get d k = None <-> ~ In k (map fst d).
Proof.
  induction d as [|[k' v'] r IH]; simpl.
  - tauto.
  - destruct (String.eqb k' k) eqn:Hk.
    + apply String.eqb_eq in Hk. split; [discriminate|]. intros H. exfalso. tauto.
    + apply String.eqb_neq in Hk. rewrite IH. tauto.
Qed.

Lemma In_dict_get (d : dict) (k : string) (v : value) :
  NoDup (map fst d) -> In (k, v) d -> dict_get d k = Some v.
Proof.
  induction d as [|[k' v'] r IH]; simpl; [tauto|].
  intros Hnd [Heq|Hin].
  - injection Heq as -> ->. now rewrite String.eqb_refl.
  - inversion Hnd as [|? ? Hnotin Hnd']; subst.
    destruct (String.eqb k' k) eqn:Hk.
    + apply String.eqb_eq in Hk; subst k'.
      exfalso. apply Hnotin. apply in_map_iff. now exists (k, v).
    + now apply IH.
Qed.

Lemma dict_set_keys (d : dict) (k : string) (v : value) :
  map fst (dict_set d k v) =
  if dict_mem d k then map fst d else (map fst d ++ [k])%list.
Proof.
  unfold dict_mem. induction d as [|[k' v'] r IH]; simpl; [reflexivity|].
  destruct (String.eqb k' k) eqn:Hk; simpl; [reflexivity|].
  rewrite IH. now destruct (dict_get r k).
Qed.

Lemma NoDup_snoc (l : list string) (k : string) :
  NoDup l -> ~ In k l -> NoDup (l ++ [k])%list.
Proof.
  induction l as [|x r IH]; simpl; intros Hnd Hk.
  - constructor; [tauto|constructor].
  - inversion Hnd; subst. constructor.
    + rewrite in_app_iff. simpl. intuition congruence.
    + apply IH; tauto.
Qed.

Lemma dict_set_NoDup (d : dict) (k : string) (v : value) :
  NoDup (map fst d) -> NoDup (map fst (dict_set d k v)).
Proof.
  intros Hnd. rewrite dict_set_keys. unfold dict_mem.
  destruct (dict_get d k) eqn:Hg; [assumption|].
  apply dict_get_None in Hg. now apply NoDup_snoc.
Qed.

Lemma dict_set_In (d : dict) (k : string) (v : value) (k' : string) (x : value) :
  In (k', x) (dict_set d k v) -> (k' = k /\ x = v) \/ In (k', x) d.
Proof.
  induction d as [|[k0 v0] r IH]; simpl.
  - intros [[= <- <-]|[]]. now left.
  - destruct (String.eqb k0 k) eqn:Hk; simpl.
    + apply String.eqb_eq in Hk; subst k0.
      intros [[= <- <-]|H]; [now left|right; now right].
    + intros [H|H]; [right; now left|].
      destruct (IH H) as [?|?]; [now left|right; now right].
Qed.

Lemma dict_get_remove_neq (d : dict) (k k' : string) :
  k <> k' -> dict_get (dict_remove d k) k' = dict_get d k'.
Proof.
  intros Hne. induction d as [|[k0 v0] r IH]; simpl; [reflexivity|].
  destruct (String.eqb k0 k) eqn:Hk; simpl.
  - apply String.eqb_eq in Hk; subst k0.
    apply String.eqb_neq in Hne. now rewrite Hne.
  - now rewrite IH.
Qed.

Lemma dict_remove_In (d : dict) (k : string) (e : string * value) :
  In e (dict_remove d k) -> In e d.
Proof.
  induction d as [|[k0 v0] r IH]; simpl; [tauto|].
  destruct (String.eqb k0 k); simpl; intuition.
Qed.

Lemma dict_get_remove_eq (d : dict) (k : string) :
  NoDup (map fst d) -> dict_get (dict_remove d k) k = None.
Proof.
  induction d as [|[k0 v0] r IH]; simpl; [reflexivity|].
  intros Hnd. inversion Hnd as [|? ? Hnotin Hnd']; subst.
  destruct (String.eqb k0 k) eqn:Hk; simpl.
  - apply String.eqb_eq in Hk; subst k0. now apply dict_get_None.
  - rewrite Hk. now apply IH.
Qed.

Lemma dict_remove_NoDup (d : dict) (k : string) :
  NoDup (map fst d) -> NoDup (map fst (dict_remove d k)).
Proof.
  induction d as [|[k0 v0] r IH]; simpl; [auto|].
  intros Hnd. inversion Hnd as [|? ? Hnotin Hnd']; subst.
  destruct (String.eqb k0 k); simpl; [assumption|].
  constructor; [|now apply IH].
  intros Hin. apply Hnotin. apply in_map_iff in Hin as [e [He Hin]].
  apply in_map_iff. exists e. split; [assumption|]. now apply dict_remove_In in Hin.
Qed.

(** ** Trees: well-formedness, paths *)

Lemma wf_dict (d : dict) :
  wf_value (VDict d) = true <->
  NoDup (map fst d) /\ Forall (fun e => wf_value (snd e) = true) d.
Proof.
  simpl. rewrite andb_true_iff, nodup_strings_NoDup, forallb_forall, Forall_forall.
  reflexivity.
Qed.

Lemma is_prefix_app (p q : list string) :
  is_prefix p q = true <-> exists r, q = (p ++ r)%list.
Proof.
  revert q. induction p as [|x p IH]; intros q; simpl.
  - split; [intros _; now exists q|reflexivity].
  - destruct q as [|y q].
    + split; [discriminate|]. intros [r Hr]. discriminate.
    + rewrite andb_true_iff, String.eqb_eq, IH. split.
      * intros [-> [r ->]]. now exists r.
      * intros [r [= -> ->]]. split; [reflexivity|now exists r].
Qed.

Lemma is_prefix_refl (p : list string) : is_prefix p p = true.
Proof. apply is_prefix_app. exists []. now rewrite app_nil_r. Qed.

Lemma get_path_app (v : value) (p r : list string) :
  get_path v (p ++ r) =
  match get_path v p with
  | Some x => get_path x r
  | None => None
  end.
Proof.
  revert v. induction p as [|k p IH]; intros v; simpl; [reflexivity|].
  destruct v; try reflexivity.
  destruct (dict_get d k); [apply IH|reflexivity].
Qed.

Lemma get_path_leaf_stop (v : value) (r : list string) (x : value) :
  is_dict v = false -> get_path v r = Some x -> r = [] /\ x = v.
Proof.
  destruct r as [|k r]; simpl.
  - intros _ [= <-]. now split.
  - destruct v; simpl; try discriminate.
Qed.

Lemma get_path_empty (qs : list string) :
  qs <> [] -> get_path (VDict []) qs = None.
Proof. destruct qs; [congruence|reflexivity]. Qed.

(** ** [set_path]: what a later read finds *)

Lemma set_path_cons2 (d : dict) (k k2 : string) (rest : list string) (v : value) :
  set_path d (k :: k2 :: rest) v =
  match dict_get d k with
  | None =>
      rbind (set_path [] (k2 :: rest) v) (fun sub => Ok (dict_set d k (VDict sub)))
  | Some (VDict sub) =>
      rbind (set_path sub (k2 :: rest) v) (fun sub' => Ok (dict_set d k (VDict sub')))
  | Some _ => Raise TypeError
  end.
Proof. reflexivity. Qed.

(** Whatever [set_path] returns is the old mapping with one key set. *)
Lemma set_path_shape (d : dict) (k : string) (rest : list string) (v : value)
    (d' : dict) :
  set_path d (k :: rest) v = Ok d' ->
  (rest = [] /\ d' = dict_set d k v) \/
  (rest <> [] /\ exists sub0 sub,
      (dict_get d k = None /\ sub0 = [] \/ dict_get d k = Some (VDict sub0)) /\
      set_path sub0 rest v = Ok sub /\ d' = dict_set d k (VDict sub)).
Proof.
  destruct rest as [|k2 rest].
  - simpl. intros [= <-]. now left.
  - rewrite set_path_cons2. intros H. right. split; [discriminate|].
    destruct (dict_get d k) as [x|] eqn:Hg.
    + destruct x; try discriminate.
      destruct (set_path d0 (k2 :: rest) v) as [sub|] eqn:Hs; simpl in H; [|discriminate].
      injection H as <-. exists d0, sub. auto.
    + destruct (set_path [] (k2 :: rest) v) as [sub|] eqn:Hs; simpl in H; [|discriminate].
      injection H as <-. exists [], sub. auto.
Qed.

Lemma set_path_get_ext (ks : list string) :
  forall d v d' rs,
    set_path d ks v = Ok d' ->
    get_path (VDict d') (ks ++ rs) = get_path v rs.
Proof.
  induction ks as [|k rest IH]; intros d v d' rs H; [discriminate|].
  apply set_path_shape in H as [[-> ->]|[Hne (sub0 & sub & _ & Hs & ->)]]; simpl.
  - now rewrite dict_get_set_eq.
  - rewrite dict_get_set_eq. eapply IH; eassumption.
Qed.

Lemma set_path_get_incomparable (ks : list string) :
  forall d v d' qs,
    set_path d ks v = Ok d' ->
    comparable ks qs = false ->
    get_path (VDict d') qs = get_path (VDict d) qs.
Proof.
  induction ks as [|k rest IH]; intros d v d' qs H Hc; [discriminate|].
  apply orb_false_iff in Hc as [Hc1 Hc2].
  destruct qs as [|q qs]; [discriminate|].
  simpl in Hc1, Hc2.
  destruct (String.eqb k q) eqn:Hkq.
  - apply String.eqb_eq in Hkq; subst q. rewrite String.eqb_refl in Hc2.
    simpl in Hc1, Hc2.
    apply set_path_shape in H as [[-> ->]|[Hne (sub0 & sub & Hg & Hs & ->)]].
    + discriminate.
    + simpl. rewrite dict_get_set_eq.
      assert (Hc : comparable rest qs = false) by (unfold comparable; now rewrite Hc1, Hc2).
      rewrite (IH _ _ _ _ Hs Hc).
      destruct Hg as [[Hg ->]|Hg]; rewrite Hg; [|reflexivity].
      apply get_path_empty. intros ->. now destruct rest.
  - assert (Hne : k <> q) by now apply String.eqb_neq.
    apply set_path_shape in H as [[-> ->]|[_ (sub0 & sub & _ & _ & ->)]];
      simpl; now rewrite dict_get_set_neq.
Qed.

Lemma set_path_get_prefix (ks : list string) :
  forall d v d' qs,
    set_path d ks v = Ok d' ->
    is_prefix qs ks = true -> is_prefix ks qs = false ->
    exists sub, get_path (VDict d') qs = Some (VDict sub).
Proof.
  induction ks as [|k rest IH]; intros d v d' qs H Hp Hn; [discriminate|].
  destruct qs as [|q qs]; [now exists d'|].
  simpl in Hp, Hn. apply andb_true_iff in Hp as [Hq Hp].
  apply String.eqb_eq in Hq; subst q. rewrite String.eqb_refl in Hn. simpl in Hn.
  apply set_path_shape in H as [[-> ->]|[Hne (sub0 & sub & _ & Hs & ->)]].
  - destruct qs; discriminate.
  - simpl. rewrite dict_get_set_eq. eapply IH; eassumption.
Qed.

(** A leaf of the result is the value just set (or one of its leaves), or
    a leaf the tree had before at a path the new one does not touch. *)
Lemma set_path_leaf (ks : list string) (d : dict) (v : value) (d' : dict)
    (qs : list string) (x : value) :
  set_path d ks v = Ok d' ->
  is_dict x = false ->
  (get_path (VDict d') qs = Some x <->
   (exists rs, qs = (ks ++ rs)%list /\ get_path v rs = Some x) \/
   (comparable ks qs = false /\ get_path (VDict d) qs = Some x)).
Proof.
  intros H Hx.
  destruct (is_prefix ks qs) eqn:Hp1.
  - pose proof Hp1 as Hp. apply is_prefix_app in Hp as [rs ->].
    rewrite (set_path_get_ext _ _ _ _ rs H). split.
    + intros Hg. left. now exists rs.
    + intros [[rs' [Heq Hg]]|[Hc _]].
      * apply app_inv_head in Heq. now subst.
      * unfold comparable in Hc. now rewrite Hp1 in Hc.
  - destruct (is_prefix qs ks) eqn:Hp2.
    + destruct (set_path_get_prefix _ _ _ _ _ H Hp2 Hp1) as [sub Hsub].
      rewrite Hsub. split.
      * intros [= <-]. discriminate.
      * intros [[rs [-> _]]|[Hc _]].
        -- assert (is_prefix ks (ks ++ rs) = true) by (apply is_prefix_app; now exists rs).
           congruence.
        -- unfold comparable in Hc. now rewrite Hp1, Hp2 in Hc.
    + assert (Hc : comparable ks qs = false) by (unfold comparable; now rewrite Hp1, Hp2).
      rewrite (set_path_get_incomparable _ _ _ _ _ H Hc). split.
      * intros Hg. now right.
      * intros [[rs [-> _]]|[_ Hg]]; [|assumption].
        assert (is_prefix ks (ks ++ rs) = true) by (apply is_prefix_app; now exists rs).
        congruence.
Qed.

(** [set_path] succeeds when no key on the way holds a leaf. *)
Lemma set_path_succeeds (ks : list string) :
  forall d v,
    ks <> [] ->
    (forall qs x, is_prefix qs ks = true -> is_prefix ks qs = false ->
                  get_path (VDict d) qs = Some x -> is_dict x = true) ->
    exists d', set_path d ks v = Ok d'.
Proof.
  induction ks as [|k rest IH]; intros d v Hne Hways; [congruence|].
  destruct rest as [|k2 rest]; [now eexists|].
  rewrite set_path_cons2.
  destruct (dict_get d k) as [x|] eqn:Hg.
  - assert (Hx : is_dict x = true).
    { apply (Hways [k] x); simpl.
      - now rewrite String.eqb_refl.
      - rewrite String.eqb_refl. reflexivity.
      - now rewrite Hg. }
    destruct x; try discriminate.
    destruct (IH d0 v) as [sub Hs]; [discriminate| |].
    + intros qs x Hp Hn Hq. apply (Hways (k :: qs) x).
      * simpl. now rewrite String.eqb_refl.
      * simpl. now rewrite String.eqb_refl.
      * simpl. now rewrite Hg.
    + rewrite Hs. now eexists.
  - destruct (IH [] v) as [sub Hs]; [discriminate| |].
    + intros qs x Hp Hn Hq. destruct qs; [now injection Hq as <-|discriminate].
    + rewrite Hs. now eexists.
Qed.

Lemma dict_set_wf (d : dict) (k : string) (v : value) :
  wf_value (VDict d) = true -> wf_value v = true ->
  wf_value (VDict (dict_set d k v)) = true.
Proof.
  rewrite !wf_dict. intros [Hnd Hall] Hv. split.
  - now apply dict_set_NoDup.
  - apply Forall_forall. intros [k' x] Hin.
    apply dict_set_In in Hin as [[-> ->]|Hin]; [assumption|].
    rewrite Forall_forall in Hall. now apply (Hall (k', x)).
Qed.

Lemma dict_get_wf (d : dict) (k : string) (x : value) :
  wf_value (VDict d) = true -> dict_get d k = Some x -> wf_value x = true.
Proof.
  rewrite wf_dict. intros [_ Hall] Hg. apply dict_get_In in Hg.
  rewrite Forall_forall in Hall. now apply (Hall (k, x)).
Qed.

Lemma set_path_wf (ks : list string) :
  forall d v d',
    wf_value (VDict d) = true -> wf_value v = true ->
    set_path d ks v = Ok d' -> wf_value (VDict d') = true.
Proof.
  induction ks as [|k rest IH]; intros d v d' Hd Hv H; [discriminate|].
  apply set_path_shape in H as [[-> ->]|[Hne (sub0 & sub & Hg & Hs & ->)]].
  - now apply dict_set_wf.
  - apply dict_set_wf; [assumption|].
    apply (IH sub0 v sub); [|assumption|assumption].
    destruct Hg as [[_ ->]|Hg]; [reflexivity|].
    eapply dict_get_wf; eassumption.
Qed.

(** ** [iter_nested_keys]: the leaves of a tree *)

Lemma iter_nested_keys_dict (d : dict) :
  iter_nested_keys (VDict d) = flat_map leaf_entry d.
Proof. reflexivity. Qed.

Lemma leaf_entry_head (e : string * value) (ks : list string) (x : value) :
  In (ks, x) (leaf_entry e) -> exists qs, ks = fst e :: qs.
Proof.
  unfold leaf_entry. destruct (snd e) eqn:Hs; simpl;
    try (intros [[= <- _]|[]]; now eexists).
  intros H. apply in_map_iff in H as [q [[= <- _] _]]. now eexists.
Qed.

(** The listed leaves are exactly the non-mapping values a path reaches. *)
Lemma iter_nested_keys_spec (v : value) :
  wf_value v = true ->
  forall ks x,
    In (ks, x) (iter_nested_keys v) <->
    ks <> [] /\ get_path v ks = Some x /\ is_dict x = false.
Proof.
  induction v as [| | | | |d IH] using value_tree_ind; intros Hwf ks x;
    try (simpl; split; [tauto|]; intros (Hne & Hg & _); destruct ks; [congruence|discriminate]).
  rewrite iter_nested_keys_dict, in_flat_map.
  apply wf_dict in Hwf as [Hnd Hall].
  rewrite Forall_forall in IH, Hall.
  split.
  - intros [[k y] [Hin He]].
    pose proof (In_dict_get _ _ _ Hnd Hin) as Hg.
    unfold leaf_entry in He. simpl in He.
    destruct y as [| | | | |sub];
      try (destruct He as [[= <- <-]|[]]; simpl; rewrite Hg; repeat split; congruence).
    apply in_map_iff in He as [[qs y] [[= <- <-] Hq]].
    apply (IH _ Hin (Hall _ Hin)) in Hq as (Hne & Hq & Hx).
    simpl. rewrite Hg. repeat split; [discriminate|exact Hq|exact Hx].
  - intros (Hne & Hg & Hx).
    destruct ks as [|k qs]; [congruence|]. simpl in Hg.
    destruct (dict_get d k) as [y|] eqn:Hd; [|discriminate].
    pose proof (dict_get_In _ _ _ Hd) as Hin.
    exists (k, y). split; [assumption|].
    unfold leaf_entry. simpl.
    destruct qs as [|q qs].
    + injection Hg as ->. destruct x; try discriminate; now left.
    + destruct y as [| | | | |sub]; try discriminate.
      apply in_map_iff. exists (q :: qs, x). split; [reflexivity|].
      apply (IH _ Hin (Hall _ Hin)). repeat split; [discriminate|exact Hg|exact Hx].
Qed.

Lemma NoDup_map_cons (k : string) (l : list (list string)) :
  NoDup l -> NoDup (map (cons k) l).
Proof.
  induction 1 as [|x l Hx Hnd IH]; simpl; constructor; [|assumption].
  intros Hin. apply in_map_iff in Hin as [y [[= ->] Hy]]. contradiction.
Qed.

Lemma iter_nested_keys_NoDup (v : value) :
  wf_value v = true -> NoDup (map fst (iter_nested_keys v)).
Proof.
  induction v as [| | | | |d IH] using value_tree_ind; intros Hwf;
    try (simpl; constructor).
  rewrite iter_nested_keys_dict.
  apply wf_dict in Hwf as [Hnd Hall].
  induction d as [|[k y] r IHr]; simpl; [constructor|].
  inversion Hnd as [|? ? Hk Hnd']; subst.
  inversion Hall as [|? ? Hy Hall']; subst.
  inversion IH as [|? ? IHy IH']; subst.
  rewrite map_app. apply NoDup_app.
  - unfold leaf_entry. simpl in *.
    destruct y as [| | | | |sub]; try (constructor; [intros []|constructor]).
    rewrite map_map. simpl.
    specialize (IHy Hy).
    rewrite <- (map_map fst (cons k)).
    now apply NoDup_map_cons.
  - now apply IHr.
  - intros ks H1 H2.
    apply in_map_iff in H1 as [[ks1 x1] [Hk1 H1]]. simpl in Hk1; subst ks1.
    apply in_map_iff in H2 as [[ks2 x2] [Hk2 H2]]. simpl in Hk2; subst ks2.
    apply leaf_entry_head in H1 as [qs ->]. simpl in H2.
    apply in_flat_map in H2 as [e [He H2]].
    apply leaf_entry_head in H2 as [qs' [= Hke _]].
    apply Hk. rewrite Hke. now apply in_map.
Qed.

(** Two leaves of one tree never lie on one another's way. *)
Lemma leaves_incomparable (v : value) (p q : list string) (x y : value) :
  get_path v p = Some x -> is_dict x = false ->
  get_path v q = Some y -> is_dict y = false ->
  is_prefix p q = true -> p = q.
Proof.
  intros Hp Hx Hq Hy Hpre.
  apply is_prefix_app in Hpre as [r ->].
  rewrite get_path_app, Hp in Hq.
  apply (get_path_leaf_stop _ _ _ Hx) in Hq as [-> _].
  now rewrite app_nil_r.
Qed.

(** ** The two result trees of a patch *)

Lemma comparable_sym (p q : list string) : comparable p q = comparable q p.
Proof. unfold comparable. apply orb_comm. Qed.

Lemma leaf_value_wf (x : value) : is_dict x = false -> wf_value x = true.
Proof. destruct x; simpl; congruence. Qed.

(** Adding a leaf at a path that touches no leaf of the tree. *)
Lemma insert_leaf (t : dict) (ks : list string) (v : value) :
  wf_value (VDict t) = true -> is_dict v = false -> ks <> [] ->
  (forall qs x, leaf_at t qs x -> comparable ks qs = false) ->
  exists t',
    set_path t ks v = Ok t' /\ wf_value (VDict t') = true /\
    forall qs x, leaf_at t' qs x <-> (qs = ks /\ x = v) \/ leaf_at t qs x.
Proof.
  intros Hwf Hv Hne Hfree.
  assert (Hways : forall qs x, is_prefix qs ks = true -> is_prefix ks qs = false ->
            get_path (VDict t) qs = Some x -> is_dict x = true).
  { intros qs x Hp Hn Hg. destruct (is_dict x) eqn:Hx; [reflexivity|].
    assert (Hc : comparable ks qs = false) by (apply (Hfree qs x); now split).
    unfold comparable in Hc. rewrite Hp, orb_true_r in Hc. discriminate. }
  destruct (set_path_succeeds ks t v Hne Hways) as [t' Hset].
  exists t'. split; [assumption|]. split.
  { apply (set_path_wf ks t v t' Hwf (leaf_value_wf v Hv) Hset). }
  intros qs x. unfold leaf_at, leaf_in. split.
  - intros [Hg Hx].
    apply (set_path_leaf _ _ _ _ qs x Hset Hx) in Hg as [[rs [-> Hg]]|[Hc Hg]].
    + apply (get_path_leaf_stop _ _ _ Hv) in Hg as [-> ->].
      left. now rewrite app_nil_r.
    + right. now split.
  - intros [[-> ->]|[Hg Hx]].
    + split; [|assumption].
      apply (set_path_leaf _ _ _ _ ks v Hset Hv). left. exists [].
      now rewrite app_nil_r.
    + split; [|assumption].
      apply (set_path_leaf _ _ _ _ qs x Hset Hx). right. split; [|assumption].
      apply (Hfree qs x). now split.
Qed.

Section Dispatch.

Variable E : Env.

Lemma patch_item_unfold (key : string) (v : value) (accepted ignored : dict)
    (w : world) :
  patch_item E key v accepted ignored w =
  let w' := {| w_app := snd (verdict E key v (w_app w)); w_trace := w_trace w |} in
  if fst (verdict E key v (w_app w)) then
    match set_nested_value accepted key v with
    | Ok a => (Ok (a, ignored), w')
    | Raise e => (Raise e, w')
    end
  else
    match set_nested_value ignored key v with
    | Ok i => (Ok (accepted, i), w')
    | Raise e => (Raise e, w')
    end.
Proof.
  unfold patch_item, verdict. destruct w as [app tr]. simpl.
  destruct (patches_get E key) as [f|]; simpl.
  - unfold bind, get_app, put_app, lift, ret. simpl.
    destruct (patch E f app v) as [[|] app']; simpl.
    + now destruct (set_nested_value accepted key v).
    + now destruct (set_nested_value ignored key v).
  - unfold bind, lift, ret. now destruct (set_nested_value ignored key v).
Qed.

(** The loop keeps the two trees a partition of what it has walked. *)
Lemma patch_items_partition (kitems : list (list string * value)) :
  forall (accepted ignored : dict) (w : world) (S : list string -> value -> Prop),
    wf_value (VDict accepted) = true -> wf_value (VDict ignored) = true ->
    (forall qs x, leaf_at accepted qs x \/ leaf_at ignored qs x <-> S qs x) ->
    disjoint_leaves accepted ignored ->
    Forall good_leaf kitems ->
    ForallOrdPairs (fun a b => comparable (fst a) (fst b) = false) kitems ->
    (forall e qs x, In e kitems -> S qs x -> comparable (fst e) qs = false) ->
    exists accepted' ignored' w',
      patch_items E (as_items kitems) accepted ignored w
        = (Ok (accepted', ignored'), w') /\
      w_trace w' = w_trace w /\
      wf_value (VDict accepted') = true /\ wf_value (VDict ignored') = true /\
      (forall qs x, leaf_at accepted' qs x \/ leaf_at ignored' qs x <->
                    S qs x \/ In (qs, x) kitems) /\
      disjoint_leaves accepted' ignored'.
Proof.
  induction kitems as [|[ks v] rest IH];
    intros accepted ignored w S Hwa Hwi HS Hdis Hgood Hpairs Hfree.
  - exists accepted, ignored, w. simpl. unfold ret. repeat split; auto.
    + intros H. left. now apply HS.
    + intros [H|[]]. now apply HS.
  - inversion Hgood as [|? ? [Hsplit [Hne Hv]] Hgood']; subst.
    inversion Hpairs as [|? ? Hhead Hpairs']; subst.
    simpl in Hsplit, Hne, Hv.
    assert (Hfree_a : forall qs x, leaf_at accepted qs x -> comparable ks qs = false).
    { intros qs x H. apply (Hfree (ks, v) qs x); [now left|]. apply HS. now left. }
    assert (Hfree_i : forall qs x, leaf_at ignored qs x -> comparable ks qs = false).
    { intros qs x H. apply (Hfree (ks, v) qs x); [now left|]. apply HS. now right. }
    destruct (insert_leaf accepted ks v Hwa Hv Hne Hfree_a) as (a' & Ha & Hwa' & Hla).
    destruct (insert_leaf ignored ks v Hwi Hv Hne Hfree_i) as (i' & Hi & Hwi' & Hli).
    simpl. unfold bind at 1. rewrite patch_item_unfold.
    unfold set_nested_value. rewrite Hsplit, Ha, Hi.
    set (w1 := {| w_app := snd (verdict E (join_dots ks) v (w_app w));
                  w_trace := w_trace w |}).
    assert (Hrest : forall e qs x, In e rest ->
              (S qs x \/ (qs = ks /\ x = v)) -> comparable (fst e) qs = false).
    { intros e qs x He [Hs|[-> ->]].
      - apply (Hfree e qs x); [now right|assumption].
      - rewrite Forall_forall in Hhead. rewrite comparable_sym. now apply Hhead. }
    destruct (fst (verdict E (join_dots ks) v (w_app w))); simpl.
    + destruct (IH a' ignored w1 (fun qs x => S qs x \/ (qs = ks /\ x = v)))
        as (a2 & i2 & w2 & Hrun & Htr & Hw1 & Hw2 & Hl & Hd); auto.
      * intros qs x. rewrite Hla, <- HS. tauto.
      * intros qs x y Hx Hy. apply Hla in Hx as [[-> ->]|Hx].
        -- specialize (Hfree_i _ _ Hy). unfold comparable in Hfree_i.
           now rewrite is_prefix_refl in Hfree_i.
        -- exact (Hdis _ _ _ Hx Hy).
      * exists a2, i2, w2. rewrite Hrun. repeat split; auto.
        -- intros H. apply Hl in H. simpl. intuition (subst; auto).
        -- intros [H|[[= <- <-]|H]]; apply Hl; auto.
    + destruct (IH accepted i' w1 (fun qs x => S qs x \/ (qs = ks /\ x = v)))
        as (a2 & i2 & w2 & Hrun & Htr & Hw1 & Hw2 & Hl & Hd); auto.
      * intros qs x. rewrite Hli, <- HS. tauto.
      * intros qs x y Hx Hy. apply Hli in Hy as [[-> ->]|Hy].
        -- specialize (Hfree_a _ _ Hx). unfold comparable in Hfree_a.
           now rewrite is_prefix_refl in Hfree_a.
        -- exact (Hdis _ _ _ Hx Hy).
      * exists a2, i2, w2. rewrite Hrun. repeat split; auto.
        -- intros H. apply Hl in H. simpl. intuition (subst; auto).
        -- intros [H|[[= <- <-]|H]]; apply Hl; auto.
Qed.

End Dispatch.

(** ** Leaves of a well-formed, dot-free body *)

Lemma dot_free_path (ks : list string) :
  forall v x,
    dot_free v = true -> get_path v ks = Some x ->
    forallb (fun k => negb (has_dot k)) ks = true.
Proof.
  induction ks as [|k ks IH]; intros v x Hdf Hg; [reflexivity|].
  simpl in Hg. destruct v; try discriminate.
  destruct (dict_get d k) as [y|] eqn:Hd; [|discriminate].
  apply dict_get_In in Hd. simpl in Hdf.
  rewrite forallb_forall in Hdf. specialize (Hdf _ Hd). simpl in Hdf.
  apply andb_true_iff in Hdf as [Hk Hy].
  simpl. rewrite Hk. simpl. eapply IH; eassumption.
Qed.

Lemma leaves_pairwise (v : value) (l : list (list string * value)) :
  NoDup (map fst l) ->
  (forall e, In e l -> leaf_in v (fst e) (snd e)) ->
  ForallOrdPairs (fun a b => comparable (fst a) (fst b) = false) l.
Proof.
  induction l as [|a l IH]; intros Hnd Hl; constructor.
  - apply Forall_forall. intros b Hb.
    inversion Hnd as [|? ? Hnotin _]; subst.
    destruct (Hl a (or_introl eq_refl)) as [Ha Hxa].
    destruct (Hl b (or_intror Hb)) as [Hgb Hxb].
    unfold comparable. apply orb_false_iff. split.
    + destruct (is_prefix (fst a) (fst b)) eqn:Hp; [|reflexivity].
      exfalso. apply Hnotin.
      rewrite (leaves_incomparable v _ _ _ _ Ha Hxa Hgb Hxb Hp). now apply in_map.
    + destruct (is_prefix (fst b) (fst a)) eqn:Hp; [|reflexivity].
      exfalso. apply Hnotin.
      rewrite <- (leaves_incomparable v _ _ _ _ Hgb Hxb Ha Hxa Hp). now apply in_map.
  - inversion Hnd; subst. apply IH; [assumption|]. intros e He. apply Hl. now right.
Qed.

(** ** Taking the metadata providers out of the body *)

Section Pop.

Variables (data md md' : dict) (mp : value).
Hypothesis Hwf : wf_value (VDict data) = true.
Hypothesis Hmeta : dict_get data "metadata" = Some (VDict md).
Hypothesis Hpop : dict_pop md "metadataProviders" = Some (mp, md').

Let data' : dict := dict_set data "metadata" (VDict md').

Lemma pop_facts :
  dict_get md "metadataProviders" = Some mp /\ md' = dict_remove md "metadataProviders" /\
  wf_value (VDict md) = true /\ wf_value mp = true.
Proof.
  unfold dict_pop in Hpop.
  destruct (dict_get md "metadataProviders") as [x|] eqn:Hg; [|discriminate].
  injection Hpop as -> <-.
  assert (Hmd : wf_value (VDict md) = true) by (eapply dict_get_wf; eassumption).
  repeat split; auto. eapply dict_get_wf; eassumption.
Qed.

Lemma pop_wf : wf_value (VDict data') = true.
Proof.
  destruct pop_facts as (Hg & -> & Hmd & _).
  apply dict_set_wf; [assumption|].
  apply wf_dict in Hmd as [Hnd Hall]. apply wf_dict. split.
  - now apply dict_remove_NoDup.
  - rewrite Forall_forall in *. intros e He. apply Hall.
    eapply dict_remove_In; eassumption.
Qed.

Lemma pop_get_providers (rs : list string) :
  get_path (VDict data') (providers_path ++ rs) = None.
Proof.
  destruct pop_facts as (Hg & -> & Hmd & _).
  unfold data'. simpl. rewrite dict_get_set_eq.
  rewrite dict_get_remove_eq; [reflexivity|]. now apply wf_dict in Hmd.
Qed.

Lemma pop_leaves (qs : list string) (x : value) :
  leaf_at data qs x <->
  leaf_at data' qs x \/
  (exists rs, qs = (providers_path ++ rs)%list /\ leaf_in mp rs x).
Proof.
  destruct pop_facts as (Hg & Hmd' & Hmd & _).
  unfold leaf_at, leaf_in, data'.
  destruct qs as [|q qs].
  { simpl. split.
    - intros [[= <-] Hx]. discriminate.
    - intros [[[= <-] Hx]|[rs [Hrs _]]]; discriminate. }
  destruct (String.eqb "metadata" q) eqn:Hq.
  - apply String.eqb_eq in Hq; subst q. simpl.
    rewrite Hmeta, dict_get_set_eq.
    destruct qs as [|q2 qs].
    { simpl. split.
      - intros [[= <-] Hx]. discriminate.
      - intros [[[= <-] Hx]|[rs [Hrs _]]]; discriminate. }
    destruct (String.eqb "metadataProviders" q2) eqn:Hq2.
    + apply String.eqb_eq in Hq2; subst q2. simpl. rewrite Hg.
      subst md'. rewrite dict_get_remove_eq by now apply wf_dict in Hmd.
      split.
      * intros H. right. now exists qs.
      * intros [[? _]|[rs [[= ->] H]]]; [discriminate|assumption].
    + apply String.eqb_neq in Hq2. simpl.
      subst md'. rewrite dict_get_remove_neq by assumption.
      split.
      * intros H. now left.
      * intros [H|[rs [[= Hbad _] _]]]; [assumption|congruence].
  - apply String.eqb_neq in Hq. simpl.
    rewrite dict_get_set_neq by assumption.
    split.
    + intros H. now left.
    + intros [H|[rs [[= Hbad _] _]]]; [assumption|congruence].
Qed.

End Pop.

(** The root of a tree is a mapping, not a leaf. *)
Ltac root_is_no_leaf Hg Hx :=
  simpl in Hg; injection Hg as Hg; rewrite <- Hg in Hx; discriminate Hx.

Section Partition.

Variable E : Env.

Lemma set_providers (t : value) :
  set_nested_value [] "metadata.metadataProviders" t
  = Ok [("metadata", VDict [("metadataProviders", t)])].
Proof. reflexivity. Qed.

Lemma providers_tree_leaves (t : value) (qs : list string) (x : value) :
  leaf_at [("metadata", VDict [("metadataProviders", t)])] qs x <->
  exists rs, qs = (providers_path ++ rs)%list /\ leaf_in t rs x.
Proof.
  unfold leaf_at, leaf_in. split.
  - intros [Hg Hx].
    destruct qs as [|q qs]; [root_is_no_leaf Hg Hx|].
    cbn [get_path dict_get] in Hg.
    destruct (String.eqb "metadata" q) eqn:Hq; [|discriminate].
    apply String.eqb_eq in Hq; subst q.
    destruct qs as [|q qs]; [root_is_no_leaf Hg Hx|].
    cbn [get_path dict_get] in Hg.
    destruct (String.eqb "metadataProviders" q) eqn:Hq; [|discriminate].
    apply String.eqb_eq in Hq; subst q.
    exists qs. now split.
  - intros [rs [-> H]]. exact H.
Qed.

Lemma empty_tree_leaves (qs : list string) (x : value) : ~ leaf_at [] qs x.
Proof.
  unfold leaf_at, leaf_in. intros [Hg Hx].
  destruct qs; [root_is_no_leaf Hg Hx|discriminate Hg].
Qed.

Lemma in_as_items (l : list (list string * value)) (p : string) (x : value) :
  In (p, x) (as_items l) <-> exists qs, p = join_dots qs /\ In (qs, x) l.
Proof.
  unfold as_items. rewrite in_map_iff. split.
  - intros [[qs y] [[= <- <-] Hin]]. now exists qs.
  - intros [qs [-> Hin]]. now exists (qs, x).
Qed.

(** The walk over the leaves of a well-formed, dot-free tree [t], started
    from result trees whose leaves are [S]. *)
Lemma walk_partition (t accepted ignored : dict) (w : world)
    (S : list string -> value -> Prop) :
  wf_value (VDict t) = true ->
  (forall qs x, leaf_at t qs x -> forallb (fun k => negb (has_dot k)) qs = true) ->
  wf_value (VDict accepted) = true -> wf_value (VDict ignored) = true ->
  (forall qs x, leaf_at accepted qs x \/ leaf_at ignored qs x <-> S qs x) ->
  disjoint_leaves accepted ignored ->
  (forall ks y qs x, leaf_at t ks y -> S qs x -> comparable ks qs = false) ->
  exists accepted' ignored' w',
    patch_items E (iter_nested_items t) accepted ignored w
      = (Ok (accepted', ignored'), w') /\
    w_trace w' = w_trace w /\
    wf_value (VDict accepted') = true /\ wf_value (VDict ignored') = true /\
    (forall qs x, leaf_at accepted' qs x \/ leaf_at ignored' qs x <->
                  S qs x \/ leaf_at t qs x) /\
    disjoint_leaves accepted' ignored'.
Proof.
  intros Hwf Hdf Hwa Hwi HS Hdis Hfree.
  pose proof (iter_nested_keys_spec (VDict t) Hwf) as Hspec.
  assert (Hleaf : forall e, In e (iter_nested_keys (VDict t)) ->
                            leaf_in (VDict t) (fst e) (snd e)).
  { intros [ks y] He. apply Hspec in He as (_ & Hg & Hy). now split. }
  destruct (patch_items_partition E (iter_nested_keys (VDict t))
              accepted ignored w S Hwa Hwi HS Hdis)
    as (a' & i' & w' & Hrun & Htr & Hwa' & Hwi' & Hl & Hd).
  - apply Forall_forall. intros [ks y] He.
    pose proof (Hleaf _ He) as Hks. apply Hspec in He as (Hne & Hg & Hy).
    unfold good_leaf. simpl. repeat split; auto.
    apply split_join; [assumption|]. now apply (Hdf ks y).
  - apply (leaves_pairwise (VDict t)); [|assumption].
    now apply iter_nested_keys_NoDup.
  - intros [ks y] qs x He Hs. apply (Hfree ks y qs x); [|assumption].
    now apply (Hleaf (ks, y)).
  - exists a', i', w'. repeat split; auto.
    + intros H. apply Hl in H as [H|H]; [now left|right].
      now apply (Hleaf (qs, x)).
    + intros [H|[Hg Hx]]; apply Hl; [now left|right].
      apply Hspec. repeat split; auto.
      intros ->. root_is_no_leaf Hg Hx.
Qed.

Lemma leaf_items (t : dict) (p : string) (x : value) :
  wf_value (VDict t) = true ->
  (In (p, x) (iter_nested_items t) <->
   exists qs, p = join_dots qs /\ leaf_at t qs x).
Proof.
  intros Hwf. unfold iter_nested_items. fold (as_items (iter_nested_keys (VDict t))).
  rewrite in_as_items. split; intros [qs [-> H]]; exists qs; split; auto.
  - apply (iter_nested_keys_spec _ Hwf) in H as (_ & Hg & Hx). now split.
  - destruct H as [Hg Hx]. apply (iter_nested_keys_spec _ Hwf). repeat split; auto.
    intros ->. root_is_no_leaf Hg Hx.
Qed.

(** From the leaves as key lists to the leaves as dotted paths. *)
Lemma partition_as_paths (data accepted ignored : dict) :
  wf_value (VDict data) = true -> dot_free (VDict data) = true ->
  wf_value (VDict accepted) = true -> wf_value (VDict ignored) = true ->
  (forall qs x, leaf_at accepted qs x \/ leaf_at ignored qs x <-> leaf_at data qs x) ->
  disjoint_leaves accepted ignored ->
  (forall p x, In (p, x) (iter_nested_items data) <->
               In (p, x) (iter_nested_items accepted) \/
               In (p, x) (iter_nested_items ignored)) /\
  (forall p, In p (map fst (iter_nested_items accepted)) ->
             In p (map fst (iter_nested_items ignored)) -> False).
Proof.
  intros Hwf Hdf Hwa Hwi Hl Hdis. split.
  - intros p x. rewrite !leaf_items by assumption. split.
    + intros [qs [-> H]]. apply Hl in H as [H|H]; [left|right]; now exists qs.
    + intros [[qs [-> H]]|[qs [-> H]]]; exists qs; split; auto; apply Hl; auto.
  - intros p Ha Hi.
    apply in_map_iff in Ha as [[p1 x1] [Hp1 Ha]]. simpl in Hp1; subst p1.
    apply in_map_iff in Hi as [[p2 x2] [Hp2 Hi]]. simpl in Hp2; subst p2.
    apply leaf_items in Ha as [qs1 [-> Ha]]; [|assumption].
    apply leaf_items in Hi as [qs2 [Heq Hi]]; [|assumption].
    assert (H1 : leaf_at data qs1 x1) by (apply Hl; now left).
    assert (H2 : leaf_at data qs2 x2) by (apply Hl; now right).
    assert (Hs : forall qs x, leaf_at data qs x -> split_dots (join_dots qs) = qs).
    { intros qs x [Hg Hx]. apply split_join.
      - intros ->. root_is_no_leaf Hg Hx.
      - eapply dot_free_path; eassumption. }
    assert (qs1 = qs2).
    { rewrite <- (Hs _ _ H1), <- (Hs _ _ H2). now rewrite Heq. }
    subst qs2. exact (Hdis _ _ _ Ha Hi).
Qed.

End Partition.

Section PartitionLaw.

Variable E : Env.

Lemma dot_free_leaf (data : dict) (qs : list string) (x : value) :
  dot_free (VDict data) = true -> leaf_at data qs x ->
  forallb (fun k => negb (has_dot k)) qs = true.
Proof. intros Hdf [Hg _]. eapply dot_free_path; eassumption. Qed.

(** Without a truthy [metadata] entry the loop walks the whole body. *)
Lemma dispatch_plain (data : dict) (w : world) :
  wf_value (VDict data) = true -> dot_free (VDict data) = true ->
  pop_metadata_providers data w = (Ok (data, None), w) ->
  exists accepted ignored w',
    dispatch E data w = (Ok (accepted, ignored), w') /\
    wf_value (VDict accepted) = true /\ wf_value (VDict ignored) = true /\
    (forall qs x, leaf_at accepted qs x \/ leaf_at ignored qs x <-> leaf_at data qs x) /\
    disjoint_leaves accepted ignored.
Proof.
  intros Hwf Hdf Hpop.
  destruct (walk_partition E data [] [] w (fun _ _ => False) Hwf)
    as (a & i & w' & Hrun & _ & Hwa & Hwi & Hl & Hd); auto.
  - intros qs x. now apply dot_free_leaf.
  - intros qs x. split; [|tauto]. intros [H|H]; now apply empty_tree_leaves in H.
  - intros qs x y H. now apply empty_tree_leaves in H.
  - intros ks y qs x _ [].
  - exists a, i, w'. unfold dispatch, bind. rewrite Hpop. simpl.
    unfold ret. simpl. rewrite Hrun.
    split; [reflexivity|]. split; [assumption|]. split; [assumption|].
    split; [|assumption].
    intros qs x. rewrite Hl. tauto.
Qed.

(** With the providers taken out, they go to one tree as a unit and the
    loop walks the rest. *)
Lemma dispatch_providers (data md md' : dict) (mp : value) (w : world) :
  wf_value (VDict data) = true -> dot_free (VDict data) = true ->
  dict_get data "metadata" = Some (VDict md) ->
  dict_pop md "metadataProviders" = Some (mp, md') ->
  truthy (VDict md) = true ->
  truthy mp || is_dict mp = true ->
  exists accepted ignored w',
    dispatch E data w = (Ok (accepted, ignored), w') /\
    wf_value (VDict accepted) = true /\ wf_value (VDict ignored) = true /\
    (forall qs x, leaf_at accepted qs x \/ leaf_at ignored qs x <-> leaf_at data qs x) /\
    disjoint_leaves accepted ignored.
Proof.
  intros Hwf Hdf Hmeta Hpop Hmd Hmp.
  set (data' := dict_set data "metadata" (VDict md')).
  pose proof (pop_wf data md md' mp Hwf Hmeta Hpop) as Hwf'.
  pose proof (pop_leaves data md md' mp Hwf Hmeta Hpop) as Hleaves.
  pose proof (pop_get_providers data md md' mp Hwf Hmeta Hpop) as Hnone.
  destruct (pop_facts data md md' mp Hwf Hmeta Hpop) as (_ & _ & _ & Hwmp).
  fold data' in Hwf', Hleaves, Hnone.
  set (S := fun qs x => exists rs, qs = (providers_path ++ rs)%list /\ leaf_in mp rs x).
  assert (Hdf' : forall qs x, leaf_at data' qs x ->
                   forallb (fun k => negb (has_dot k)) qs = true).
  { intros qs x H. apply (dot_free_leaf data qs x Hdf). apply Hleaves. now left. }
  assert (Hfree : forall ks y qs x, leaf_at data' ks y -> S qs x ->
                    comparable ks qs = false).
  { intros ks y qs x Hks [rs [-> Hrs]].
    assert (H1 : leaf_at data ks y) by (apply Hleaves; now left).
    assert (H2 : leaf_at data (providers_path ++ rs) x)
      by (apply Hleaves; right; now exists rs).
    destruct H1 as [Hg1 Hx1], H2 as [Hg2 Hx2].
    unfold comparable. apply orb_false_iff. split.
    - destruct (is_prefix ks (providers_path ++ rs)) eqn:Hp; [|reflexivity].
      pose proof (leaves_incomparable _ _ _ _ _ Hg1 Hx1 Hg2 Hx2 Hp) as ->.
      destruct Hks as [Hks _]. rewrite Hnone in Hks. discriminate.
    - destruct (is_prefix (providers_path ++ rs) ks) eqn:Hp; [|reflexivity].
      pose proof (leaves_incomparable _ _ _ _ _ Hg2 Hx2 Hg1 Hx1 Hp) as <-.
      destruct Hks as [Hks _]. rewrite Hnone in Hks. discriminate. }
  assert (Hfinish : forall a0 i0 w0,
            wf_value (VDict a0) = true -> wf_value (VDict i0) = true ->
            (forall qs x, leaf_at a0 qs x \/ leaf_at i0 qs x <-> S qs x) ->
            disjoint_leaves a0 i0 ->
            exists accepted ignored w',
              patch_items E (iter_nested_items data') a0 i0 w0
                = (Ok (accepted, ignored), w') /\
              wf_value (VDict accepted) = true /\ wf_value (VDict ignored) = true /\
              (forall qs x, leaf_at accepted qs x \/ leaf_at ignored qs x <->
                            leaf_at data qs x) /\
              disjoint_leaves accepted ignored).
  { intros a0 i0 w0 Hwa Hwi HS Hdis.
    destruct (walk_partition E data' a0 i0 w0 S Hwf' Hdf' Hwa Hwi HS Hdis Hfree)
      as (a & i & w' & Hrun & _ & Hwa' & Hwi' & Hl & Hd).
    exists a, i, w'.
    split; [assumption|]. split; [assumption|]. split; [assumption|].
    split; [|assumption].
    intros qs x. rewrite Hl, Hleaves. unfold S. tauto. }
  assert (Hpopped : pop_metadata_providers data w = (Ok (data', Some mp), w)).
  { unfold pop_metadata_providers. rewrite Hmeta, Hmd, Hpop. reflexivity. }
  unfold dispatch, bind at 1. rewrite Hpopped. cbn [fst snd].
  unfold bind at 1, patch_metadata_providers.
  destruct (truthy mp) eqn:Htr.
  - unfold bind at 1, get_app. cbn [fst snd].
    destruct (metadata_structure_patch E (w_app w) mp) as [[|] app'].
    + unfold bind, put_app, lift, ret. rewrite set_providers. cbn [fst snd].
      apply Hfinish.
      * apply wf_dict. split; [repeat constructor; intros []|].
        repeat constructor. simpl. now rewrite Hwmp.
      * reflexivity.
      * intros qs x. rewrite providers_tree_leaves. split; [|tauto].
        intros [H|H]; [assumption|now apply empty_tree_leaves in H].
      * intros qs x y _ H. now apply empty_tree_leaves in H.
    + unfold bind, put_app, lift, ret. rewrite set_providers. cbn [fst snd].
      apply Hfinish.
      * reflexivity.
      * apply wf_dict. split; [repeat constructor; intros []|].
        repeat constructor. simpl. now rewrite Hwmp.
      * intros qs x. rewrite providers_tree_leaves. split; [|tauto].
        intros [H|H]; [now apply empty_tree_leaves in H|assumption].
      * intros qs x y H _. now apply empty_tree_leaves in H.
  - unfold ret. cbn [fst snd].
    apply Hfinish; try reflexivity.
    + simpl in Hmp. destruct mp; try discriminate.
      destruct d; [|discriminate].
      intros qs x. split.
      * intros [H|H]; now apply empty_tree_leaves in H.
      * intros [rs [_ H]]. now apply empty_tree_leaves in H.
    + intros qs x y H. now apply empty_tree_leaves in H.
Qed.

End PartitionLaw.

(** ** The read side: what a producer leaves at a place of its tree *)

Lemma same_path_eq (p q : list string) : same_path p q = true -> p = q.
Proof.
  unfold same_path. rewrite andb_true_iff. intros [H1 H2].
  apply is_prefix_app in H1 as [r ->].
  apply is_prefix_app in H2 as [r' H2].
  rewrite <- app_assoc in H2. rewrite <- (app_nil_r p) in H2 at 1.
  apply app_inv_head in H2. symmetry in H2.
  apply app_eq_nil in H2 as [-> _]. now rewrite app_nil_r.
Qed.

Lemma setitem_get_other (ne : bool) (k : string) (x : value) (d : dict)
    (k' : string) :
  k <> k' -> dict_get (setitem ne k x d) k' = dict_get d k'.
Proof.
  intros Hne. unfold setitem, nonempty_setitem.
  destruct ne; [destruct (is_empty_value x)|]; auto using dict_get_set_neq.
Qed.

Lemma setitem_get_same (ne : bool) (k : string) (x : value) (d : dict) :
  ne && is_empty_value x = false -> dict_get (setitem ne k x d) k = Some x.
Proof.
  intros H. unfold setitem, nonempty_setitem.
  destruct ne; simpl in H; [rewrite H|]; apply dict_get_set_eq.
Qed.

Lemma update_at_cons (t : dict) (k : string) (rest : list string)
    (f : dict -> dict) (t' : dict) :
  update_at t (k :: rest) f = Ok t' ->
  exists sub sub', dict_get t k = Some (VDict sub) /\
                   update_at sub rest f = Ok sub' /\
                   t' = dict_set t k (VDict sub').
Proof.
  simpl. destruct (dict_get t k) as [x|]; [|discriminate].
  destruct x; try discriminate.
  destruct (update_at d rest f) as [sub'|] eqn:Hs; simpl; [|discriminate].
  intros [= <-]. now exists d, sub'.
Qed.

Lemma update_at_incomparable (cp : list string) :
  forall t ne k x t' qs,
    update_at t cp (setitem ne k x) = Ok t' ->
    comparable (cp ++ [k]) qs = false ->
    get_path (VDict t') qs = get_path (VDict t) qs.
Proof.
  induction cp as [|c cp IH]; intros t ne k x t' qs H Hc.
  - simpl in H. injection H as <-.
    apply orb_false_iff in Hc as [Hc1 Hc2].
    destruct qs as [|q qs]; [discriminate|].
    simpl in Hc1. simpl.
    destruct (String.eqb k q) eqn:Hkq; [discriminate|].
    apply String.eqb_neq in Hkq. now rewrite setitem_get_other.
  - apply update_at_cons in H as (sub & sub' & Hg & Hs & ->).
    apply orb_false_iff in Hc as [Hc1 Hc2].
    destruct qs as [|q qs]; [discriminate|].
    simpl in Hc1, Hc2. simpl.
    destruct (String.eqb c q) eqn:Hcq.
    + apply String.eqb_eq in Hcq; subst q. rewrite String.eqb_refl in Hc2.
      simpl in Hc1, Hc2.
      rewrite dict_get_set_eq, Hg.
      apply (IH sub ne k x sub' qs Hs). unfold comparable. now rewrite Hc1, Hc2.
    + apply String.eqb_neq in Hcq. now rewrite dict_get_set_neq.
Qed.

Lemma update_at_target (cp : list string) :
  forall t ne k x t',
    update_at t cp (setitem ne k x) = Ok t' ->
    ne && is_empty_value x = false ->
    get_path (VDict t') (cp ++ [k]) = Some x.
Proof.
  induction cp as [|c cp IH]; intros t ne k x t' H Hne.
  - simpl in H. injection H as <-. simpl. now rewrite setitem_get_same.
  - apply update_at_cons in H as (sub & sub' & Hg & Hs & ->).
    simpl. rewrite dict_get_set_eq. eapply IH; eassumption.
Qed.

Section Producers.

Variable E : Env.

Lemma exec_app (app : App) (pre post : list assignment) (t : dict) :
  exec E app (pre ++ post) t = rbind (exec E app pre t) (exec E app post).
Proof.
  revert t. induction pre as [|s pre IH]; intros t; simpl; [reflexivity|].
  destruct (exec_assignment E app t s); simpl; [apply IH|reflexivity].
Qed.

Lemma exec_keeps (app : App) (loc : list string) (body : list assignment) :
  forall t T,
    exec E app body t = Ok T ->
    forallb (fun s => negb (comparable (target s) loc)) body = true ->
    get_path (VDict T) loc = get_path (VDict t) loc.
Proof.
  induction body as [|s body IH]; intros t T H Hall; simpl in H.
  - now injection H as <-.
  - simpl in Hall. apply andb_true_iff in Hall as [Hs Hall].
    apply negb_true_iff in Hs.
    destruct (exec_assignment E app t s) as [t1|] eqn:H1; simpl in H; [|discriminate].
    rewrite (IH _ _ H Hall).
    unfold exec_assignment in H1.
    destruct (eval_rhs E app (item_rhs s)) as [x|]; simpl in H1; [|discriminate].
    eapply update_at_incomparable; eassumption.
Qed.

Lemma find_assignment_split (loc : list string) (body : list assignment)
    (s : assignment) (post : list assignment) :
  find_assignment loc body = Some (s, post) ->
  exists pre, body = (pre ++ s :: post)%list /\ target s = loc.
Proof.
  induction body as [|s0 body IH]; simpl; [discriminate|].
  destruct (same_path (target s0) loc) eqn:Hs.
  - intros [= <- <-]. exists []. split; [reflexivity|now apply same_path_eq].
  - intros H. destruct (IH H) as [pre [-> Ht]]. now exists (s0 :: pre).
Qed.

(** A producer that fills [loc] from attribute [a] leaves there the
    coerced attribute, unless a [NonEmptyDict] dropped it as empty. *)
Lemma reads_spec (body : list assignment) (loc : list string) (ne : bool)
    (c : coercion) (a : string) (app : App) (T : dict) :
  reads body loc = Some (ne, c, a) ->
  run_section E body app = Ok T ->
  exists x, coerce E c (app a) = Ok x /\
            (ne && is_empty_value x = false -> get_path (VDict T) loc = Some x).
Proof.
  unfold reads, run_section.
  destruct (find_assignment loc body) as [[s post]|] eqn:Hf; [|discriminate].
  destruct (forallb _ post) eqn:Hpost; [|discriminate].
  destruct (item_rhs s) as [| |c' a'|] eqn:Hrhs; try discriminate.
  intros [= <- <- <-] Hrun.
  apply find_assignment_split in Hf as [pre [-> Ht]].
  rewrite exec_app in Hrun.
  destruct (exec E app pre []) as [t0|]; simpl in Hrun; [|discriminate].
  destruct (exec_assignment E app t0 s) as [t1|] eqn:H1; simpl in Hrun; [|discriminate].
  unfold exec_assignment in H1. rewrite Hrhs in H1. simpl in H1.
  destruct (coerce E c' (app a')) as [x|]; simpl in H1; [|discriminate].
  exists x. split; [reflexivity|]. intros Hne.
  rewrite (exec_keeps app loc post _ _ Hrun Hpost).
  rewrite <- Ht. unfold target. eapply update_at_target; eassumption.
Qed.

Lemma section_body_get_data (section : string) (body : list assignment)
    (app : App) :
  section_body E section = Some body ->
  get_data E section app = run_section E body app.
Proof.
  unfold section_body.
  destruct (String.eqb section "main") eqn:H1;
    [apply String.eqb_eq in H1; subst; intros [= <-]; reflexivity|].
  destruct (String.eqb section "qualities") eqn:H2;
    [apply String.eqb_eq in H2; subst; intros [= <-]; reflexivity|].
  destruct (String.eqb section "statuses") eqn:H3;
    [apply String.eqb_eq in H3; subst; intros [= <-]; reflexivity|].
  destruct (String.eqb section "search") eqn:H4;
    [apply String.eqb_eq in H4; subst; intros [= <-]; reflexivity|].
  destruct (String.eqb section "notifiers") eqn:H5;
    [apply String.eqb_eq in H5; subst; intros [= <-]; reflexivity|].
  discriminate.
Qed.

(** ** [Field.patch]: what an accepted write leaves in the store *)

Lemma patch_accepted (f : Field) (app : App) (v : value) (app' : App) :
  patch E f app v = (true, app') ->
  run_validator f app v = Ok true /\
  exists stored app1,
    stored_value E f v = Ok stored /\
    apply_value f app stored = (app1, Ok tt) /\
    app' = run_post_processor f stored app1.
Proof.
  unfold patch.
  destruct (run_validator f app v) as [[|]|]; try discriminate.
  destruct (stored_value E f v) as [stored|]; [|discriminate].
  destruct (apply_value f app stored) as [app1 [[]|]] eqn:Ha; [|discriminate].
  intros [= <-]. split; [reflexivity|]. now exists stored, app1.
Qed.

Lemma patch_accepted_attribute (f : Field) (app : App) (v : value) (app' : App) :
  setter f = None ->
  (forall x app0, run_post_processor f x app0 (attribute f) = app0 (attribute f)) ->
  patch E f app v = (true, app') ->
  exists stored, stored_value E f v = Ok stored /\ app' (attribute f) = stored.
Proof.
  intros Hset Hpost H.
  apply patch_accepted in H as (_ & stored & app1 & Hs & Ha & ->).
  exists stored. split; [assumption|].
  rewrite Hpost. unfold apply_value in Ha. rewrite Hset in Ha.
  injection Ha as <-. unfold setattr. now rewrite String.eqb_refl.
Qed.

End Producers.

(** ** The handler, step by step *)

Section Handler.

Variable E : Env.

(** [http_patch] on section [main], spelled out: decode, dispatch, warn,
    save, push, reply. *)
Lemma http_patch_main (raw : string) (w : world) :
  http_patch E (Some "main") raw w =
  match json_decode E raw with
  | Raise e => (Raise e, w)
  | Ok (VDict data) =>
      match dispatch E data w with
      | (Raise e, w1) => (Raise e, w1)
      | (Ok (accepted, ignored), w1) =>
          let w2 := {| w_app := w_app w1;
                       w_trace := warned ignored (w_trace w1)
                                  ++ [SaveConfig (w_app w1)] |} in
          match save_config E (w_app w1) with
          | Raise e => (Raise e, w2)
          | Ok _ =>
              match get_data E "main" (w_app w1) with
              | Raise e => (Raise e, w2)
              | Ok config =>
                  let w3 := {| w_app := w_app w1;
                               w_trace := w_trace w2
                                          ++ [WsPush "main" (VDict config)] |} in
                  match push E "main" (VDict config) with
                  | Raise e => (Raise e, w3)
                  | Ok _ => (Ok (_ok (VDict accepted)), w3)
                  end
              end
          end
      end
  | Ok _ => (Raise AttributeError, w)
  end.
Proof.
  unfold http_patch.
  change (negb (given (Some "main"))) with false.
  change (negb (String.eqb (text (Some "main")) "main")) with false.
  cbv iota. change (text (Some "main")) with "main".
  unfold bind at 1, lift.
  destruct (json_decode E raw) as [v|e]; [|reflexivity].
  unfold bind at 1.
  destruct v; try reflexivity.
  cbn [as_mapping ret].
  unfold bind at 1.
  destruct (dispatch E d w) as [[[accepted ignored]|e] [app1 tr1]]; [|reflexivity].
  cbn [fst snd w_app w_trace].
  unfold bind at 1, warn_ignored, warned.
  destruct (truthy (VDict ignored)).
  - unfold emit at 1. cbn [w_app w_trace].
    unfold bind at 1, save, bind at 1, get_app. cbn [w_app w_trace].
    unfold bind at 1, emit at 1, lift at 1. cbn [w_app w_trace].
    destruct (save_config E app1); [|reflexivity].
    unfold bind at 1, push_update, bind at 1, get_app. cbn [w_app w_trace].
    unfold bind at 1, lift at 1.
    destruct (get_data E "main" app1) as [config|]; [|reflexivity].
    unfold bind at 1, emit at 1, lift at 1. cbn [w_app w_trace].
    destruct (push E "main" (VDict config)); reflexivity.
  - unfold ret at 1.
    unfold bind at 1, save, bind at 1, get_app. cbn [w_app w_trace].
    unfold bind at 1, emit at 1, lift at 1. cbn [w_app w_trace].
    destruct (save_config E app1); [|reflexivity].
    unfold bind at 1, push_update, bind at 1, get_app. cbn [w_app w_trace].
    unfold bind at 1, lift at 1.
    destruct (get_data E "main" app1) as [config|]; [|reflexivity].
    unfold bind at 1, emit at 1, lift at 1. cbn [w_app w_trace].
    destruct (push E "main" (VDict config)); reflexivity.
Qed.

(** The loop and the metadata step log nothing and save nothing. *)
Lemma patch_item_trace (key : string) (v : value) (accepted ignored : dict)
    (w : world) :
  w_trace (snd (patch_item E key v accepted ignored w)) = w_trace w /\
  w_app (snd (patch_item E key v accepted ignored w)) = snd (verdict E key v (w_app w)).
Proof.
  rewrite patch_item_unfold. cbv zeta.
  destruct (fst (verdict E key v (w_app w)));
    [destruct (set_nested_value accepted key v)
    |destruct (set_nested_value ignored key v)]; now split.
Qed.

Lemma patch_items_trace (items : list (string * value)) :
  forall accepted ignored w,
    w_trace (snd (patch_items E items accepted ignored w)) = w_trace w.
Proof.
  induction items as [|[key v] rest IH]; intros accepted ignored w; [reflexivity|].
  simpl. unfold bind at 1.
  pose proof (patch_item_trace key v accepted ignored w) as [Ht _].
  destruct (patch_item E key v accepted ignored w) as [[r|e] w1]; simpl in *.
  - now rewrite IH.
  - assumption.
Qed.

Lemma pop_metadata_world (data : dict) (w : world) :
  snd (pop_metadata_providers data w) = w.
Proof.
  unfold pop_metadata_providers.
  destruct (dict_get data "metadata") as [m|]; [|reflexivity].
  destruct (truthy m); [|reflexivity].
  destruct m; try reflexivity.
  now destruct (dict_pop d "metadataProviders") as [[? ?]|].
Qed.

Lemma patch_metadata_trace (popped : option value) (w : world) :
  w_trace (snd (patch_metadata_providers E popped w)) = w_trace w.
Proof.
  unfold patch_metadata_providers.
  destruct popped as [mp|]; [|reflexivity].
  destruct (truthy mp); [|reflexivity].
  unfold bind at 1, get_app. cbn [fst snd].
  destruct (metadata_structure_patch E (w_app w) mp) as [[|] app'];
    unfold bind, put_app, lift, ret; rewrite set_providers; reflexivity.
Qed.

Lemma dispatch_trace (data : dict) (w : world) :
  w_trace (snd (dispatch E data w)) = w_trace w.
Proof.
  unfold dispatch, bind at 1.
  pose proof (pop_metadata_world data w) as Hp.
  destruct (pop_metadata_providers data w) as [[p|e] w0]; simpl in Hp; subst w0;
    [|reflexivity].
  unfold bind at 1.
  pose proof (patch_metadata_trace (snd p) w) as Hm.
  destruct (patch_metadata_providers E (snd p) w) as [[r|e] w1]; simpl in Hm;
    [|assumption].
  now rewrite patch_items_trace.
Qed.

(** ** A body that writes one leaf *)

Lemma nest_leaves (ks : list string) (v : value) :
  ks <> [] -> is_dict v = false -> iter_nested_keys (nest ks v) = [(ks, v)].
Proof.
  induction ks as [|k rest IH]; intros Hne Hv; [congruence|].
  destruct rest as [|k2 rest].
  - simpl. destruct v; try discriminate; reflexivity.
  - change (nest (k :: k2 :: rest) v) with (VDict [(k, nest (k2 :: rest) v)]).
    assert (Hl : leaf_entry (k, nest (k2 :: rest) v)
                 = map (fun q => (k :: fst q, snd q))
                       (iter_nested_keys (nest (k2 :: rest) v))) by reflexivity.
    rewrite iter_nested_keys_dict. cbn [flat_map].
    rewrite Hl, IH by (discriminate || assumption). reflexivity.
Qed.

Lemma single_leaf_dispatch (key : string) (v : value) (data : dict) (w : world) :
  is_dict v = false ->
  String.eqb (hd "" (split_dots key)) "metadata" = false ->
  nest (split_dots key) v = VDict data ->
  dispatch E data w = patch_item E key v [] [] w.
Proof.
  intros Hv Hhd Hnest.
  assert (Hitems : iter_nested_items data = [(key, v)]).
  { unfold iter_nested_items. rewrite <- Hnest.
    rewrite nest_leaves by (apply split_dots_not_nil || assumption).
    simpl. now rewrite join_split. }
  assert (Hpop : pop_metadata_providers data w = (Ok (data, None), w)).
  { unfold pop_metadata_providers.
    destruct (split_dots key) as [|k rest] eqn:Hs; [now apply split_dots_not_nil in Hs|].
    simpl in Hnest, Hhd. injection Hnest as <-. simpl.
    rewrite Hhd. reflexivity. }
  unfold dispatch, bind at 1. rewrite Hpop. cbn [fst snd].
  unfold bind at 1. cbn [patch_metadata_providers ret fst snd].
  rewrite Hitems. simpl. unfold bind.
  destruct (patch_item E key v [] [] w) as [[[a i]|e] w1]; reflexivity.
Qed.

End Handler.

(** * The claims *)

Section Claims.

Variable E : Env.

Lemma patches_get_In (key : string) (f : Field) :
  patches_get E key = Some f -> In (key, f) (patches E).
Proof.
  unfold patches_get. generalize (patches E). intros l.
  induction l as [|[k g] r IH]; [discriminate|].
  destruct (String.eqb k key) eqn:Hk.
  - apply String.eqb_eq in Hk; subst k. intros [= ->]. now left.
  - intros H. right. now apply IH.
Qed.

Lemma table_round_trip : forallb (round_trip_check E) (patches E) = true.
Proof. vm_compute. reflexivity. Qed.


Lemma registered_not_metadata (key : string) (f : Field) :
  patches_get E key = Some f ->
  String.eqb (first_key key) "metadata" = false.
Proof.
  intros H. apply patches_get_In in H.
  pose proof table_round_trip as Ht. rewrite forallb_forall in Ht.
  specialize (Ht _ H). unfold round_trip_check in Ht. simpl in Ht.
  apply andb_true_iff in Ht as [Ht _]. now apply negb_true_iff in Ht.
Qed.

Lemma http_patch_store (raw : string) (data : dict) (w : world) :
  json_decode E raw = Ok (VDict data) ->
  w_app (snd (http_patch E (Some "main") raw w)) = w_app (snd (dispatch E data w)).
Proof.
  intros Hd. rewrite http_patch_main, Hd.
  destruct (dispatch E data w) as [[[accepted ignored]|e] w1]; [|reflexivity].
  cbv zeta.
  destruct (save_config E (w_app w1)); [|reflexivity].
  destruct (get_data E "main" (w_app w1)) as [config|]; [|reflexivity].
  destruct (push E "main" (VDict config)); reflexivity.
Qed.

Lemma saves_app (t1 t2 : list event) : saves (t1 ++ t2) = saves t1 + saves t2.
Proof.
  induction t1 as [|e t1 IH]; [reflexivity|]. simpl. destruct e; simpl; lia.
Qed.

Lemma saves_warned (ignored : dict) (t : list event) :
  saves (warned ignored t) = saves t.
Proof.
  unfold warned. destruct (truthy (VDict ignored)); [|reflexivity].
  rewrite saves_app. simpl. lia.
Qed.

(** C8. A PATCH whose section identifier is missing gets 400 and one whose
    identifier is anything but main gets 404; the reply is given with the
    store and the trace as they were (nothing mutated, saved or pushed), for
    every request body and every decoder, so before the body is decoded. *)
Theorem patch_routing_errors (identifier : option string) (raw : string)
    (w : world) :
  String.eqb (text identifier) "main" = false ->
  exists r,
    http_patch E identifier raw w = (Ok r, w) /\
    status r = (if given identifier then 404 else 400)%Z.
Proof.
  intros Hid. unfold http_patch.
  destruct (given identifier).
  - simpl. rewrite Hid. simpl. eexists. split; reflexivity.
  - simpl. eexists. split; reflexivity.
Qed.

(** C6. A PATCH of main that succeeds replies 200 with exactly the tree of
    accepted writes; the ignored writes are not in the reply, and they are
    logged as one warning exactly when there are any, before the save and
    the push. *)
Theorem accepted_only_response (raw : string) (w : world) (r : reply)
    (w' : world) :
  http_patch E (Some "main") raw w = (Ok r, w') ->
  exists data accepted ignored w1 config,
    json_decode E raw = Ok (VDict data) /\
    dispatch E data w = (Ok (accepted, ignored), w1) /\
    r = {| status := 200; body := Data (VDict accepted) |} /\
    w_trace w' =
      (w_trace w
       ++ (if truthy (VDict ignored) then [LogWarning ignored] else [])
       ++ [SaveConfig (w_app w1); WsPush "main" (VDict config)])%list.
Proof.
  rewrite http_patch_main.
  destruct (json_decode E raw) as [v|] eqn:Hdec; [|discriminate].
  destruct v as [| | | | |data]; try discriminate.
  pose proof (dispatch_trace E data w) as Htr.
  destruct (dispatch E data w) as [[[accepted ignored]|e] w1] eqn:Hdis; [|discriminate].
  simpl in Htr. cbv zeta.
  destruct (save_config E (w_app w1)); [|discriminate].
  destruct (get_data E "main" (w_app w1)) as [config|]; [|discriminate].
  destruct (push E "main" (VDict config)); [|discriminate].
  intros [= <- <-].
  exists data, accepted, ignored, w1, config.
  split; [reflexivity|]. split; [assumption|]. split; [reflexivity|].
  simpl. unfold warned. rewrite Htr.
  destruct ignored; simpl; now rewrite <- ?app_assoc.
Qed.

(** C7. When the body decodes and the leaves have all been processed, the
    configuration is saved exactly once during the request; the save sees
    the store the leaves left (every accepted mutation applied) and comes
    after the warning; when it fails the request fails with its error and
    the store keeps the mutations. *)
Theorem single_deferred_save (raw : string) (data accepted ignored : dict)
    (w w1 : world) :
  json_decode E raw = Ok (VDict data) ->
  dispatch E data w = (Ok (accepted, ignored), w1) ->
  exists tail,
    w_trace (snd (http_patch E (Some "main") raw w)) =
      (warned ignored (w_trace w) ++ SaveConfig (w_app w1) :: tail)%list /\
    saves tail = 0 /\
    saves (w_trace (snd (http_patch E (Some "main") raw w))) = saves (w_trace w) + 1 /\
    w_app (snd (http_patch E (Some "main") raw w)) = w_app w1 /\
    (forall e, save_config E (w_app w1) = Raise e ->
               fst (http_patch E (Some "main") raw w) = Raise e).
Proof.
  intros Hd Hdis.
  pose proof (dispatch_trace E data w) as Htr. rewrite Hdis in Htr. simpl in Htr.
  rewrite http_patch_main, Hd, Hdis. cbv zeta. rewrite Htr.
  assert (Hcount : forall tail, saves tail = 0 ->
            saves (warned ignored (w_trace w) ++ SaveConfig (w_app w1) :: tail)
            = saves (w_trace w) + 1).
  { intros tail Ht. rewrite saves_app, saves_warned. simpl. lia. }
  destruct (save_config E (w_app w1)) as [[]|e0].
  - destruct (get_data E "main" (w_app w1)) as [config|e1].
    + exists [WsPush "main" (VDict config)].
      destruct (push E "main" (VDict config)); simpl;
        rewrite <- app_assoc; simpl;
        (split; [reflexivity|]); (split; [reflexivity|]);
        (split; [now apply Hcount|]); (split; [reflexivity|]); discriminate.
    + exists []. simpl.
      split; [reflexivity|]. split; [reflexivity|].
      split; [now apply Hcount|]. split; [reflexivity|]. discriminate.
  - exists []. simpl.
    split; [reflexivity|]. split; [reflexivity|].
    split; [now apply Hcount|]. split; [reflexivity|]. now intros e [= ->].
Qed.

End Claims.

Section Claims2.

Variable E : Env.

Lemma sections_names :
  sections E = ["main"; "metadata"; "notifiers"; "qualities"; "search"; "statuses"].
Proof. reflexivity. Qed.

Lemma world_eta (w : world) : {| w_app := w_app w; w_trace := w_trace w |} = w.
Proof. now destruct w. Qed.

Lemma set_path_empty_nest (ks : list string) (v : value) :
  ks <> [] -> exists d, set_path [] ks v = Ok d /\ VDict d = nest ks v.
Proof.
  induction ks as [|k rest IH]; intros Hne; [congruence|].
  destruct rest as [|k2 rest].
  - exists [(k, v)]. now split.
  - destruct IH as [d [Hs Hd]]; [discriminate|].
    exists [(k, VDict d)]. rewrite set_path_cons2. simpl dict_get.
    rewrite Hs. simpl. split; [reflexivity|].
    rewrite Hd. reflexivity.
Qed.

(** C9. GET dispatch.  With no section the reply is 200 and its body is a
    tree keyed by every registered section name, each key holding that
    section's tree (the producers are assumed to return); an unregistered
    section gets 404; in a valid section a path segment that is no
    top-level key of its tree gets 400, one that is gets that key's value,
    and no path segment gets the whole section. *)
Theorem get_dispatch (app : App) (identifier path_param : option string) :
  (given identifier = false ->
   (forall s, In s (sections E) -> exists T, get_data E s app = Ok T) ->
   exists snapshot,
     http_get E identifier path_param app
       = Ok {| status := 200; body := Data (VDict snapshot) |} /\
     map fst snapshot = sections E /\
     forall s, In s (sections E) ->
       exists T, get_data E s app = Ok T /\ dict_get snapshot s = Some (VDict T)) /\
  (given identifier = true ->
   mem_string (text identifier) (sections E) = false ->
   http_get E identifier path_param app
     = Ok {| status := 404; body := Error "Config not found" |}) /\
  (forall T,
     given identifier = true ->
     mem_string (text identifier) (sections E) = true ->
     get_data E (text identifier) app = Ok T ->
     http_get E identifier path_param app =
       if given path_param then
         match dict_get T (text path_param) with
         | None => Ok {| status := 400;
                         body := Error (text path_param ++ " is a invalid path") |}
         | Some x => Ok {| status := 200; body := Data x |}
         end
       else Ok {| status := 200; body := Data (VDict T) |}).
Proof.
  split; [|split].
  - intros Hid Hall. rewrite sections_names in *.
    destruct (Hall "main") as [T1 H1]; [simpl; tauto|].
    destruct (Hall "metadata") as [T2 H2]; [simpl; tauto|].
    destruct (Hall "notifiers") as [T3 H3]; [simpl; tauto|].
    destruct (Hall "qualities") as [T4 H4]; [simpl; tauto|].
    destruct (Hall "search") as [T5 H5]; [simpl; tauto|].
    destruct (Hall "statuses") as [T6 H6]; [simpl; tauto|].
    exists [("main", VDict T1); ("metadata", VDict T2); ("notifiers", VDict T3);
            ("qualities", VDict T4); ("search", VDict T5); ("statuses", VDict T6)].
    split; [|split].
    + unfold http_get. rewrite Hid, sections_names. cbn [andb negb all_sections].
      rewrite H1. cbn [rbind]. rewrite H2. cbn [rbind]. rewrite H3. cbn [rbind].
      rewrite H4. cbn [rbind]. rewrite H5. cbn [rbind]. rewrite H6. reflexivity.
    + reflexivity.
    + intros s Hs. simpl in Hs.
      destruct Hs as [<-|[<-|[<-|[<-|[<-|[<-|[]]]]]]]; eexists; split; eauto.
  - intros Hid Hmem. unfold http_get. now rewrite Hid, Hmem.
  - intros T Hid Hmem Hget. unfold http_get. rewrite Hid, Hmem, Hget. simpl.
    destruct (given path_param); [|reflexivity].
    now destruct (dict_get T (text path_param)).
Qed.

(** C4. Validator gate.  When the validator of the Field registered for a
    path returns false on the candidate, [Field.patch] rejects and leaves
    the store as it was; the turn of the loop that processes the leaf
    leaves the store, the trace and the accepted tree untouched and puts the
    leaf under its path in the ignored tree; and a request that writes
    just that leaf ends with every attribute of the store unchanged, logs
    the leaf as ignored, and accepts nothing. *)
Theorem validator_gate (key : string) (f : Field)
    (p : App -> value -> result bool) (v : value) (raw : string) (w : world) :
  patches_get E key = Some f ->
  validator f = Some p ->
  p (w_app w) v = Ok false ->
  patch E f (w_app w) v = (false, w_app w) /\
  (forall accepted ignored ignored',
     set_nested_value ignored key v = Ok ignored' ->
     patch_item E key v accepted ignored w = (Ok (accepted, ignored'), w) /\
     get_path (VDict ignored') (split_dots key) = Some v) /\
  (is_dict v = false ->
   json_decode E raw = Ok (nest (split_dots key) v) ->
   exists ignored,
     nest (split_dots key) v = VDict ignored /\
     dispatch E ignored w = (Ok ([], ignored), w) /\
     w_app (snd (http_patch E (Some "main") raw w)) = w_app w /\
     In (LogWarning ignored) (w_trace (snd (http_patch E (Some "main") raw w))) /\
     forall r, fst (http_patch E (Some "main") raw w) = Ok r ->
               r = {| status := 200; body := Data (VDict []) |}).
Proof.
  intros Hreg Hval Hfalse.
  assert (Hpatch : patch E f (w_app w) v = (false, w_app w)).
  { unfold patch, run_validator. now rewrite Hval, Hfalse. }
  assert (Hturn : forall accepted ignored ignored',
            set_nested_value ignored key v = Ok ignored' ->
            patch_item E key v accepted ignored w = (Ok (accepted, ignored'), w) /\
            get_path (VDict ignored') (split_dots key) = Some v).
  { intros accepted ignored ignored' Hset. split.
    - rewrite patch_item_unfold. unfold verdict. rewrite Hreg, Hpatch. simpl.
      now rewrite Hset, world_eta.
    - unfold set_nested_value in Hset.
      rewrite <- (app_nil_r (split_dots key)).
      now rewrite (set_path_get_ext _ _ _ _ [] Hset). }
  split; [assumption|]. split; [assumption|].
  intros Hv Hdec.
  destruct (set_path_empty_nest (split_dots key) v (split_dots_not_nil key))
    as [ignored [Hset Hnest]].
  exists ignored. split; [now symmetry|].
  assert (Hdis : dispatch E ignored w = (Ok ([], ignored), w)).
  { rewrite (single_leaf_dispatch E key v ignored w Hv
               (registered_not_metadata E key f Hreg) (eq_sym Hnest)).
    now apply Hturn. }
  split; [assumption|].
  rewrite <- Hnest in Hdec.
  rewrite http_patch_main, Hdec, Hdis. cbv zeta.
  assert (Htruthy : truthy (VDict ignored) = true).
  { destruct (split_dots key) as [|k rest] eqn:Hs; [now apply split_dots_not_nil in Hs|].
    simpl in Hnest. now injection Hnest as ->. }
  unfold warned. rewrite Htruthy.
  destruct (save_config E (w_app w)); simpl;
    [destruct (get_data E "main" (w_app w)) as [config|]; simpl;
       [destruct (push E "main" (VDict config)); simpl|]|];
    (split; [reflexivity|]);
    (split; [rewrite ?in_app_iff; simpl; tauto|]);
    intros r Hr; now inversion Hr.
Qed.

(** C5. Exception isolation.  When the validator, the converter or the
    setter of the Field registered for a path raises on the candidate,
    [Field.patch] rejects that field; the loop records the leaf under its
    path in the ignored tree and goes on with the leaves that follow, the
    accepted tree and the trace untouched. *)
Theorem exception_isolation (key : string) (f : Field) (v : value)
    (rest : list (string * value)) (accepted ignored : dict) (w : world) :
  patches_get E key = Some f ->
  field_raises E f (w_app w) v ->
  fst (patch E f (w_app w) v) = false /\
  forall ignored',
    set_nested_value ignored key v = Ok ignored' ->
    patch_items E ((key, v) :: rest) accepted ignored w =
    patch_items E rest accepted ignored'
      {| w_app := snd (patch E f (w_app w) v); w_trace := w_trace w |} /\
    get_path (VDict ignored') (split_dots key) = Some v.
Proof.
  intros Hreg Hraise.
  assert (Hrej : fst (patch E f (w_app w) v) = false).
  { unfold patch.
    destruct Hraise as [[e He]|[[Hv [e He]]|[Hv (stored & app' & e & Hs & Ha)]]].
    - now rewrite He.
    - now rewrite Hv, He.
    - now rewrite Hv, Hs, Ha. }
  split; [assumption|].
  intros ignored' Hset. split.
  - simpl. unfold bind at 1. rewrite patch_item_unfold. unfold verdict.
    rewrite Hreg, Hrej, Hset. reflexivity.
  - unfold set_nested_value in Hset.
    rewrite <- (app_nil_r (split_dots key)).
    now rewrite (set_path_get_ext _ _ _ _ [] Hset).
Qed.

(** C2 (amended).  For a body that is a JSON object with no repeated key,
    whose keys at every depth are free of dots, and whose [metadata] entry
    is absent, falsy, or a mapping with a [metadataProviders] entry that is
    truthy or an empty mapping: the two result trees exist, every leaf of
    the flattened body is a leaf of the accepted or of the ignored tree
    under the same dotted path and with the same value, and conversely; and
    no dotted path is a leaf of both. *)
Theorem partition_law (data : dict) (w : world) :
  wf_value (VDict data) = true ->
  dot_free (VDict data) = true ->
  metadata_ok data = true ->
  exists accepted ignored w',
    dispatch E data w = (Ok (accepted, ignored), w') /\
    (forall p x, In (p, x) (iter_nested_items data) <->
                 In (p, x) (iter_nested_items accepted) \/
                 In (p, x) (iter_nested_items ignored)) /\
    (forall p, In p (map fst (iter_nested_items accepted)) ->
               In p (map fst (iter_nested_items ignored)) -> False).
Proof.
  intros Hwf Hdf Hmeta.
  assert (Hkey : exists accepted ignored w',
            dispatch E data w = (Ok (accepted, ignored), w') /\
            wf_value (VDict accepted) = true /\ wf_value (VDict ignored) = true /\
            (forall qs x, leaf_at accepted qs x \/ leaf_at ignored qs x <->
                          leaf_at data qs x) /\
            disjoint_leaves accepted ignored).
  { unfold metadata_ok in Hmeta.
    destruct (dict_get data "metadata") as [m|] eqn:Hm.
    - destruct (truthy m) eqn:Htr.
      + destruct m as [| | | | |md]; try discriminate.
        destruct (dict_get md "metadataProviders") as [mp|] eqn:Hmp; [|discriminate].
        apply (dispatch_providers E data md (dict_remove md "metadataProviders") mp w);
          auto.
        unfold dict_pop. now rewrite Hmp.
      + apply dispatch_plain; auto.
        unfold pop_metadata_providers. now rewrite Hm, Htr.
    - apply dispatch_plain; auto.
      unfold pop_metadata_providers. now rewrite Hm. }
  destruct Hkey as (accepted & ignored & w' & Hrun & Hwa & Hwi & Hl & Hd).
  exists accepted, ignored, w'. split; [assumption|].
  now apply partition_as_paths.
Qed.

End Claims2.

Section Claims3.

Variable E : Env.

Lemma layout_schedule_entry :
  patches_get E "layout.schedule"
  = Some (post_processor_ (layout_schedule_post_processor)
            (default_value_ (VStr "banner")
               (EnumField "COMING_EPS_LAYOUT"
                  [VStr "poster"; VStr "banner"; VStr "list"; VStr "calendar"]))).
Proof. reflexivity. Qed.

Lemma post_processor_keeps (key : string) (f : Field) :
  patches_get E key = Some f ->
  is_none (post_processor f) || String.eqb key "layout.schedule" = true ->
  forall x app0, run_post_processor f x app0 (attribute f) = app0 (attribute f).
Proof.
  intros Hreg Hc x app0. unfold run_post_processor.
  destruct (post_processor f) as [p|] eqn:Hp; [|reflexivity].
  simpl in Hc. apply String.eqb_eq in Hc; subst key.
  rewrite layout_schedule_entry in Hreg. injection Hreg as <-.
  simpl in Hp. injection Hp as <-. simpl.
  unfold layout_schedule_post_processor.
  destruct (py_eq x (VStr "calendar")); reflexivity.
Qed.

(** The store a request that writes one leaf of a registered path leaves. *)
Lemma single_leaf_store (key : string) (f : Field) (v : value) (raw : string)
    (w : world) :
  patches_get E key = Some f ->
  is_dict v = false ->
  json_decode E raw = Ok (nest (split_dots key) v) ->
  w_app (snd (http_patch E (Some "main") raw w)) = snd (patch E f (w_app w) v).
Proof.
  intros Hreg Hv Hdec.
  destruct (set_path_empty_nest (split_dots key) v (split_dots_not_nil key))
    as [data [_ Hnest]].
  rewrite <- Hnest in Hdec.
  rewrite (http_patch_store E raw data w Hdec).
  rewrite (single_leaf_dispatch E key v data w Hv
             (registered_not_metadata E key f Hreg) (eq_sym Hnest)).
  destruct (patch_item_trace E key v [] [] w) as [_ ->].
  unfold verdict. now rewrite Hreg.
Qed.



End Claims3.

(** * The claims at concrete requests *)

(** C8 at a PATCH of section search. *)
Lemma patch_routing_errors_witness :
  String.eqb (text (Some "search")) "main" = false /\
  exists r,
    http_patch demo_env (Some "search") "{torrents: {enabled: true}}" demo_world
      = (Ok r, demo_world) /\
    status r = 404%Z.
Proof.
  split; [reflexivity|].
  exact (patch_routing_errors demo_env (Some "search")
           "{torrents: {enabled: true}}" demo_world eq_refl).
Defined.

(** C6 at a request with one accepted and one ignored leaf. *)
Lemma accepted_only_response_witness :
  let raw := "{torrents: {enabled: true, bogusField: 5}}" in
  let r := {| status := 200;
              body := Data (VDict [("torrents", VDict [("enabled", VBool true)])]) |} in
  demo_patch raw = (Ok r, snd (demo_patch raw)) /\
  exists data accepted ignored w1 config,
    json_decode demo_env raw = Ok (VDict data) /\
    dispatch demo_env data demo_world = (Ok (accepted, ignored), w1) /\
    r = {| status := 200; body := Data (VDict accepted) |} /\
    w_trace (snd (demo_patch raw)) =
      (w_trace demo_world
       ++ (if truthy (VDict ignored) then [LogWarning ignored] else [])
       ++ [SaveConfig (w_app w1); WsPush "main" (VDict config)])%list.
Proof.
  split; [reflexivity|].
  exact (accepted_only_response demo_env
           "{torrents: {enabled: true, bogusField: 5}}" demo_world
           {| status := 200;
              body := Data (VDict [("torrents", VDict [("enabled", VBool true)])]) |}
           (snd (demo_patch "{torrents: {enabled: true, bogusField: 5}}"))
           eq_refl).
Defined.

(** C7 at the same request. *)
Lemma single_deferred_save_witness :
  let raw := "{torrents: {enabled: true, bogusField: 5}}" in
  let data := [("torrents", VDict [("enabled", VBool true); ("bogusField", VInt 5)])] in
  let accepted := [("torrents", VDict [("enabled", VBool true)])] in
  let ignored := [("torrents", VDict [("bogusField", VInt 5)])] in
  let w1 := snd (dispatch demo_env data demo_world) in
  json_decode demo_env raw = Ok (VDict data) /\
  dispatch demo_env data demo_world = (Ok (accepted, ignored), w1) /\
  exists tail,
    w_trace (snd (http_patch demo_env (Some "main") raw demo_world)) =
      (warned ignored (w_trace demo_world) ++ SaveConfig (w_app w1) :: tail)%list /\
    saves tail = 0 /\
    saves (w_trace (snd (http_patch demo_env (Some "main") raw demo_world)))
      = saves (w_trace demo_world) + 1 /\
    w_app (snd (http_patch demo_env (Some "main") raw demo_world)) = w_app w1 /\
    (forall e, save_config demo_env (w_app w1) = Raise e ->
               fst (http_patch demo_env (Some "main") raw demo_world) = Raise e).
Proof.
  split; [reflexivity|]. split; [reflexivity|].
  exact (single_deferred_save demo_env
           "{torrents: {enabled: true, bogusField: 5}}"
           [("torrents", VDict [("enabled", VBool true); ("bogusField", VInt 5)])]
           [("torrents", VDict [("enabled", VBool true)])]
           [("torrents", VDict [("bogusField", VInt 5)])]
           demo_world
           (snd (dispatch demo_env
                   [("torrents", VDict [("enabled", VBool true); ("bogusField", VInt 5)])]
                   demo_world))
           eq_refl eq_refl).
Defined.

(** C9 at the four kinds of GET. *)
Lemma get_dispatch_witness :
  (exists snapshot,
     http_get demo_env None None demo_app
       = Ok {| status := 200; body := Data (VDict snapshot) |} /\
     map fst snapshot = sections demo_env /\
     forall s, In s (sections demo_env) ->
       exists T, get_data demo_env s demo_app = Ok T /\
                 dict_get snapshot s = Some (VDict T)) /\
  http_get demo_env (Some "doesnotexist") None demo_app
    = Ok {| status := 404; body := Error "Config not found" |} /\
  http_get demo_env (Some "main") (Some "doesnotexist") demo_app
    = Ok {| status := 400; body := Error "doesnotexist is a invalid path" |} /\
  http_get demo_env (Some "main") (Some "backlogOverview") demo_app
    = Ok {| status := 200;
            body := Data (VDict [("period", VInt 0); ("status", VInt 0)]) |}.
Proof.
  assert (Hall : forall s, In s (sections demo_env) ->
                   exists T, get_data demo_env s demo_app = Ok T).
  { intros s Hs. simpl in Hs.
    destruct Hs as [<-|[<-|[<-|[<-|[<-|[<-|[]]]]]]]; eexists; vm_compute; reflexivity. }
  assert (Hmain : exists T, get_data demo_env "main" demo_app = Ok T)
    by (apply Hall; now left).
  destruct Hmain as [T HT].
  split; [|split; [|split]].
  - exact (proj1 (get_dispatch demo_env demo_app None None) eq_refl Hall).
  - exact (proj1 (proj2 (get_dispatch demo_env demo_app (Some "doesnotexist") None))
             eq_refl eq_refl).
  - rewrite (proj2 (proj2 (get_dispatch demo_env demo_app (Some "main")
                             (Some "doesnotexist"))) T eq_refl eq_refl HT).
    vm_compute in HT. injection HT as <-. reflexivity.
  - rewrite (proj2 (proj2 (get_dispatch demo_env demo_app (Some "main")
                             (Some "backlogOverview"))) T eq_refl eq_refl HT).
    vm_compute in HT. injection HT as <-. reflexivity.
Defined.

(** C4 at a quality the validator refuses. *)
Lemma validator_gate_witness :
  let key := "showDefaults.quality" in
  let f := validator_ (fun _ => Quality_is_valid_combined_quality demo_env)
             (IntegerField "QUALITY_DEFAULT") in
  let p := fun (_ : App) => Quality_is_valid_combined_quality demo_env in
  let v := VInt (-1) in
  let raw := "{showDefaults: {quality: -1}}" in
  patches_get demo_env key = Some f /\
  validator f = Some p /\
  p (w_app demo_world) v = Ok false /\
  patch demo_env f (w_app demo_world) v = (false, w_app demo_world) /\
  (forall accepted ignored ignored',
     set_nested_value ignored key v = Ok ignored' ->
     patch_item demo_env key v accepted ignored demo_world
       = (Ok (accepted, ignored'), demo_world) /\
     get_path (VDict ignored') (split_dots key) = Some v) /\
  (is_dict v = false ->
   json_decode demo_env raw = Ok (nest (split_dots key) v) ->
   exists ignored,
     nest (split_dots key) v = VDict ignored /\
     dispatch demo_env ignored demo_world = (Ok ([], ignored), demo_world) /\
     w_app (snd (http_patch demo_env (Some "main") raw demo_world)) = w_app demo_world /\
     In (LogWarning ignored)
        (w_trace (snd (http_patch demo_env (Some "main") raw demo_world))) /\
     forall r, fst (http_patch demo_env (Some "main") raw demo_world) = Ok r ->
               r = {| status := 200; body := Data (VDict []) |}).
Proof.
  split; [reflexivity|]. split; [reflexivity|]. split; [reflexivity|].
  exact (validator_gate demo_env "showDefaults.quality"
           (validator_ (fun _ => Quality_is_valid_combined_quality demo_env)
              (IntegerField "QUALITY_DEFAULT"))
           (fun _ => Quality_is_valid_combined_quality demo_env)
           (VInt (-1)) "{showDefaults: {quality: -1}}" demo_world
           eq_refl eq_refl eq_refl).
Defined.

(** C5 at a theme whose swap raises, followed by a sibling leaf. *)
Lemma exception_isolation_witness :
  let key := "theme.name" in
  let f := setter_ (theme_name_setter demo_env) (StringField "THEME_NAME") in
  let v := VStr "dark" in
  let rest := [("torrents.enabled", VBool true)] in
  patches_get demo_env key = Some f /\
  field_raises demo_env f (w_app demo_world) v /\
  fst (patch demo_env f (w_app demo_world) v) = false /\
  (forall ignored',
     set_nested_value [] key v = Ok ignored' ->
     patch_items demo_env ((key, v) :: rest) [] [] demo_world =
     patch_items demo_env rest [] ignored'
       {| w_app := snd (patch demo_env f (w_app demo_world) v);
          w_trace := w_trace demo_world |} /\
     get_path (VDict ignored') (split_dots key) = Some v) /\
  fst (demo_patch "{theme: {name: dark}, torrents: {enabled: true}}")
    = Ok {| status := 200;
            body := Data (VDict [("torrents", VDict [("enabled", VBool true)])]) |}.
Proof.
  assert (Hraise : field_raises demo_env
            (setter_ (theme_name_setter demo_env) (StringField "THEME_NAME"))
            (w_app demo_world) (VStr "dark")).
  { right. right. split; [reflexivity|].
    exists (VStr "dark"), demo_app, OtherError. split; reflexivity. }
  split; [reflexivity|]. split; [exact Hraise|].
  split; [|split; [|reflexivity]].
  - exact (proj1 (exception_isolation demo_env "theme.name"
             (setter_ (theme_name_setter demo_env) (StringField "THEME_NAME"))
             (VStr "dark") [("torrents.enabled", VBool true)] [] [] demo_world
             eq_refl Hraise)).
  - exact (proj2 (exception_isolation demo_env "theme.name"
             (setter_ (theme_name_setter demo_env) (StringField "THEME_NAME"))
             (VStr "dark") [("torrents.enabled", VBool true)] [] [] demo_world
             eq_refl Hraise)).
Defined.

(** C2 as stated fails: a [metadataProviders] leaf that is falsy is taken
    out of the body and recorded in neither tree. *)
Lemma partition_law_counterexample :
  let data := [("metadata", VDict [("metadataProviders", VNone)]);
               ("torrents", VDict [("enabled", VBool true)])] in
  let accepted := [("torrents", VDict [("enabled", VBool true)])] in
  let ignored := @nil (string * value) in
  wf_value (VDict data) = true /\
  dot_free (VDict data) = true /\
  iter_nested_items data
    = [("metadata.metadataProviders", VNone); ("torrents.enabled", VBool true)] /\
  fst (dispatch demo_env data demo_world) = Ok (accepted, ignored) /\
  iter_nested_items accepted = [("torrents.enabled", VBool true)] /\
  iter_nested_items ignored = [] /\
  fst (demo_patch "{metadata: {metadataProviders: null}, torrents: {enabled: true}}")
    = Ok {| status := 200; body := Data (VDict accepted) |}.
Proof. repeat split; reflexivity. Qed.

(** C2 (amended) at a body with providers, an accepted and an ignored leaf. *)
Lemma partition_law_witness :
  let data :=
    [("metadata", VDict [("metadataProviders",
         VDict [("kodi", VDict [("showMetadata", VBool true)])])]);
     ("torrents", VDict [("enabled", VBool true); ("bogusField", VInt 5)])] in
  wf_value (VDict data) = true /\
  dot_free (VDict data) = true /\
  metadata_ok data = true /\
  exists accepted ignored w',
    dispatch demo_env data demo_world = (Ok (accepted, ignored), w') /\
    (forall p x, In (p, x) (iter_nested_items data) <->
                 In (p, x) (iter_nested_items accepted) \/
                 In (p, x) (iter_nested_items ignored)) /\
    (forall p, In p (map fst (iter_nested_items accepted)) ->
               In p (map fst (iter_nested_items ignored)) -> False).
Proof.
  split; [reflexivity|]. split; [reflexivity|]. split; [reflexivity|].
  exact (partition_law demo_env
           [("metadata", VDict [("metadataProviders",
                VDict [("kodi", VDict [("showMetadata", VBool true)])])]);
            ("torrents", VDict [("enabled", VBool true); ("bogusField", VInt 5)])]
           demo_world eq_refl eq_refl eq_refl).
Defined.



(** ** Further facts about the table *)


(** ** The producers never fail on their own subscripts *)

Lemma mem_path_In (p : list string) (l : list (list string)) :
  mem_path p l = true -> In p l.
Proof.
  unfold mem_path. rewrite existsb_exists. intros [q [Hq Hs]].
  apply same_path_eq in Hs. now subst.
Qed.

Lemma update_at_succeeds (cp : list string) :
  forall t d f,
    get_path (VDict t) cp = Some (VDict d) ->
    exists t', update_at t cp f = Ok t'.
Proof.
  induction cp as [|c cp IH]; intros t d f H.
  - now exists (f t).
  - simpl in H. destruct (dict_get t c) as [x|] eqn:Hg; [|discriminate].
    destruct cp as [|c2 cp'].
    + simpl in H. injection H as ->. simpl. rewrite Hg. eexists. reflexivity.
    + destruct x; try (simpl in H; discriminate).
      destruct (IH d0 d f H) as [sub' Hs].
      simpl. simpl in Hs. rewrite Hg. rewrite Hs. eexists. reflexivity.
Qed.

(** An update below a place leaves a mapping at that place. *)
Lemma update_at_keeps_container (cp : list string) :
  forall t f t' q,
    update_at t cp f = Ok t' ->
    is_prefix q cp = true ->
    exists d, get_path (VDict t') q = Some (VDict d).
Proof.
  induction cp as [|c cp IH]; intros t f t' q H Hq.
  - destruct q; [|discriminate]. simpl. now exists t'.
  - destruct q as [|k q]; [simpl; now exists t'|].
    simpl in Hq. apply andb_true_iff in Hq as [Hk Hq].
    apply String.eqb_eq in Hk; subst k.
    apply update_at_cons in H as (sub & sub' & Hg & Hs & ->).
    simpl. rewrite dict_get_set_eq. eapply IH; eassumption.
Qed.

Lemma is_prefix_snoc (q cp : list string) (k : string) :
  is_prefix q (cp ++ [k]) = true -> is_prefix (cp ++ [k]) q = false ->
  is_prefix q cp = true.
Proof.
  revert cp. induction q as [|a q IH]; intros cp H1 H2; [reflexivity|].
  destruct cp as [|c cp].
  - simpl in H1. apply andb_true_iff in H1 as [Ha Hq].
    destruct q; [|discriminate]. simpl in H2. rewrite String.eqb_sym in H2.
    now rewrite Ha in H2.
  - simpl in H1, H2. apply andb_true_iff in H1 as [Ha Hq].
    simpl. rewrite Ha. simpl.
    rewrite String.eqb_sym in H2. rewrite Ha in H2. simpl in H2.
    now apply IH.
Qed.

Section Ready.

Variable E : Env.

Lemma is_new_value (app : App) (r : rhs) (x : value) :
  is_new r = true -> eval_rhs E app r = Ok x -> x = VDict [].
Proof. destruct r; try discriminate; intros _ [= <-]; reflexivity. Qed.

(** One line of a producer whose container is there: it returns as soon
    as its right-hand side does, and the containers stay. *)
Lemma exec_assignment_ready (app : App) (ready : list (list string))
    (t : dict) (s : assignment) (x : value) :
  containers_hold ready t ->
  mem_path (container s) ready = true ->
  forallb (fun q => negb (is_prefix (target s) q)) ready = true ->
  eval_rhs E app (item_rhs s) = Ok x ->
  exists t', exec_assignment E app t s = Ok t' /\
             containers_hold
               (if is_new (item_rhs s) then target s :: ready else ready) t'.
Proof.
  intros Hold Hmem Hover Hx.
  destruct (Hold _ (mem_path_In _ _ Hmem)) as [d Hd].
  destruct (update_at_succeeds (container s) t d
              (setitem (in_nonempty s) (item_key s) x) Hd) as [t' Ht'].
  exists t'. split.
  - unfold exec_assignment. rewrite Hx. exact Ht'.
  - assert (Hkeep : containers_hold ready t').
    { intros q Hq.
      rewrite forallb_forall in Hover. specialize (Hover q Hq).
      apply negb_true_iff in Hover.
      destruct (is_prefix q (target s)) eqn:Hp.
      - eapply update_at_keeps_container; [exact Ht'|].
        eapply is_prefix_snoc; eassumption.
      - rewrite (update_at_incomparable _ _ _ _ _ _ q Ht').
        + now apply Hold.
        + unfold comparable. fold (target s). now rewrite Hover, Hp. }
    destruct (is_new (item_rhs s)) eqn:Hnew; [|assumption].
    intros q [<-|Hq]; [|now apply Hkeep].
    exists []. rewrite (is_new_value app _ x Hnew Hx) in Ht'.
    unfold target. eapply update_at_target; [exact Ht'|].
    now rewrite andb_false_r.
Qed.

(** A producer whose containers are ready raises only what one of its
    right-hand sides raises. *)
Lemma exec_ready (app : App) (body : list assignment) :
  forall ready t,
    containers_ready ready body = true ->
    containers_hold ready t ->
    (forall e, exec E app body t = Raise e ->
       exists s, In s body /\ eval_rhs E app (item_rhs s) = Raise e) /\
    ((forall s, In s body -> exists x, eval_rhs E app (item_rhs s) = Ok x) ->
     exists T, exec E app body t = Ok T).
Proof.
  induction body as [|s body IH]; intros ready t Hready Hold.
  - split; [discriminate|]. intros _. now exists t.
  - simpl in Hready.
    apply andb_true_iff in Hready as [Hready Hrest].
    apply andb_true_iff in Hready as [Hmem Hover].
    destruct (eval_rhs E app (item_rhs s)) as [x|e0] eqn:Hx.
    + destruct (exec_assignment_ready app ready t s x Hold Hmem Hover Hx)
        as [t' [Ht' Hold']].
      destruct (IH _ t' Hrest Hold') as [IH1 IH2].
      simpl. rewrite Ht'. simpl. split.
      * intros e He. destruct (IH1 e He) as [s' [Hin Hs']].
        exists s'. split; [now right|assumption].
      * intros Hall. apply IH2. intros s' Hs'. apply Hall. now right.
    + simpl. unfold exec_assignment. rewrite Hx. simpl. split.
      * intros e [= <-]. exists s. split; [now left|assumption].
      * intros Hall. destruct (Hall s (or_introl eq_refl)) as [x Hx'].
        rewrite Hx in Hx'. discriminate.
Qed.

Lemma bodies_ready (section : string) (body : list assignment) :
  section_body E section = Some body -> containers_ready [[]] body = true.
Proof.
  unfold section_body.
  destruct (String.eqb section "main"); [intros [= <-]; vm_compute; reflexivity|].
  destruct (String.eqb section "qualities"); [intros [= <-]; vm_compute; reflexivity|].
  destruct (String.eqb section "statuses"); [intros [= <-]; vm_compute; reflexivity|].
  destruct (String.eqb section "search"); [intros [= <-]; vm_compute; reflexivity|].
  destruct (String.eqb section "notifiers"); [intros [= <-]; vm_compute; reflexivity|].
  discriminate.
Qed.

End Ready.

Section ProducersReturn.

Variable E : Env.

Lemma containers_hold_root : containers_hold [[]] [].
Proof. intros q [<-|[]]. now exists []. Qed.

Lemma exec_returns_rhs (app : App) (body : list assignment) :
  forall t T, exec E app body t = Ok T ->
    forall s, In s body -> exists x, eval_rhs E app (item_rhs s) = Ok x.
Proof.
  induction body as [|s0 body IH]; intros t T H s Hs; [destruct Hs|].
  simpl in H.
  destruct (exec_assignment E app t s0) as [t1|] eqn:H1; simpl in H; [|discriminate].
  destruct Hs as [<-|Hs]; [|eapply IH; eassumption].
  unfold exec_assignment in H1.
  destruct (eval_rhs E app (item_rhs s0)) as [x|]; [now exists x|discriminate].
Qed.

Lemma int_returns_int (v x : value) : int_ E v = Ok x -> exists z, x = VInt z.
Proof.
  destruct v; simpl; try discriminate.
  - intros [= <-]. eauto.
  - intros [= <-]. eauto.
  - destruct (int_text E s); [intros [= <-]; eauto|discriminate].
Qed.

(** A plain producer returns exactly when [int()] takes every attribute
    it is given. *)
Lemma plain_body_returns (app : App) (body : list assignment) :
  plain_body body = true ->
  containers_ready [[]] body = true ->
  ((exists T, run_section E body app = Ok T) <->
   (forall a, In a (int_attributes body) -> exists z, int_ E (app a) = Ok (VInt z))).
Proof.
  intros Hplain Hready. unfold run_section. split.
  - intros [T HT] a Ha.
    unfold int_attributes in Ha. apply in_flat_map in Ha as [s [Hs Ha]].
    destruct (exec_returns_rhs app body [] T HT s Hs) as [x Hx].
    destruct (item_rhs s) as [| |c a'|]; try contradiction.
    destruct c; try contradiction. destruct Ha as [<-|[]].
    simpl in Hx. destruct (int_returns_int _ _ Hx) as [z ->]. now exists z.
  - intros Hint.
    apply (proj2 (exec_ready E app body [[]] [] Hready containers_hold_root)).
    intros s Hs.
    unfold plain_body in Hplain. rewrite forallb_forall in Hplain.
    specialize (Hplain s Hs).
    destruct (item_rhs s) as [| |c a|] eqn:Hr; try discriminate.
    + now exists (VDict []).
    + now exists (VDict []).
    + destruct c; try discriminate; simpl.
      * now exists (app a).
      * eexists. reflexivity.
      * destruct (Hint a) as [z Hz]; [|now exists (VInt z)].
        unfold int_attributes. apply in_flat_map. exists s.
        split; [assumption|]. rewrite Hr. now left.
Qed.

(** X4. The producers never fail on their own subscripts.  Each of
    [data_main], [data_qualities], [data_statuses], [data_search] and
    [data_notifiers] assigns only into [section_data] or into a container
    an earlier line created, so whatever the store holds, the producer
    raises only what the evaluation of one of its right-hand sides raises
    (an [int()] or [float()] of an attribute, the join of the locale, a
    call into another module), and it returns when they all return. *)
Theorem producers_fail_only_in_right_hand_sides (section : string)
    (body : list assignment) (app : App) :
  section_body E section = Some body ->
  (forall e, get_data E section app = Raise e ->
     exists s, In s body /\ eval_rhs E app (item_rhs s) = Raise e) /\
  ((forall s, In s body -> exists x, eval_rhs E app (item_rhs s) = Ok x) ->
   exists T, get_data E section app = Ok T).
Proof.
  intros Hbody.
  rewrite (section_body_get_data E section body app Hbody).
  apply (exec_ready E app body [[]] []).
  - apply (bodies_ready E section body Hbody).
  - apply containers_hold_root.
Qed.

(** X5. [data_search] and [data_notifiers] return exactly when [int()]
    takes each of the attributes they pass to it (ten and five
    attributes); no other line of them can fail. *)
Theorem search_and_notifiers_return (app : App) :
  ((exists T, data_search E app = Ok T) <->
   (forall a, In a (int_attributes data_search_body) ->
      exists z, int_ E (app a) = Ok (VInt z))) /\
  ((exists T, data_notifiers E app = Ok T) <->
   (forall a, In a (int_attributes data_notifiers_body) ->
      exists z, int_ E (app a) = Ok (VInt z))) /\
  int_attributes data_search_body
    = [ "PROPERS_SEARCH_DAYS"; "BACKLOG_DAYS"; "BACKLOG_FREQUENCY";
        "MIN_BACKLOG_FREQUENCY"; "DAILYSEARCH_FREQUENCY";
        "MIN_DAILYSEARCH_FREQUENCY"; "TORRENT_CHECKER_FREQUENCY";
        "MIN_TORRENT_CHECKER_FREQUENCY"; "USENET_RETENTION"; "MAX_CACHE_AGE" ] /\
  int_attributes data_notifiers_body
    = [ "PROWL_PRIORITY"; "PUSHOVER_PRIORITY"; "TRAKT_TIMEOUT";
        "TRAKT_DEFAULT_INDEXER"; "TRAKT_METHOD_ADD" ].
Proof.
  split; [|split; [|split; reflexivity]].
  - apply plain_body_returns; vm_compute; reflexivity.
  - apply plain_body_returns; vm_compute; reflexivity.
Qed.

End ProducersReturn.

(** ** The read side as a function of the store *)

Lemma agree_app (l1 l2 : list string) (app app' : App) :
  agree (l1 ++ l2) app app' -> agree l1 app app' /\ agree l2 app app'.
Proof.
  intros H. split; intros a Ha; apply H; apply in_or_app; tauto.
Qed.

Lemma agree_setattr (names : list string) (app : App) (a : string) (v : value) :
  mem_string a names = false -> agree names (setattr app a v) app.
Proof.
  intros Hm b Hb. unfold setattr.
  destruct (String.eqb b a) eqn:Hba; [|reflexivity].
  apply String.eqb_eq in Hba; subst b.
  apply mem_string_In in Hb. congruence.
Qed.

Section ReadSide.

Variable E : Env.

Lemma exec_agree (app app' : App) (body : list assignment) :
  (forall s, In s body ->
     eval_rhs E app (item_rhs s) = eval_rhs E app' (item_rhs s)) ->
  forall t, exec E app body t = exec E app' body t.
Proof.
  induction body as [|s body IH]; intros H t; [reflexivity|].
  simpl. unfold exec_assignment. rewrite (H s (or_introl eq_refl)).
  destruct (eval_rhs E app' (item_rhs s)) as [x|]; [|reflexivity].
  simpl. destruct (update_at t (container s) _) as [t1|]; [|reflexivity].
  simpl. apply IH. intros s' Hs'. apply H. now right.
Qed.

Lemma eval_rhs_agree (app app' : App) (s : assignment) :
  agree (rhs_attributes (item_rhs s)) app app' ->
  same_computed app app' s ->
  eval_rhs E app (item_rhs s) = eval_rhs E app' (item_rhs s).
Proof.
  unfold same_computed. destruct (item_rhs s) as [| |c a|f]; intros Ha Hc.
  - reflexivity.
  - reflexivity.
  - simpl. rewrite (Ha a); [reflexivity|now left].
  - exact Hc.
Qed.

Ltac same_line HF HL HO :=
  first [ exact I
        | reflexivity
        | unfold same_computed; cbn [item_rhs nonempty_item dict_item];
          first [ reflexivity
                | rewrite HF; reflexivity
                | rewrite HL; reflexivity
                | rewrite HO; reflexivity ] ].

(** The computed lines of the producers read nothing but the three
    attributes of [computed_attributes]. *)
Lemma computed_lines (app app' : App) :
  agree computed_attributes app app' ->
  Forall (same_computed app app') (producer_lines E).
Proof.
  intros H.
  assert (HF : app "FANART_BACKGROUND_OPACITY" = app' "FANART_BACKGROUND_OPACITY")
    by (apply H; simpl; tauto).
  assert (HL : app "LOCALE" = app' "LOCALE") by (apply H; simpl; tauto).
  assert (HO : app "OS_USER" = app' "OS_USER") by (apply H; simpl; tauto).
  unfold producer_lines, data_main_body, data_qualities_body,
    data_statuses_body, data_search_body, data_notifiers_body.
  cbn [List.app].
  repeat (apply Forall_cons; [same_line HF HL HO|]).
  apply Forall_nil.
Qed.

Lemma lines_agree (app app' : App) :
  agree (attributes_read E) app app' ->
  forall s, In s (producer_lines E) ->
    eval_rhs E app (item_rhs s) = eval_rhs E app' (item_rhs s).
Proof.
  intros H s Hs.
  assert (H1 : agree (computed_attributes
                      ++ flat_map (fun s => rhs_attributes (item_rhs s))
                           (producer_lines E)) app app')
    by (intros a Ha; apply H; now right).
  apply agree_app in H1 as [Hc Hl].
  apply eval_rhs_agree.
  - intros a Ha. apply Hl. apply in_flat_map. now exists s.
  - pose proof (computed_lines app app' Hc) as HF.
    rewrite Forall_forall in HF. now apply HF.
Qed.

Lemma getattr_member_In (name : string)
    (ms : list (string * (App -> result dict))) (f : App -> result dict) :
  getattr_member name ms = Some f -> In (name, f) ms.
Proof.
  induction ms as [|[n g] ms IH]; simpl; [discriminate|].
  destruct (String.eqb n name) eqn:Hn.
  - apply String.eqb_eq in Hn; subst. intros [= <-]. now left.
  - intros H. right. now apply IH.
Qed.

Lemma get_data_agree (app app' : App) (section : string) :
  agree (attributes_read E) app app' ->
  get_data E section app = get_data E section app'.
Proof.
  intros H. unfold get_data.
  destruct (getattr_member ("data_" ++ section) (members E)) as [f|] eqn:Hf;
    [|reflexivity].
  apply getattr_member_In in Hf.
  pose proof (lines_agree app app' H) as Hl.
  assert (Hrun : forall body, incl body (producer_lines E) ->
            run_section E body app = run_section E body app').
  { intros body Hi. unfold run_section. apply exec_agree.
    intros s Hs. apply Hl. now apply Hi. }
  unfold members in Hf. simpl in Hf.
  destruct Hf as [Hf|[Hf|[Hf|[Hf|[Hf|[Hf|[]]]]]]]; injection Hf as _ <-.
  - apply Hrun. unfold producer_lines. apply incl_appl, incl_refl.
  - unfold data_metadata. rewrite (H "metadata_provider_dict") by now left.
    reflexivity.
  - apply Hrun. unfold producer_lines.
    do 4 apply incl_appr. apply incl_refl.
  - apply Hrun. unfold producer_lines.
    apply incl_appr, incl_appl, incl_refl.
  - apply Hrun. unfold producer_lines.
    do 3 apply incl_appr. apply incl_appl, incl_refl.
  - apply Hrun. unfold producer_lines.
    do 2 apply incl_appr. apply incl_appl, incl_refl.
Qed.

Lemma all_sections_agree (app app' : App) (names : list string) :
  agree (attributes_read E) app app' ->
  forall t, all_sections E names app t = all_sections E names app' t.
Proof.
  intros H. induction names as [|n names IH]; intros t; [reflexivity|].
  simpl. rewrite (get_data_agree app app' n H).
  destruct (get_data E n app'); [apply IH|reflexivity].
Qed.

Lemma http_get_agree (app app' : App) (identifier path_param : option string) :
  agree (attributes_read E) app app' ->
  http_get E identifier path_param app = http_get E identifier path_param app'.
Proof.
  intros H. unfold http_get.
  rewrite (all_sections_agree app app' _ H).
  now rewrite (get_data_agree app app' _ H).
Qed.

End ReadSide.

Section ReadSideTheorems.

Variable E : Env.

Lemma constant_lines (app app' : App) :
  Forall (fun s => eval_rhs E app (item_rhs s) = eval_rhs E app' (item_rhs s) /\
                   exists x, eval_rhs E app (item_rhs s) = Ok x)
         (data_qualities_body E ++ data_statuses_body E).
Proof.
  unfold data_qualities_body, data_statuses_body. cbn [List.app].
  repeat (apply Forall_cons; [split; [reflexivity|eexists; reflexivity]|]).
  apply Forall_nil.
Qed.

Lemma constant_section (body : list assignment) (app app' : App) :
  incl body (data_qualities_body E ++ data_statuses_body E) ->
  containers_ready [[]] body = true ->
  exists T, run_section E body app = Ok T /\ run_section E body app' = Ok T.
Proof.
  intros Hi Hready.
  pose proof (constant_lines app app') as HF. rewrite Forall_forall in HF.
  destruct (proj2 (exec_ready E app body [[]] [] Hready containers_hold_root))
    as [T HT].
  { intros s Hs. apply (HF s). now apply Hi. }
  exists T. split; [exact HT|].
  unfold run_section in *. rewrite <- HT. symmetry.
  apply exec_agree. intros s Hs. apply (HF s). now apply Hi.
Qed.

(** X6. [data_qualities] and [data_statuses] read nothing of the store:
    they always return, and they return the same tree whatever the store
    holds, so no PATCH changes what GET /config/qualities and GET
    /config/statuses reply. *)
Theorem qualities_and_statuses_constant (app app' : App) :
  (exists T, data_qualities E app = Ok T /\ data_qualities E app' = Ok T) /\
  (exists T, data_statuses E app = Ok T /\ data_statuses E app' = Ok T).
Proof.
  split; apply constant_section.
  - apply incl_appl, incl_refl.
  - vm_compute; reflexivity.
  - apply incl_appr, incl_refl.
  - vm_compute; reflexivity.
Qed.

(** X7. The reply to a GET is a function of the attributes the producers
    name: two stores that hold the same under every name of
    [attributes_read] get the same reply, for every section and path
    segment, errors included. *)
Theorem get_reads_listed_attributes (app app' : App)
    (identifier path_param : option string) :
  agree (attributes_read E) app app' ->
  http_get E identifier path_param app = http_get E identifier path_param app'.
Proof. apply http_get_agree. Qed.

(** X8. Four attributes the patch table writes are served by no GET:
    whatever is stored in [TORRENT_PASSWORD], [NZBGET_PASSWORD],
    [SAB_APIKEY] or [SAB_PASSWORD], every reply to a GET is the same; and
    every other attribute the table writes is read by some producer. *)
Theorem stored_secrets_never_served (a : string) (v : value) (app : App)
    (identifier path_param : option string) :
  (In a unserved_secrets ->
   http_get E identifier path_param (setattr app a v)
     = http_get E identifier path_param app) /\
  forallb (fun e => mem_string (attribute (snd e)) (attributes_read E)
                    || mem_string (attribute (snd e)) unserved_secrets)
          (patches E) = true.
Proof.
  split; [|vm_compute; reflexivity].
  intros Ha. apply http_get_agree. apply agree_setattr.
  simpl in Ha.
  destruct Ha as [<-|[<-|[<-|[<-|[]]]]]; vm_compute; reflexivity.
Qed.

End ReadSideTheorems.

(** X4 at the search section of the example store. *)
Lemma producers_fail_only_in_right_hand_sides_witness :
  section_body demo_env "search" = Some data_search_body /\
  (forall e, get_data demo_env "search" demo_app = Raise e ->
     exists s, In s data_search_body /\
               eval_rhs demo_env demo_app (item_rhs s) = Raise e) /\
  ((forall s, In s data_search_body ->
      exists x, eval_rhs demo_env demo_app (item_rhs s) = Ok x) ->
   exists T, get_data demo_env "search" demo_app = Ok T).
Proof.
  split; [reflexivity|].
  exact (producers_fail_only_in_right_hand_sides demo_env "search"
           data_search_body demo_app eq_refl).
Defined.

(** X7 at the example store and the same store with another password. *)
Lemma get_reads_listed_attributes_witness :
  let app' := setattr demo_app "TORRENT_PASSWORD" (VStr "s3cret") in
  agree (attributes_read demo_env) app' demo_app /\
  http_get demo_env None None app' = http_get demo_env None None demo_app.
Proof.
  assert (H : agree (attributes_read demo_env)
                (setattr demo_app "TORRENT_PASSWORD" (VStr "s3cret")) demo_app)
    by (apply agree_setattr; vm_compute; reflexivity).
  split; [exact H|].
  exact (get_reads_listed_attributes demo_env _ _ None None H).
Defined.

(** X8 at the API key of SABnzbd. *)
Lemma stored_secrets_never_served_witness :
  In "SAB_APIKEY" unserved_secrets /\
  http_get demo_env (Some "main") None
    (setattr demo_app "SAB_APIKEY" (VStr "k3y"))
    = http_get demo_env (Some "main") None demo_app.
Proof.
  assert (H : In "SAB_APIKEY" unserved_secrets) by (simpl; tauto).
  split; [exact H|].
  exact (proj1 (stored_secrets_never_served demo_env "SAB_APIKEY" (VStr "k3y")
                  demo_app (Some "main") None) H).
Defined.

(** ** More of [http_patch] *)

Section PatchTheorems.

Variable E : Env.

Lemma http_get_main (app : App) :
  http_get E (Some "main") None app =
  rbind (get_data E "main" app) (fun cfg => Ok (_ok (VDict cfg))).
Proof. reflexivity. Qed.

(** X9. What a successful PATCH broadcasts is what a GET /config/main
    issued right after it replies: the last thing the request leaves is
    the [configUpdated] message for section [main], and its [config] is the
    body of that GET on the store the request leaves. *)
Theorem broadcast_is_get_main (raw : string) (w w' : world) (r : reply) :
  http_patch E (Some "main") raw w = (Ok r, w') ->
  exists cfg trace,
    w_trace w' = (trace ++ [WsPush "main" (VDict cfg)])%list /\
    http_get E (Some "main") None (w_app w')
      = Ok {| status := 200; body := Data (VDict cfg) |}.
Proof.
  rewrite http_patch_main.
  destruct (json_decode E raw) as [v|]; [|discriminate].
  destruct v; try discriminate.
  destruct (dispatch E d w) as [[[accepted ignored]|] w1]; [|discriminate].
  destruct (save_config E (w_app w1)); [|discriminate].
  destruct (get_data E "main" (w_app w1)) as [cfg|] eqn:Hcfg; [|discriminate].
  destruct (push E "main" (VDict cfg)); [|discriminate].
  intros [= <- <-]. exists cfg. eexists. split; [reflexivity|].
  rewrite http_get_main. cbn [w_app]. now rewrite Hcfg.
Qed.

(** X10. A broadcast that fails, or a [data_main] that fails while the
    message is built, fails the request after the fact: the request raises
    that exception and replies nothing, but the store holds every accepted
    write and the configuration has been saved once. *)
Theorem broadcast_failure_after_save (raw : string) (data accepted ignored : dict)
    (w w1 : world) (e : exc) :
  json_decode E raw = Ok (VDict data) ->
  dispatch E data w = (Ok (accepted, ignored), w1) ->
  save_config E (w_app w1) = Ok tt ->
  (get_data E "main" (w_app w1) = Raise e \/
   exists cfg, get_data E "main" (w_app w1) = Ok cfg /\
               push E "main" (VDict cfg) = Raise e) ->
  exists w',
    http_patch E (Some "main") raw w = (Raise e, w') /\
    w_app w' = w_app w1 /\
    saves (w_trace w') = S (saves (w_trace w)) /\
    In (SaveConfig (w_app w1)) (w_trace w').
Proof.
  intros Hdec Hrun Hsave Hfail.
  pose proof (dispatch_trace E data w) as Htr. rewrite Hrun in Htr.
  cbn [snd] in Htr.
  rewrite http_patch_main, Hdec, Hrun, Hsave.
  destruct Hfail as [Hg|[cfg [Hg Hp]]]; rewrite Hg; [|rewrite Hp];
    eexists; (split; [reflexivity|]); cbn [w_app w_trace];
    (split; [reflexivity|]).
  - split.
    + rewrite saves_app, saves_warned, Htr. simpl. lia.
    + apply in_or_app. right. now left.
  - split.
    + rewrite !saves_app, saves_warned, Htr. simpl. lia.
    + apply in_or_app. left. apply in_or_app. right. now left.
Qed.

(** X11. A truthy [metadata] entry that is no mapping ends the request at
    [data['metadata'].pop]: a list raises [TypeError], anything else
    [AttributeError], and the request has then written, saved and
    broadcast nothing, whatever else the body holds. *)
Theorem metadata_not_a_mapping_raises (raw : string) (data : dict) (m : value)
    (w : world) :
  json_decode E raw = Ok (VDict data) ->
  dict_get data "metadata" = Some m ->
  truthy m = true ->
  is_dict m = false ->
  http_patch E (Some "main") raw w
    = (Raise (match m with VList _ => TypeError | _ => AttributeError end), w).
Proof.
  intros Hdec Hm Htr Hd.
  rewrite http_patch_main, Hdec.
  unfold dispatch, bind at 1, pop_metadata_providers. rewrite Hm, Htr.
  destruct m; try discriminate; reflexivity.
Qed.

Lemma patch_items_unregistered (items : list (string * value)) :
  forallb (fun kv => is_none (patches_get E (fst kv))) items = true ->
  forall accepted ignored w accepted' ignored' w',
    patch_items E items accepted ignored w = (Ok (accepted', ignored'), w') ->
    accepted' = accepted /\ w' = w.
Proof.
  induction items as [|[key v] items IH]; intros Hall a i w a' i' w' H.
  - simpl in H. unfold ret in H. injection H as <- _ <-. now split.
  - simpl in Hall. apply andb_true_iff in Hall as [Hkey Hall].
    simpl in H. unfold bind at 1 in H.
    unfold patch_item in H.
    destruct (patches_get E key); [discriminate|].
    unfold bind at 1, lift in H.
    destruct (set_nested_value i key v) as [i1|]; [|discriminate].
    unfold ret in H. cbn [fst snd] in H.
    apply (IH Hall _ _ _ _ _ _ H).
Qed.

(** X12. A body that names no registered path (and has no truthy
    [metadata] entry) changes nothing and is still answered, saved and
    broadcast: the reply is 200 with an empty tree, the store is as the
    request found it, every leaf of the body is in the ignored tree that
    is logged (if the body has a leaf), and the configuration is saved and
    broadcast once all the same. *)
Theorem unregistered_body_changes_nothing (raw : string) (data cfg : dict)
    (w : world) :
  json_decode E raw = Ok (VDict data) ->
  wf_value (VDict data) = true ->
  dot_free (VDict data) = true ->
  (forall m, dict_get data "metadata" = Some m -> truthy m = false) ->
  forallb (fun kv => is_none (patches_get E (fst kv))) (iter_nested_items data)
    = true ->
  save_config E (w_app w) = Ok tt ->
  get_data E "main" (w_app w) = Ok cfg ->
  push E "main" (VDict cfg) = Ok tt ->
  exists ignored,
    http_patch E (Some "main") raw w
      = (Ok {| status := 200; body := Data (VDict []) |},
         {| w_app := w_app w;
            w_trace := (warned ignored (w_trace w)
                        ++ [SaveConfig (w_app w)]
                        ++ [WsPush "main" (VDict cfg)])%list |}) /\
    (forall p x, In (p, x) (iter_nested_items ignored) <->
                 In (p, x) (iter_nested_items data)).
Proof.
  intros Hdec Hwf Hdf Hmeta Hall Hsave Hcfg Hpush.
  assert (Hpop : pop_metadata_providers data w = (Ok (data, None), w)).
  { unfold pop_metadata_providers.
    destruct (dict_get data "metadata") as [m|] eqn:Hm; [|reflexivity].
    now rewrite (Hmeta m eq_refl). }
  destruct (dispatch_plain E data w Hwf Hdf Hpop)
    as (accepted & ignored & w1 & Hrun & Hwa & Hwi & Hl & Hd).
  assert (Hsame : accepted = [] /\ w1 = w).
  { unfold dispatch, bind at 1 in Hrun. rewrite Hpop in Hrun.
    cbn [fst snd patch_metadata_providers] in Hrun.
    unfold bind at 1, ret at 1 in Hrun. cbn [fst snd] in Hrun.
    apply (patch_items_unregistered _ Hall _ _ _ _ _ _ Hrun). }
  destruct Hsame as [-> ->].
  exists ignored. split.
  - rewrite http_patch_main, Hdec, Hrun, Hsave, Hcfg, Hpush.
    cbn [w_app w_trace]. unfold _ok. now rewrite <- app_assoc.
  - destruct (partition_as_paths data [] ignored Hwf Hdf Hwa Hwi Hl Hd)
      as [Hp _].
    intros p x. rewrite Hp. simpl. tauto.
Qed.

End PatchTheorems.

(** ** More of the read side *)

Lemma dict_set_same (d : dict) (k : string) (v : value) :
  dict_get d k = Some v -> dict_set d k v = d.
Proof.
  induction d as [|[k' v'] r IH]; simpl; [discriminate|].
  destruct (String.eqb k' k) eqn:Hk.
  - now intros [= ->].
  - intros H. now rewrite IH.
Qed.

Lemma update_at_identity (cp : list string) :
  forall t f t',
    (forall d, f d = d) -> update_at t cp f = Ok t' -> t' = t.
Proof.
  induction cp as [|c cp IH]; intros t f t' Hf H.
  - simpl in H. injection H as <-. apply Hf.
  - apply update_at_cons in H as (sub & sub' & Hg & Hs & ->).
    rewrite (IH sub f sub' Hf Hs). now apply dict_set_same.
Qed.

Lemma filed_step (jsons : list (string * value)) :
  forall T0 k,
    dict_get (fold_left (fun d kj => dict_set d (fst kj) (snd kj)) jsons T0) k
    = match filed_under k jsons with
      | Some j => Some j
      | None => dict_get T0 k
      end.
Proof.
  unfold filed_under.
  induction jsons as [|x l IH] using rev_ind; intros T0 k; [reflexivity|].
  rewrite fold_left_app, rev_app_distr. simpl.
  destruct (String.eqb (fst x) k) eqn:Hk.
  - apply String.eqb_eq in Hk; subst k. simpl. apply dict_get_set_eq.
  - apply String.eqb_neq in Hk. rewrite dict_get_set_neq by assumption.
    apply IH.
Qed.

Section ReadSide2.

Variable E : Env.

Lemma add_providers_files (providers : dict) :
  forall jsons T0,
    Forall2 (has_json E) providers jsons ->
    add_providers E (map snd providers) [("metadataProviders", VDict T0)]
    = Ok [("metadataProviders",
           VDict (fold_left (fun d kj => dict_set d (fst kj) (snd kj)) jsons T0))].
Proof.
  induction providers as [|p providers IH]; intros jsons T0 H.
  - inversion H; subst. reflexivity.
  - inversion H as [|? kj ? jsons' (j & Hj & Hjson & Hid) Hrest]; subst.
    cbn [map add_providers]. rewrite Hjson. cbn [rbind getitem].
    rewrite Hid. cbn [rbind as_key text_of].
    cbn [update_at dict_get]. rewrite String.eqb_refl.
    cbn [update_at rbind dict_set]. rewrite String.eqb_refl.
    rewrite (IH jsons' _ Hrest). cbn [fold_left].
    unfold setitem, nonempty_setitem. rewrite Hj. reflexivity.
Qed.

Lemma add_providers_no_id (pre : dict) :
  forall jsons T0 p j post,
    Forall2 (has_json E) pre jsons ->
    provider_to_json E p = Ok (VDict j) ->
    dict_get j "id" = None ->
    add_providers E (map snd pre ++ p :: post)
      [("metadataProviders", VDict T0)] = Raise KeyError.
Proof.
  induction pre as [|q pre IH]; intros jsons T0 p j post H Hjson Hid.
  - cbn [map List.app add_providers]. rewrite Hjson. cbn [rbind getitem].
    now rewrite Hid.
  - inversion H as [|? kj ? jsons' (j' & Hj & Hjson' & Hid') Hrest]; subst.
    cbn [map List.app add_providers]. rewrite Hjson'. cbn [rbind getitem].
    rewrite Hid'. cbn [rbind as_key text_of].
    cbn [update_at dict_get]. rewrite String.eqb_refl.
    cbn [update_at rbind dict_set]. rewrite String.eqb_refl.
    apply (IH jsons' _ p j post Hrest Hjson Hid).
Qed.

Lemma data_metadata_unfold (app : App) :
  data_metadata E app =
  rbind (itervalues (app "metadata_provider_dict")) (fun providers =>
  add_providers E providers [("metadataProviders", VDict [])]).
Proof. reflexivity. Qed.

(** X13. [data_metadata] files the JSON form of every metadata provider
    under the key its [id] makes, in a tree whose only key is
    [metadataProviders] (the ids being texts); of two providers with one
    id, the later is the one filed.  A [metadata_provider_dict] that is no mapping raises
    [AttributeError], and a provider whose JSON form has no [id] raises
    [KeyError]. *)
Theorem data_metadata_by_id (app : App) :
  (forall providers jsons,
     app "metadata_provider_dict" = VDict providers ->
     Forall2 (has_json E) providers jsons ->
     exists T,
       data_metadata E app = Ok [("metadataProviders", VDict T)] /\
       forall k, dict_get T k = filed_under k jsons) /\
  (is_dict (app "metadata_provider_dict") = false ->
   data_metadata E app = Raise AttributeError) /\
  (forall pre jsons name p j post,
     app "metadata_provider_dict" = VDict (pre ++ (name, p) :: post) ->
     Forall2 (has_json E) pre jsons ->
     provider_to_json E p = Ok (VDict j) ->
     dict_get j "id" = None ->
     data_metadata E app = Raise KeyError).
Proof.
  rewrite data_metadata_unfold. split; [|split].
  - intros providers jsons Happ H. rewrite Happ. cbn [itervalues rbind].
    rewrite (add_providers_files providers jsons [] H).
    eexists. split; [reflexivity|].
    intros k. rewrite filed_step. now destruct (filed_under k jsons).
  - intros Hd. destruct (app "metadata_provider_dict"); try reflexivity.
    discriminate.
  - intros pre jsons name p j post Happ H Hjson Hid. rewrite Happ.
    cbn [itervalues rbind]. rewrite map_app. cbn [map snd].
    apply (add_providers_no_id pre jsons [] p j (map snd post) H Hjson Hid).
Qed.

(** X14. [sections] and [get_data] name the same producers: a name is a
    section exactly when [DataGenerator] has a static method [data_<name>],
    so the test of [http_get] lets through only names [get_data] can
    dispatch, and for any other name [get_data] raises [AttributeError]. *)
Theorem sections_are_the_producers (s : string) (app : App) :
  (In s (sections E) <->
   getattr_member ("data_" ++ s) (members E) <> None) /\
  (~ In s (sections E) -> get_data E s app = Raise AttributeError).
Proof.
  assert (Hiff : In s (sections E) <->
                 getattr_member ("data_" ++ s) (members E) <> None).
  { rewrite sections_names. split.
    - simpl. intros [<-|[<-|[<-|[<-|[<-|[<-|[]]]]]]]; discriminate.
    - intros H.
      destruct (getattr_member ("data_" ++ s) (members E)) as [f|] eqn:Hf;
        [clear H|congruence].
      apply getattr_member_In in Hf. unfold members in Hf. simpl in Hf.
      destruct Hf as [Hf|[Hf|[Hf|[Hf|[Hf|[Hf|[]]]]]]]; injection Hf as Hs _;
        subst s; simpl; tauto. }
  split; [exact Hiff|].
  intros Hn. unfold get_data.
  destruct (getattr_member ("data_" ++ s) (members E)) eqn:Hg; [|reflexivity].
  contradiction Hn. apply Hiff. discriminate.
Qed.

(** X15. What a producer fills through [bool()] or [int()] is never left
    out: whenever the section returns, such a place is in its tree, and
    holds the truth value of the attribute, or an integer. *)
Theorem coerced_places_always_present (section : string)
    (body : list assignment) (loc : list string) (ne : bool) (c : coercion)
    (a : string) (app : App) (T : dict) :
  section_body E section = Some body ->
  reads body loc = Some (ne, c, a) ->
  c <> Raw ->
  get_data E section app = Ok T ->
  exists x,
    get_path (VDict T) loc = Some x /\
    coerce E c (app a) = Ok x /\
    match c with
    | Bool_ => x = VBool (truthy (app a))
    | _ => exists z, x = VInt z
    end.
Proof.
  intros Hbody Hreads Hc Hget.
  rewrite (section_body_get_data E section body app Hbody) in Hget.
  destruct (reads_spec E body loc ne c a app T Hreads Hget) as [x [Hx Hloc]].
  assert (Hty : match c with
                | Bool_ => x = VBool (truthy (app a))
                | _ => exists z, x = VInt z
                end).
  { destruct c; [congruence| | |].
    - simpl in Hx. now injection Hx as <-.
    - simpl in Hx. eapply int_returns_int; eassumption.
    - unfold coerce in Hx.
      destruct (app a); [injection Hx as <-; eauto| | | | |];
        eapply int_returns_int; exact Hx. }
  exists x. split; [|split; assumption].
  apply Hloc.
  destruct c; [congruence| | |].
  - subst x. now rewrite andb_false_r.
  - destruct Hty as [z ->]. now rewrite andb_false_r.
  - destruct Hty as [z ->]. now rewrite andb_false_r.
Qed.

Lemma untouched_absent (app : App) (loc : list string) (body : list assignment) :
  forall t s post T,
    untouched_before loc body = true ->
    find_assignment loc body = Some (s, post) ->
    get_path (VDict t) loc = None ->
    exec E app body t = Ok T ->
    exists pre t0,
      body = (pre ++ s :: post)%list /\
      exec E app pre t = Ok t0 /\
      get_path (VDict t0) loc = None.
Proof.
  induction body as [|s0 body IH]; intros t s post T Hu Hf Hnone Hrun;
    [discriminate|].
  simpl in Hu, Hf.
  destruct (same_path (target s0) loc) eqn:Hs.
  - injection Hf as <- <-. exists [], t. now repeat split.
  - apply andb_true_iff in Hu as [Hstep Hu].
    simpl in Hrun.
    destruct (exec_assignment E app t s0) as [t1|] eqn:H1; simpl in Hrun;
      [|discriminate].
    assert (Hnone1 : get_path (VDict t1) loc = None).
    { unfold exec_assignment in H1.
      destruct (eval_rhs E app (item_rhs s0)) as [x|] eqn:Hx; simpl in H1;
        [|discriminate].
      apply orb_true_iff in Hstep as [Hinc|Habove].
      - apply negb_true_iff in Hinc.
        now rewrite (update_at_incomparable _ _ _ _ _ _ loc H1 Hinc).
      - apply andb_true_iff in Habove as [Hp Hnew].
        rewrite (is_new_value E app _ x Hnew Hx) in H1.
        pose proof (update_at_target _ _ _ _ _ _ H1
                      (andb_false_r (in_nonempty s0))) as Ht.
        fold (target s0) in Ht.
        apply is_prefix_app in Hp as [r Hr]. subst loc.
        rewrite get_path_app, Ht. apply get_path_empty.
        intros ->. rewrite app_nil_r in Hs.
        unfold same_path in Hs. now rewrite is_prefix_refl in Hs. }
    destruct (IH t1 s post T Hu Hf Hnone1 Hrun) as (pre & t0 & -> & Hpre & H0).
    exists (s0 :: pre), t0. split; [reflexivity|]. split; [|assumption].
    simpl. now rewrite H1.
Qed.

(** A place filled as it is in a [NonEmptyDict] holds the attribute, or
    is missing when the attribute is [None] or the empty text. *)
Lemma raw_place_spec (body : list assignment) (loc : list string) (a : string)
    (app : App) (T : dict) :
  raw_place body loc = Some a ->
  run_section E body app = Ok T ->
  get_path (VDict T) loc
  = if is_empty_value (app a) then None else Some (app a).
Proof.
  unfold raw_place.
  destruct (reads body loc) as [[[ne c] a']|] eqn:Hreads; [|discriminate].
  destruct ne; [|discriminate]. destruct c; try discriminate.
  destruct (untouched_before loc body) eqn:Hu; [|discriminate].
  intros [= ->] Hrun.
  destruct (is_empty_value (app a)) eqn:Hempty.
  - pose proof Hreads as Hr. unfold reads in Hr.
    destruct (find_assignment loc body) as [[s post]|] eqn:Hf; [|discriminate].
    destruct (forallb _ post) eqn:Hpost; [|discriminate].
    destruct (item_rhs s) as [| |c' a''|] eqn:Hrhs; try discriminate.
    injection Hr as _ -> ->.
    pose proof (find_assignment_split loc body s post Hf) as [pre0 [_ Htarget]].
    assert (Hloc : loc <> []).
    { rewrite <- Htarget. unfold target. now destruct (container s). }
    destruct (untouched_absent app loc body [] s post T Hu Hf
                (get_path_empty loc Hloc) Hrun)
      as (pre & t0 & -> & Hpre & H0).
    unfold run_section in Hrun. rewrite exec_app, Hpre in Hrun.
    cbn [rbind exec] in Hrun.
    destruct (exec_assignment E app t0 s) as [t1|] eqn:H1; simpl in Hrun;
      [|discriminate].
    rewrite (exec_keeps E app loc post _ _ Hrun Hpost).
    unfold exec_assignment in H1. rewrite Hrhs in H1. simpl in H1.
    apply update_at_identity in H1; [now subst t1|].
    intros d. unfold setitem, nonempty_setitem.
    destruct (in_nonempty s) eqn:Hin; [now rewrite Hempty|].
    unfold reads in Hreads. rewrite Hf, Hpost, Hrhs in Hreads.
    rewrite Hin in Hreads. discriminate.
  - destruct (reads_spec E body loc true Raw a app T Hreads Hrun)
      as [x [Hx Hl]].
    simpl in Hx. injection Hx as <-. apply Hl. exact Hempty.
Qed.

(** X16. A key of a section tree that is filled with an attribute as it
    is exists only while the attribute is not empty: when the attribute
    holds [None] or the empty text, GET /config/<section>/<key> replies
    400, the key is an invalid path, and otherwise it replies 200 with the
    attribute. *)
Theorem empty_attribute_is_invalid_path (section k a : string)
    (body : list assignment) (app : App) (T : dict) :
  section_body E section = Some body ->
  raw_place body [k] = Some a ->
  k <> "" ->
  get_data E section app = Ok T ->
  http_get E (Some section) (Some k) app
  = if is_empty_value (app a)
    then Ok {| status := 400; body := Error (k ++ " is a invalid path") |}
    else Ok {| status := 200; body := Data (app a) |}.
Proof.
  intros Hbody Hraw Hk Hget.
  pose proof Hget as Hrun.
  rewrite (section_body_get_data E section body app Hbody) in Hrun.
  pose proof (raw_place_spec body [k] a app T Hraw Hrun) as Hloc.
  assert (Hsec : given (Some section) = true /\
                 mem_string section (sections E) = true).
  { unfold section_body in Hbody. rewrite sections_names.
    destruct (String.eqb section "main") eqn:H1;
      [apply String.eqb_eq in H1; subst; now split|].
    destruct (String.eqb section "qualities") eqn:H2;
      [apply String.eqb_eq in H2; subst; now split|].
    destruct (String.eqb section "statuses") eqn:H3;
      [apply String.eqb_eq in H3; subst; now split|].
    destruct (String.eqb section "search") eqn:H4;
      [apply String.eqb_eq in H4; subst; now split|].
    destruct (String.eqb section "notifiers") eqn:H5;
      [apply String.eqb_eq in H5; subst; now split|].
    discriminate. }
  destruct Hsec as [Hgiven Hmem].
  unfold http_get. cbn [text]. rewrite Hgiven, Hmem. cbn [andb negb].
  rewrite Hget. cbn [rbind].
  assert (Hgk : given (Some k) = true).
  { simpl. apply negb_true_iff. now apply String.eqb_neq. }
  rewrite Hgk.
  simpl in Hloc.
  unfold _ok, _bad_request.
  destruct (dict_get T k) as [x|];
    destruct (is_empty_value (app a)); congruence.
Qed.

End ReadSide2.

(** ** What a request writes *)

Section WriteSide.

Variable E : Env.

Lemma table_frame : forallb frame_check (patches E) = true.
Proof. vm_compute. reflexivity. Qed.

Lemma patch_frame (f : Field) (app : App) (v : value) (a : string) :
  setter f = None ->
  attribute f <> a ->
  (forall x app0, run_post_processor f x app0 a = app0 a) ->
  snd (patch E f app v) a = app a.
Proof.
  intros Hset Hattr Hpost. unfold patch.
  destruct (run_validator f app v) as [[|]|]; try reflexivity.
  destruct (stored_value E f v) as [stored|]; [|reflexivity].
  unfold apply_value. rewrite Hset. cbn [snd].
  rewrite Hpost. unfold setattr.
  destruct (String.eqb a (attribute f)) eqn:Ha; [|reflexivity].
  apply String.eqb_eq in Ha. congruence.
Qed.

(** One turn of the loop assigns nothing but what the leaf may write. *)
Lemma verdict_frame (key : string) (v : value) (app : App) (a : string) :
  key <> "theme.name" ->
  ~ In a (leaf_writes E key) ->
  snd (verdict E key v app) a = app a.
Proof.
  intros Htheme Ha. unfold verdict. unfold leaf_writes in Ha.
  destruct (patches_get E key) as [f|] eqn:Hreg; [|reflexivity].
  pose proof (patches_get_In E key f Hreg) as Hin.
  pose proof table_frame as Ht. rewrite forallb_forall in Ht.
  specialize (Ht _ Hin). unfold frame_check in Ht. cbn [fst snd] in Ht.
  apply andb_true_iff in Ht as [Hs Hp].
  apply patch_frame.
  - apply orb_true_iff in Hs as [Hs|Hs].
    + now destruct (setter f).
    + apply String.eqb_eq in Hs. contradiction.
  - intros Heq. apply Ha. now left.
  - intros x app0. unfold run_post_processor.
    destruct (post_processor f) as [p|] eqn:Hpp; [|reflexivity].
    simpl in Hp. apply String.eqb_eq in Hp; subst key.
    rewrite (layout_schedule_entry E) in Hreg. injection Hreg as <-.
    simpl in Hpp. injection Hpp as <-.
    unfold layout_schedule_post_processor.
    destruct (py_eq x (VStr "calendar")); [|reflexivity].
    unfold setattr.
    destruct (String.eqb a "COMING_EPS_SORT") eqn:Hc; [|reflexivity].
    apply String.eqb_eq in Hc; subst a.
    contradiction Ha. right. now left.
Qed.

Lemma patch_items_frame (a : string) (items : list (string * value)) :
  (forall kv, In kv items ->
     fst kv <> "theme.name" /\ ~ In a (leaf_writes E (fst kv))) ->
  forall accepted ignored w,
    w_app (snd (patch_items E items accepted ignored w)) a = w_app w a.
Proof.
  induction items as [|[key v] items IH]; intros Hall accepted ignored w;
    [reflexivity|].
  destruct (Hall (key, v) (or_introl eq_refl)) as [Htheme Ha].
  cbn [fst] in Htheme, Ha.
  cbn [patch_items]. unfold bind at 1. rewrite patch_item_unfold. cbv zeta.
  pose proof (verdict_frame key v (w_app w) a Htheme Ha) as Hv.
  assert (Hrest : forall kv, In kv items ->
            fst kv <> "theme.name" /\ ~ In a (leaf_writes E (fst kv)))
    by (intros kv Hkv; apply Hall; now right).
  destruct (fst (verdict E key v (w_app w))).
  - destruct (set_nested_value accepted key v); cbn [fst snd].
    + rewrite (IH Hrest). exact Hv.
    + exact Hv.
  - destruct (set_nested_value ignored key v); cbn [fst snd].
    + rewrite (IH Hrest). exact Hv.
    + exact Hv.
Qed.

(** X17. A request assigns no attribute but those its leaves name.
    When the body has no truthy [metadata] entry and no [theme.name] leaf
    (the two writes that are handed to other modules), every attribute of
    the store is, after the request and however it ends, what it was
    before, unless it is the attribute of the Field registered for a leaf
    of the body, or [COMING_EPS_SORT] and the body has a [layout.schedule]
    leaf.  ([Field.patch] is taken by its contract: it assigns the
    attribute of the Field unless there is a setter.) *)
Theorem request_writes_only_named_attributes (raw : string) (data : dict)
    (w : world) (a : string) :
  json_decode E raw = Ok (VDict data) ->
  (forall m, dict_get data "metadata" = Some m -> truthy m = false) ->
  ~ In "theme.name" (map fst (iter_nested_items data)) ->
  ~ In a (flat_map (leaf_writes E) (map fst (iter_nested_items data))) ->
  w_app (snd (http_patch E (Some "main") raw w)) a = w_app w a.
Proof.
  intros Hdec Hmeta Htheme Ha.
  rewrite (http_patch_store E raw data w Hdec).
  assert (Hpop : pop_metadata_providers data w = (Ok (data, None), w)).
  { unfold pop_metadata_providers.
    destruct (dict_get data "metadata") as [m|] eqn:Hm; [|reflexivity].
    now rewrite (Hmeta m eq_refl). }
  unfold dispatch, bind at 1. rewrite Hpop.
  cbn [fst snd patch_metadata_providers].
  unfold bind at 1, ret at 1. cbn [fst snd].
  apply patch_items_frame.
  intros [key v] Hkv. cbn [fst]. split.
  - intros ->. apply Htheme. apply in_map_iff. now exists ("theme.name", v).
  - intros Hin. apply Ha. apply in_flat_map. exists key. split; [|assumption].
    apply in_map_iff. now exists (key, v).
Qed.

Lemma comingEpsSort_place :
  raw_place (data_main_body E) ["comingEpsSort"] = Some "COMING_EPS_SORT".
Proof. vm_compute. reflexivity. Qed.

Lemma layout_schedule_place :
  raw_place (data_main_body E) ["layout"; "schedule"] = Some "COMING_EPS_LAYOUT".
Proof. vm_compute. reflexivity. Qed.

(** X18. The calendar layout sorts by date.  A request that writes just
    [layout.schedule] leaves [COMING_EPS_SORT] alone unless the value is
    ['calendar']; with ['calendar'] it stores the layout and sets
    [COMING_EPS_SORT] to ['date'], and a GET /config/main that returns
    after it reads ['calendar'] under [layout.schedule] and ['date'] under
    [comingEpsSort]. *)
Theorem calendar_layout_sorts_by_date (v : value) (raw : string) (w : world) :
  is_dict v = false ->
  json_decode E raw = Ok (nest ["layout"; "schedule"] v) ->
  let app' := w_app (snd (http_patch E (Some "main") raw w)) in
  (py_eq v (VStr "calendar") = false ->
   app' "COMING_EPS_SORT" = w_app w "COMING_EPS_SORT") /\
  (v = VStr "calendar" ->
   app' "COMING_EPS_LAYOUT" = VStr "calendar" /\
   app' "COMING_EPS_SORT" = VStr "date" /\
   forall T, data_main E app' = Ok T ->
     get_path (VDict T) ["layout"; "schedule"] = Some (VStr "calendar") /\
     get_path (VDict T) ["comingEpsSort"] = Some (VStr "date")).
Proof.
  intros Hv Hdec app'.
  assert (Happ : app' = snd (patch E
            (post_processor_ (layout_schedule_post_processor)
               (default_value_ (VStr "banner")
                  (EnumField "COMING_EPS_LAYOUT"
                     [VStr "poster"; VStr "banner"; VStr "list"; VStr "calendar"])))
            (w_app w) v)).
  { apply (single_leaf_store E "layout.schedule" _ v raw w
             (layout_schedule_entry E) Hv Hdec). }
  split.
  - intros Hcal. rewrite Happ.
    unfold patch, run_validator, stored_value, default_conversion, apply_value,
      run_post_processor.
    cbn [validator converter kind setter post_processor default_value attribute
         post_processor_ default_value_ EnumField plain_field].
    destruct (py_in v [VStr "poster"; VStr "banner"; VStr "list"; VStr "calendar"]).
    + cbn [snd]. unfold layout_schedule_post_processor. rewrite Hcal. reflexivity.
    + reflexivity.
  - intros ->.
    assert (H1 : app' "COMING_EPS_LAYOUT" = VStr "calendar")
      by (rewrite Happ; reflexivity).
    assert (H2 : app' "COMING_EPS_SORT" = VStr "date")
      by (rewrite Happ; reflexivity).
    split; [exact H1|]. split; [exact H2|].
    intros T HT. split.
    + rewrite (raw_place_spec E _ _ _ app' T layout_schedule_place HT).
      now rewrite H1.
    + rewrite (raw_place_spec E _ _ _ app' T comingEpsSort_place HT).
      now rewrite H2.
Qed.

End WriteSide.

(** * The further properties at concrete requests *)

(** X5 at the example store, whose frequencies are all integers. *)
Lemma search_and_notifiers_return_witness :
  (forall a, In a (int_attributes data_search_body) ->
     exists z, int_ demo_env (demo_app a) = Ok (VInt z)) /\
  exists T, data_search demo_env demo_app = Ok T.
Proof.
  assert (H : forall a, In a (int_attributes data_search_body) ->
                exists z, int_ demo_env (demo_app a) = Ok (VInt z)).
  { intros a Ha. simpl in Ha.
    repeat (destruct Ha as [<-|Ha]; [eexists; reflexivity|]). destruct Ha. }
  split; [exact H|].
  exact (proj2 (proj1 (search_and_notifiers_return demo_env demo_app)) H).
Defined.

(** X9 at a request that switches to the calendar layout. *)
Lemma broadcast_is_get_main_witness :
  let raw := "{layout: {schedule: calendar}}" in
  let out := http_patch cover_env (Some "main") raw demo_world in
  let r := {| status := 200;
              body := Data (VDict [("layout", VDict [("schedule", VStr "calendar")])]) |} in
  out = (Ok r, snd out) /\
  exists cfg trace,
    w_trace (snd out) = (trace ++ [WsPush "main" (VDict cfg)])%list /\
    http_get cover_env (Some "main") None (w_app (snd out))
      = Ok {| status := 200; body := Data (VDict cfg) |}.
Proof.
  split; [reflexivity|].
  exact (broadcast_is_get_main cover_env "{layout: {schedule: calendar}}"
           demo_world
           (snd (http_patch cover_env (Some "main")
                   "{layout: {schedule: calendar}}" demo_world))
           {| status := 200;
              body := Data (VDict [("layout",
                                    VDict [("schedule", VStr "calendar")])]) |}
           eq_refl).
Defined.

(** X10 at the same request when the broadcast fails. *)
Lemma broadcast_failure_after_save_witness :
  let raw := "{layout: {schedule: calendar}}" in
  let data := [("layout", VDict [("schedule", VStr "calendar")])] in
  let w1 := snd (dispatch offline_env data demo_world) in
  json_decode offline_env raw = Ok (VDict data) /\
  dispatch offline_env data demo_world = (Ok (data, []), w1) /\
  save_config offline_env (w_app w1) = Ok tt /\
  (get_data offline_env "main" (w_app w1) = Raise OtherError \/
   exists cfg, get_data offline_env "main" (w_app w1) = Ok cfg /\
               push offline_env "main" (VDict cfg) = Raise OtherError) /\
  exists w',
    http_patch offline_env (Some "main") raw demo_world = (Raise OtherError, w') /\
    w_app w' = w_app w1 /\
    saves (w_trace w') = S (saves (w_trace demo_world)) /\
    In (SaveConfig (w_app w1)) (w_trace w').
Proof.
  assert (H : get_data offline_env "main"
                (w_app (snd (dispatch offline_env
                               [("layout", VDict [("schedule", VStr "calendar")])]
                               demo_world))) = Raise OtherError \/
              exists cfg,
                get_data offline_env "main"
                  (w_app (snd (dispatch offline_env
                                 [("layout", VDict [("schedule", VStr "calendar")])]
                                 demo_world))) = Ok cfg /\
                push offline_env "main" (VDict cfg) = Raise OtherError).
  { right. eexists. split; [vm_compute; reflexivity|reflexivity]. }
  split; [reflexivity|]. split; [reflexivity|]. split; [reflexivity|].
  split; [exact H|].
  exact (broadcast_failure_after_save offline_env
           "{layout: {schedule: calendar}}"
           [("layout", VDict [("schedule", VStr "calendar")])]
           [("layout", VDict [("schedule", VStr "calendar")])] []
           demo_world
           (snd (dispatch offline_env
                   [("layout", VDict [("schedule", VStr "calendar")])] demo_world))
           OtherError eq_refl eq_refl eq_refl H).
Defined.

(** X11 at a body whose [metadata] is a list. *)
Lemma metadata_not_a_mapping_raises_witness :
  let raw := "{metadata: [1], torrents: {enabled: true}}" in
  let data := [("metadata", VList [VInt 1]);
               ("torrents", VDict [("enabled", VBool true)])] in
  json_decode cover_env raw = Ok (VDict data) /\
  dict_get data "metadata" = Some (VList [VInt 1]) /\
  http_patch cover_env (Some "main") raw demo_world = (Raise TypeError, demo_world).
Proof.
  split; [reflexivity|]. split; [reflexivity|].
  exact (metadata_not_a_mapping_raises cover_env
           "{metadata: [1], torrents: {enabled: true}}"
           [("metadata", VList [VInt 1]);
            ("torrents", VDict [("enabled", VBool true)])]
           (VList [VInt 1]) demo_world eq_refl eq_refl eq_refl eq_refl).
Defined.

(** The main section of the example store. *)
Lemma demo_main :
  get_data cover_env "main" demo_app
  = Ok (match get_data cover_env "main" demo_app with
        | Ok cfg => cfg
        | Raise _ => []
        end).
Proof. vm_compute. reflexivity. Qed.

(** X12 at a body with two leaves that no path of the table names. *)
Lemma unregistered_body_changes_nothing_witness :
  let raw := "{bogus: 1, torrents: {bogusField: 5}}" in
  let data := [("bogus", VInt 1); ("torrents", VDict [("bogusField", VInt 5)])] in
  let cfg := match get_data cover_env "main" demo_app with
             | Ok cfg => cfg
             | Raise _ => []
             end in
  json_decode cover_env raw = Ok (VDict data) /\
  iter_nested_items data = [("bogus", VInt 1); ("torrents.bogusField", VInt 5)] /\
  exists ignored,
    http_patch cover_env (Some "main") raw demo_world
      = (Ok {| status := 200; body := Data (VDict []) |},
         {| w_app := demo_app;
            w_trace := (warned ignored []
                        ++ [SaveConfig demo_app]
                        ++ [WsPush "main" (VDict cfg)])%list |}) /\
    (forall p x, In (p, x) (iter_nested_items ignored) <->
                 In (p, x) (iter_nested_items data)).
Proof.
  split; [reflexivity|]. split; [reflexivity|].
  refine (unregistered_body_changes_nothing cover_env
            "{bogus: 1, torrents: {bogusField: 5}}"
            [("bogus", VInt 1); ("torrents", VDict [("bogusField", VInt 5)])]
            _ demo_world eq_refl eq_refl eq_refl _ eq_refl eq_refl demo_main eq_refl).
  intros m Hm. discriminate Hm.
Defined.

(** X13 at the example store, which has one provider. *)
Lemma data_metadata_by_id_witness :
  let kodi := VDict [("id", VStr "kodi"); ("showMetadata", VBool true)] in
  demo_app "metadata_provider_dict" = VDict [("kodi", kodi)] /\
  Forall2 (has_json demo_env) [("kodi", kodi)] [("kodi", kodi)] /\
  exists T,
    data_metadata demo_env demo_app = Ok [("metadataProviders", VDict T)] /\
    forall k, dict_get T k = filed_under k [("kodi", kodi)].
Proof.
  assert (H : Forall2 (has_json demo_env)
                [("kodi", VDict [("id", VStr "kodi"); ("showMetadata", VBool true)])]
                [("kodi", VDict [("id", VStr "kodi"); ("showMetadata", VBool true)])]).
  { constructor; [|constructor].
    exists [("id", VStr "kodi"); ("showMetadata", VBool true)].
    repeat split. }
  split; [reflexivity|]. split; [exact H|].
  exact (proj1 (data_metadata_by_id demo_env demo_app) _ _ eq_refl H).
Defined.

(** X14 at a producer and at a name that is none. *)
Lemma sections_are_the_producers_witness :
  In "search" (sections demo_env) /\
  getattr_member "data_sections" (members demo_env) = None /\
  get_data demo_env "sections" demo_app = Raise AttributeError.
Proof.
  assert (H : ~ In "sections" (sections demo_env)).
  { rewrite sections_names. simpl. intuition discriminate. }
  split; [simpl; tauto|]. split; [reflexivity|].
  exact (proj2 (sections_are_the_producers demo_env "sections" demo_app) H).
Defined.

(** X15 at the backlog days of the search section. *)
Lemma coerced_places_always_present_witness :
  let T := match get_data demo_env "search" demo_app with
           | Ok T => T
           | Raise _ => []
           end in
  section_body demo_env "search" = Some data_search_body /\
  reads data_search_body ["general"; "backlogDays"]
    = Some (true, Int_, "BACKLOG_DAYS") /\
  get_data demo_env "search" demo_app = Ok T /\
  exists x,
    get_path (VDict T) ["general"; "backlogDays"] = Some x /\
    coerce demo_env Int_ (demo_app "BACKLOG_DAYS") = Ok x /\
    exists z, x = VInt z.
Proof.
  assert (Hget : get_data demo_env "search" demo_app
                 = Ok (match get_data demo_env "search" demo_app with
                       | Ok T => T
                       | Raise _ => []
                       end)) by (vm_compute; reflexivity).
  assert (Hc : Int_ <> Raw) by discriminate.
  split; [reflexivity|]. split; [reflexivity|]. split; [exact Hget|].
  exact (coerced_places_always_present demo_env "search" data_search_body
           ["general"; "backlogDays"] true Int_ "BACKLOG_DAYS" demo_app _
           eq_refl eq_refl Hc Hget).
Defined.

(** X16 at a store whose [ANON_REDIRECT] is the empty text. *)
Lemma empty_attribute_is_invalid_path_witness :
  let app := setattr demo_app "ANON_REDIRECT" (VStr "") in
  let T := match get_data demo_env "main" app with
           | Ok T => T
           | Raise _ => []
           end in
  raw_place (data_main_body demo_env) ["anonRedirect"] = Some "ANON_REDIRECT" /\
  get_data demo_env "main" app = Ok T /\
  http_get demo_env (Some "main") (Some "anonRedirect") app
    = Ok {| status := 400; body := Error "anonRedirect is a invalid path" |}.
Proof.
  assert (Hget : get_data demo_env "main"
                   (setattr demo_app "ANON_REDIRECT" (VStr ""))
                 = Ok (match get_data demo_env "main"
                               (setattr demo_app "ANON_REDIRECT" (VStr "")) with
                       | Ok T => T
                       | Raise _ => []
                       end)) by (vm_compute; reflexivity).
  assert (Hk : "anonRedirect" <> "") by discriminate.
  assert (Hraw : raw_place (data_main_body demo_env) ["anonRedirect"]
                 = Some "ANON_REDIRECT") by (vm_compute; reflexivity).
  split; [exact Hraw|]. split; [exact Hget|].
  exact (empty_attribute_is_invalid_path demo_env "main" "anonRedirect"
           "ANON_REDIRECT" (data_main_body demo_env)
           (setattr demo_app "ANON_REDIRECT" (VStr "")) _
           eq_refl Hraw Hk Hget).
Defined.

(** X17 at a request with a registered and an unregistered leaf, for an
    attribute neither of them names. *)
Lemma request_writes_only_named_attributes_witness :
  let raw := "{torrents: {enabled: true}, webInterface: {port: 8081}}" in
  let data := [("torrents", VDict [("enabled", VBool true)]);
               ("webInterface", VDict [("port", VInt 8081)])] in
  json_decode cover_env raw = Ok (VDict data) /\
  flat_map (leaf_writes cover_env) (map fst (iter_nested_items data))
    = ["USE_TORRENTS"] /\
  w_app (snd (http_patch cover_env (Some "main") raw demo_world)) "TORRENT_PASSWORD"
    = demo_app "TORRENT_PASSWORD".
Proof.
  split; [reflexivity|]. split; [reflexivity|].
  refine (request_writes_only_named_attributes cover_env
            "{torrents: {enabled: true}, webInterface: {port: 8081}}"
            [("torrents", VDict [("enabled", VBool true)]);
             ("webInterface", VDict [("port", VInt 8081)])]
            demo_world "TORRENT_PASSWORD" eq_refl _ _ _).
  - intros m Hm. discriminate Hm.
  - simpl. intros [H|[H|[]]]; discriminate H.
  - simpl. intros [H|[]]. discriminate H.
Defined.

(** X18 at a request that switches to the calendar layout. *)
Lemma calendar_layout_sorts_by_date_witness :
  let raw := "{layout: {schedule: calendar}}" in
  let app' := w_app (snd (http_patch cover_env (Some "main") raw demo_world)) in
  json_decode cover_env raw = Ok (nest ["layout"; "schedule"] (VStr "calendar")) /\
  demo_app "COMING_EPS_SORT" = VInt 0 /\
  app' "COMING_EPS_LAYOUT" = VStr "calendar" /\
  app' "COMING_EPS_SORT" = VStr "date" /\
  forall T, data_main cover_env app' = Ok T ->
    get_path (VDict T) ["layout"; "schedule"] = Some (VStr "calendar") /\
    get_path (VDict T) ["comingEpsSort"] = Some (VStr "date").
Proof.
  split; [reflexivity|]. split; [reflexivity|].
  exact (proj2 (calendar_layout_sorts_by_date cover_env (VStr "calendar")
                  "{layout: {schedule: calendar}}" demo_world eq_refl eq_refl)
           eq_refl).
Defined.

(** ** The loop, leaf by leaf *)

Section Loop.

Variable E : Env.

Lemma patch_items_app (l1 l2 : list (string * value)) :
  forall accepted ignored w,
    patch_items E (l1 ++ l2) accepted ignored w =
    match patch_items E l1 accepted ignored w with
    | (Ok r, w1) => patch_items E l2 (fst r) (snd r) w1
    | (Raise e, w1) => (Raise e, w1)
    end.
Proof.
  induction l1 as [|[key v] l1 IH]; intros accepted ignored w; [reflexivity|].
  cbn [List.app patch_items]. unfold bind.
  destruct (patch_item E key v accepted ignored w) as [[r|e] w1]; [|reflexivity].
  apply IH.
Qed.

(** The loop leaves alone what the two trees hold at a place no leaf
    comes near. *)
Lemma patch_items_keeps_path (P : list string)
    (kitems : list (list string * value)) :
  forall accepted ignored w accepted' ignored' w',
    Forall good_leaf kitems ->
    (forall e, In e kitems -> comparable (fst e) P = false) ->
    patch_items E (as_items kitems) accepted ignored w
      = (Ok (accepted', ignored'), w') ->
    get_path (VDict accepted') P = get_path (VDict accepted) P /\
    get_path (VDict ignored') P = get_path (VDict ignored) P.
Proof.
  induction kitems as [|[ks v] rest IH];
    intros accepted ignored w accepted' ignored' w' Hgood Hfree Hrun.
  - simpl in Hrun. unfold ret in Hrun. injection Hrun as <- <- _. now split.
  - inversion Hgood as [|? ? [Hsplit _] Hgood']; subst. simpl in Hsplit.
    assert (Hks : comparable ks P = false)
      by (apply (Hfree (ks, v)); now left).
    assert (Hrest : forall e, In e rest -> comparable (fst e) P = false)
      by (intros e He; apply Hfree; now right).
    cbn [as_items map fst snd patch_items] in Hrun.
    unfold bind at 1 in Hrun. rewrite patch_item_unfold in Hrun.
    cbv zeta in Hrun. unfold set_nested_value in Hrun. rewrite Hsplit in Hrun.
    destruct (fst (verdict E (join_dots ks) v (w_app w))).
    + destruct (set_path accepted ks v) as [a1|] eqn:Hset; [|discriminate].
      cbn [fst snd] in Hrun.
      destruct (IH _ _ _ _ _ _ Hgood' Hrest Hrun) as [Ha Hi].
      split; [|assumption].
      rewrite Ha. eapply set_path_get_incomparable; eassumption.
    + destruct (set_path ignored ks v) as [i1|] eqn:Hset; [|discriminate].
      cbn [fst snd] in Hrun.
      destruct (IH _ _ _ _ _ _ Hgood' Hrest Hrun) as [Ha Hi].
      split; [assumption|].
      rewrite Hi. eapply set_path_get_incomparable; eassumption.
Qed.

End Loop.

(** ** The metadata providers as a unit *)

Lemma is_prefix_app_cases (ks p r : list string) :
  is_prefix ks (p ++ r) = true ->
  is_prefix ks p = true \/ is_prefix p ks = true.
Proof.
  revert p. induction ks as [|k ks IH]; intros p H; [now left|].
  destruct p as [|q p]; [now right|].
  simpl in H. apply andb_true_iff in H as [Hk H].
  apply String.eqb_eq in Hk; subst q.
  simpl. rewrite String.eqb_refl. simpl. now apply IH.
Qed.

Section Providers.

Variable E : Env.

(** No leaf that stays in the body lies at, above or below
    [metadata.metadataProviders]. *)
Lemma rest_avoids_providers (data md : dict) (mp : value) (ks : list string)
    (x : value) :
  wf_value (VDict data) = true ->
  dict_get data "metadata" = Some (VDict md) ->
  dict_get md "metadataProviders" = Some mp ->
  leaf_at (dict_set data "metadata" (VDict (dict_remove md "metadataProviders")))
          ks x ->
  comparable ks providers_path = false.
Proof.
  intros Hwf Hmeta Hmp [Hg Hx].
  assert (Hpop : dict_pop md "metadataProviders"
                 = Some (mp, dict_remove md "metadataProviders"))
    by (unfold dict_pop; now rewrite Hmp).
  pose proof (pop_get_providers data md _ mp Hwf Hmeta Hpop) as Hnone.
  unfold comparable. apply orb_false_iff. split.
  - destruct (is_prefix ks providers_path) eqn:Hp; [exfalso|reflexivity].
    destruct ks as [|k1 ks]; [root_is_no_leaf Hg Hx|].
    simpl in Hp. apply andb_true_iff in Hp as [Hk1 Hp].
    apply String.eqb_eq in Hk1; subst k1.
    destruct ks as [|k2 ks].
    + simpl in Hg. rewrite dict_get_set_eq in Hg. injection Hg as <-.
      discriminate Hx.
    + simpl in Hp. apply andb_true_iff in Hp as [Hk2 Hp].
      apply String.eqb_eq in Hk2; subst k2.
      destruct ks; [|discriminate Hp].
      pose proof (Hnone []) as H0. rewrite app_nil_r in H0.
      unfold providers_path in H0. congruence.
  - destruct (is_prefix providers_path ks) eqn:Hp; [exfalso|reflexivity].
    apply is_prefix_app in Hp as [rs ->].
    rewrite (Hnone rs) in Hg. discriminate.
Qed.

(** The walk over what stays in the body, from result trees that hold at
    most the providers. *)
Lemma walk_rest (data md : dict) (mp : value) (a0 i0 : dict) (w0 : world)
    (S : list string -> value -> Prop) :
  wf_value (VDict data) = true -> dot_free (VDict data) = true ->
  dict_get data "metadata" = Some (VDict md) ->
  dict_get md "metadataProviders" = Some mp ->
  wf_value (VDict a0) = true -> wf_value (VDict i0) = true ->
  (forall qs x, leaf_at a0 qs x \/ leaf_at i0 qs x <-> S qs x) ->
  disjoint_leaves a0 i0 ->
  (forall qs x, S qs x -> is_prefix providers_path qs = true) ->
  let rest := dict_set data "metadata"
                (VDict (dict_remove md "metadataProviders")) in
  exists accepted ignored w',
    patch_items E (iter_nested_items rest) a0 i0 w0
      = (Ok (accepted, ignored), w') /\
    get_path (VDict accepted) providers_path = get_path (VDict a0) providers_path /\
    get_path (VDict ignored) providers_path = get_path (VDict i0) providers_path /\
    (forall qs x, is_prefix providers_path qs = false ->
       (leaf_at accepted qs x \/ leaf_at ignored qs x <-> leaf_at rest qs x)).
Proof.
  intros Hwf Hdf Hmeta Hmp Hwa Hwi HS Hdis Hunder rest.
  assert (Hpop : dict_pop md "metadataProviders"
                 = Some (mp, dict_remove md "metadataProviders"))
    by (unfold dict_pop; now rewrite Hmp).
  pose proof (pop_wf data md _ mp Hwf Hmeta Hpop) as Hwf'.
  pose proof (pop_leaves data md _ mp Hwf Hmeta Hpop) as Hleaves.
  fold rest in Hwf', Hleaves.
  assert (Hdf' : forall qs x, leaf_at rest qs x ->
                   forallb (fun k => negb (has_dot k)) qs = true).
  { intros qs x H. apply (dot_free_leaf data qs x Hdf). apply Hleaves. now left. }
  assert (Havoid : forall ks y, leaf_at rest ks y ->
                     comparable ks providers_path = false).
  { intros ks y H. exact (rest_avoids_providers data md mp ks y Hwf Hmeta Hmp H). }
  assert (Hfree : forall ks y qs x, leaf_at rest ks y -> S qs x ->
                    comparable ks qs = false).
  { intros ks y qs x Hks HSq.
    apply Hunder in HSq. apply is_prefix_app in HSq as [rs ->].
    pose proof (Havoid ks y Hks) as Hc.
    unfold comparable in *. apply orb_false_iff in Hc as [Hc1 Hc2].
    apply orb_false_iff. split.
    - destruct (is_prefix ks (providers_path ++ rs)) eqn:Hp; [|reflexivity].
      exfalso. apply is_prefix_app_cases in Hp as [Hp|Hp]; congruence.
    - destruct (is_prefix (providers_path ++ rs) ks) eqn:Hp; [|reflexivity].
      exfalso. apply is_prefix_app in Hp as [r ->].
      rewrite <- app_assoc in Hc2.
      assert (Ht : is_prefix providers_path (providers_path ++ rs ++ r) = true)
        by (apply is_prefix_app; eexists; reflexivity).
      rewrite Ht in Hc2. discriminate. }
  destruct (walk_partition E rest a0 i0 w0 S Hwf' Hdf' Hwa Hwi HS Hdis Hfree)
    as (a & i & w' & Hrun & _ & _ & _ & Hl & _).
  exists a, i, w'. split; [exact Hrun|].
  pose proof (iter_nested_keys_spec (VDict rest) Hwf') as Hspec.
  destruct (patch_items_keeps_path E providers_path
              (iter_nested_keys (VDict rest)) a0 i0 w0 a i w') as [Ha Hi].
  - apply Forall_forall. intros [ks y] He.
    apply Hspec in He as (Hne & Hg & Hy).
    unfold good_leaf. simpl. repeat split; auto.
    apply split_join; [assumption|]. apply (Hdf' ks y). now split.
  - intros [ks y] He. apply Hspec in He as (_ & Hg & Hy).
    apply (Havoid ks y). now split.
  - exact Hrun.
  - split; [exact Ha|]. split; [exact Hi|].
    intros qs x Hq. rewrite Hl. split; [|tauto].
    intros [HSq|H]; [|assumption].
    apply Hunder in HSq. congruence.
Qed.

Lemma providers_tree_wf (mp : value) :
  wf_value mp = true ->
  wf_value (VDict [("metadata", VDict [("metadataProviders", mp)])]) = true.
Proof. intros H. simpl. now rewrite H. Qed.

(** C3 (amended).  Take a body that is a JSON object with no repeated key
    and no dot in any key.  When its [metadata] entry is a mapping with a
    [metadataProviders] entry, that entry is taken out before the leaves
    are flattened, and the request gets through the loop.  A truthy entry
    is handed once, whole, to the structured-field handler, on the store
    as the request found it and before any leaf is dispatched; the result
    trees then hold it as a unit: the accepted tree has the whole entry
    under [metadata.metadataProviders] and the ignored tree has nothing
    there when the handler accepts, and the other way round when it
    rejects.  An empty or otherwise falsy entry is in neither tree and the
    handler is not called.  In both cases the leaves outside
    [metadata.metadataProviders] that end up in the two trees are those of
    the rest of the body, each dispatched on its own.  A body with no
    [metadata] entry, or a falsy one, has every leaf dispatched on its
    own. *)
Theorem metadata_providers_unit (data : dict) (w : world) :
  wf_value (VDict data) = true ->
  dot_free (VDict data) = true ->
  (forall md mp,
     dict_get data "metadata" = Some (VDict md) ->
     dict_get md "metadataProviders" = Some mp ->
     let rest := dict_set data "metadata"
                   (VDict (dict_remove md "metadataProviders")) in
     let tree := [("metadata", VDict [("metadataProviders", mp)])] in
     let ok := fst (metadata_structure_patch E (w_app w) mp) in
     let app1 := snd (metadata_structure_patch E (w_app w) mp) in
     exists accepted ignored w',
       dispatch E data w = (Ok (accepted, ignored), w') /\
       (get_path (VDict accepted) providers_path,
        get_path (VDict ignored) providers_path)
       = (if truthy mp
          then if ok then (Some mp, None) else (None, Some mp)
          else (None, None)) /\
       dispatch E data w
       = (if truthy mp
          then patch_items E (iter_nested_items rest)
                 (if ok then tree else []) (if ok then [] else tree)
                 {| w_app := app1; w_trace := w_trace w |}
          else patch_items E (iter_nested_items rest) [] [] w) /\
       (forall qs x, is_prefix providers_path qs = false ->
          (leaf_at accepted qs x \/ leaf_at ignored qs x <-> leaf_at rest qs x))) /\
  ((forall m, dict_get data "metadata" = Some m -> truthy m = false) ->
   exists accepted ignored w',
     dispatch E data w = (Ok (accepted, ignored), w') /\
     dispatch E data w = patch_items E (iter_nested_items data) [] [] w /\
     (forall qs x, leaf_at accepted qs x \/ leaf_at ignored qs x <->
                   leaf_at data qs x)).
Proof.
  intros Hwf Hdf. split.
  - intros md mp Hmeta Hmp rest tree ok app1.
    assert (Hmd : truthy (VDict md) = true) by (destruct md; [discriminate|reflexivity]).
    assert (Hpop : dict_pop md "metadataProviders"
                   = Some (mp, dict_remove md "metadataProviders"))
      by (unfold dict_pop; now rewrite Hmp).
    destruct (pop_facts data md _ mp Hwf Hmeta Hpop) as (_ & _ & _ & Hwmp).
    assert (Hdisp : dispatch E data w
              = (if truthy mp
                 then patch_items E (iter_nested_items rest)
                        (if ok then tree else []) (if ok then [] else tree)
                        {| w_app := app1; w_trace := w_trace w |}
                 else patch_items E (iter_nested_items rest) [] [] w)).
    { unfold dispatch, bind at 1, pop_metadata_providers.
      rewrite Hmeta, Hmd, Hpop. cbn [ret fst snd].
      unfold bind at 1, patch_metadata_providers.
      destruct (truthy mp); [|reflexivity].
      unfold bind at 1, get_app. cbn [fst snd].
      subst ok app1.
      destruct (metadata_structure_patch E (w_app w) mp) as [[|] app'];
        unfold bind at 1, put_app; cbn [fst snd];
        unfold bind at 1, lift; rewrite set_providers; reflexivity. }
    rewrite Hdisp.
    assert (Htree : wf_value (VDict tree) = true) by now apply providers_tree_wf.
    assert (Hunit : get_path (VDict tree) providers_path = Some mp) by reflexivity.
    assert (Hunder : forall qs x,
              (exists rs, qs = (providers_path ++ rs)%list /\ leaf_in mp rs x) ->
              is_prefix providers_path qs = true).
    { intros qs x [rs [-> _]]. apply is_prefix_app. now exists rs. }
    destruct (truthy mp).
    + destruct ok.
      * destruct (walk_rest data md mp tree []
                    {| w_app := app1; w_trace := w_trace w |}
                    (fun qs x => exists rs, qs = (providers_path ++ rs)%list /\
                                            leaf_in mp rs x)
                    Hwf Hdf Hmeta Hmp Htree eq_refl)
          as (a & i & w' & Hrun & Ha & Hi & Hl); [| |exact Hunder|].
        -- intros qs x. unfold tree. rewrite providers_tree_leaves. split; [|tauto].
           intros [H|H]; [assumption|now apply empty_tree_leaves in H].
        -- intros qs x y _ H. now apply empty_tree_leaves in H.
        -- exists a, i, w'. fold rest in Hrun, Hl. split; [exact Hrun|].
           split; [now rewrite Ha, Hi|]. split; [reflexivity|exact Hl].
      * destruct (walk_rest data md mp [] tree
                    {| w_app := app1; w_trace := w_trace w |}
                    (fun qs x => exists rs, qs = (providers_path ++ rs)%list /\
                                            leaf_in mp rs x)
                    Hwf Hdf Hmeta Hmp eq_refl Htree)
          as (a & i & w' & Hrun & Ha & Hi & Hl); [| |exact Hunder|].
        -- intros qs x. unfold tree. rewrite providers_tree_leaves. split; [|tauto].
           intros [H|H]; [now apply empty_tree_leaves in H|assumption].
        -- intros qs x y H _. now apply empty_tree_leaves in H.
        -- exists a, i, w'. fold rest in Hrun, Hl. split; [exact Hrun|].
           split; [now rewrite Ha, Hi|]. split; [reflexivity|exact Hl].
    + destruct (walk_rest data md mp [] [] w (fun _ _ => False)
                  Hwf Hdf Hmeta Hmp eq_refl eq_refl)
        as (a & i & w' & Hrun & Ha & Hi & Hl).
      * intros qs x. split; [|tauto].
        intros [H|H]; now apply empty_tree_leaves in H.
      * intros qs x y H. now apply empty_tree_leaves in H.
      * intros qs x [].
      * exists a, i, w'. fold rest in Hrun, Hl. split; [exact Hrun|].
        split; [now rewrite Ha, Hi|]. split; [reflexivity|exact Hl].
  - intros Hno.
    assert (Hpop : pop_metadata_providers data w = (Ok (data, None), w)).
    { unfold pop_metadata_providers.
      destruct (dict_get data "metadata") as [m|] eqn:Hm; [|reflexivity].
      now rewrite (Hno m eq_refl). }
    destruct (dispatch_plain E data w Hwf Hdf Hpop)
      as (a & i & w' & Hrun & _ & _ & Hl & _).
    exists a, i, w'. split; [exact Hrun|]. split; [|exact Hl].
    unfold dispatch, bind at 1. rewrite Hpop. reflexivity.
Qed.

(** X1. A body whose [metadata] entry is a mapping that is not empty and
    has no [metadataProviders] key makes [pop('metadataProviders')] raise
    [KeyError]: whatever else the body holds, the request ends there with
    that error, with no leaf dispatched, nothing written, nothing saved
    and nothing pushed. *)
Theorem metadata_without_providers_raises (raw : string) (data md : dict)
    (w : world) :
  json_decode E raw = Ok (VDict data) ->
  dict_get data "metadata" = Some (VDict md) ->
  md <> [] ->
  dict_get md "metadataProviders" = None ->
  http_patch E (Some "main") raw w = (Raise KeyError, w).
Proof.
  intros Hdec Hmeta Hne Hnone.
  rewrite http_patch_main, Hdec.
  unfold dispatch, bind at 1, pop_metadata_providers, dict_pop.
  rewrite Hmeta, Hnone.
  destruct md; [congruence|reflexivity].
Qed.

End Providers.

(** ** Write, then read *)

Section RoundTrip.

Variable E : Env.

Lemma table_omission : forallb (omission_check E) (patches E) = true.
Proof. vm_compute. reflexivity. Qed.

Lemma coerced_not_empty (c : coercion) (v x : value) :
  c <> Raw -> coerce E c v = Ok x -> is_empty_value x = false.
Proof.
  intros Hc Hx. destruct c; [congruence| | |].
  - simpl in Hx. now injection Hx as <-.
  - simpl in Hx. destruct (int_returns_int E _ _ Hx) as [z ->]. reflexivity.
  - unfold coerce in Hx.
    destruct v; [injection Hx as <-; reflexivity| | | | |];
      destruct (int_returns_int E _ _ Hx) as [n ->]; reflexivity.
Qed.

(** What a producer leaves at a place it fills from an attribute: the
    coerced attribute, or nothing when the place lies in a [NonEmptyDict]
    and the value is empty. *)
Lemma reads_full (body : list assignment) (loc : list string) (ne : bool)
    (c : coercion) (a : string) (app : App) (T : dict) :
  reads body loc = Some (ne, c, a) ->
  (ne = true -> c = Raw -> untouched_before loc body = true) ->
  run_section E body app = Ok T ->
  exists x,
    coerce E c (app a) = Ok x /\
    get_path (VDict T) loc = if ne && is_empty_value x then None else Some x.
Proof.
  intros Hreads Hun Hrun.
  destruct (reads_spec E body loc ne c a app T Hreads Hrun) as [x [Hx Hloc]].
  exists x. split; [exact Hx|].
  destruct (ne && is_empty_value x) eqn:Hne; [|now apply Hloc].
  apply andb_true_iff in Hne as [-> Hempty].
  destruct c.
  - simpl in Hx. injection Hx as <-.
    assert (Hraw : raw_place body loc = Some a).
    { unfold raw_place. rewrite Hreads. now rewrite (Hun eq_refl eq_refl). }
    rewrite (raw_place_spec E body loc a app T Hraw Hrun). now rewrite Hempty.
  - rewrite (coerced_not_empty Bool_ (app a) x) in Hempty;
      [discriminate|discriminate|assumption].
  - rewrite (coerced_not_empty Int_ (app a) x) in Hempty;
      [discriminate|discriminate|assumption].
  - rewrite (coerced_not_empty IntOrMinus1 (app a) x) in Hempty;
      [discriminate|discriminate|assumption].
Qed.

(** The store a request leaves in an attribute that a leaf wrote and no
    later leaf writes. *)
Lemma reached_leaf_store (raw : string) (data : dict) (w : world)
    (key : string) (v : value) (app1 app2 : App) (post : list (string * value))
    (f : Field) :
  json_decode E raw = Ok (VDict data) ->
  reaches E data w key v app1 post ->
  patches_get E key = Some f ->
  patch E f app1 v = (true, app2) ->
  (forall kv, In kv post ->
     fst kv <> "theme.name" /\ ~ In (attribute f) (leaf_writes E (fst kv))) ->
  w_app (snd (http_patch E (Some "main") raw w)) (attribute f)
  = app2 (attribute f).
Proof.
  intros Hdec (data' & popped & w0 & r0 & w0' & pre & r1 & w1 &
               Hpop & Hpmp & Hitems & Hpre & Happ1) Hreg Hp Hpost.
  rewrite (http_patch_store E raw data w Hdec).
  unfold dispatch, bind at 1. rewrite Hpop. cbn [fst snd].
  unfold bind at 1. rewrite Hpmp. rewrite Hitems.
  rewrite patch_items_app, Hpre.
  cbn [patch_items]. unfold bind at 1. rewrite patch_item_unfold. cbv zeta.
  unfold verdict. rewrite Hreg, Happ1, Hp. cbn [fst snd].
  destruct (set_nested_value (fst r1) key v) as [a|]; [|reflexivity].
  cbn [fst snd]. now rewrite (patch_items_frame E (attribute f) post Hpost).
Qed.

(** C1 (amended).  Take a path of the patch table other than the six with
    no place in any section tree and the four whose place is filled from
    another attribute, and any body of a PATCH of main in which that path
    is a leaf.  If the request comes to that leaf (the leaves before it are
    processed), the Field accepts the value when its turn comes, and no
    leaf after it in the body writes the same attribute (another path of
    that attribute, or [theme.name], whose setter is outside this module),
    then, however the request ends, the store holds the converted value in
    the attribute of the Field, and a read of the section the path belongs
    to finds at the corresponding place that value under the read side's
    own coercion ([bool], [int] or none); unless the place lies in a
    [NonEmptyDict] and the value is [None] or the empty text, in which
    case the key is not in the tree. *)
Theorem read_after_write (key : string) (f : Field) (v : value) (raw : string)
    (data : dict) (w : world) (app1 : App) (post : list (string * value)) :
  patches_get E key = Some f ->
  mem_string key (write_only_paths ++ misdirected_paths)%list = false ->
  json_decode E raw = Ok (VDict data) ->
  reaches E data w key v app1 post ->
  fst (patch E f app1 v) = true ->
  (forall kv, In kv post ->
     fst kv <> "theme.name" /\ ~ In (attribute f) (leaf_writes E (fst kv))) ->
  let app' := w_app (snd (http_patch E (Some "main") raw w)) in
  exists stored ne c,
    stored_value E f v = Ok stored /\
    app' (attribute f) = stored /\
    reads_at E key = Some (ne, c, attribute f) /\
    forall T,
      get_data E (fst (read_location key)) app' = Ok T ->
      exists x,
        coerce E c stored = Ok x /\
        get_path (VDict T) (snd (read_location key))
        = if ne && is_empty_value x then None else Some x.
Proof.
  intros Hreg Hscope Hdec Hreach Hacc Hpost app'.
  pose proof (patches_get_In E key f Hreg) as Hin.
  pose proof (table_round_trip E) as Ht. rewrite forallb_forall in Ht.
  specialize (Ht _ Hin).
  unfold round_trip_check in Ht. cbn [fst snd] in Ht.
  apply andb_true_iff in Ht as [_ Ht]. rewrite Hscope in Ht. simpl in Ht.
  apply andb_true_iff in Ht as [Ht Hpp].
  apply andb_true_iff in Ht as [Hreads Hset].
  pose proof table_omission as Ho. rewrite forallb_forall in Ho.
  specialize (Ho _ Hin). unfold omission_check in Ho. cbn [fst snd] in Ho.
  destruct (reads_at E key) as [[[ne c] a]|] eqn:Hr; [|discriminate].
  apply String.eqb_eq in Hreads; subst a.
  destruct (setter f) eqn:Hsetter; [discriminate|].
  destruct (patch E f app1 v) as [ok app2] eqn:Hp. simpl in Hacc; subst ok.
  destruct (patch_accepted_attribute E f app1 v app2 Hsetter
              (post_processor_keeps E key f Hreg Hpp) Hp) as [stored [Hs Hattr]].
  assert (Hstore : app' (attribute f) = stored).
  { unfold app'.
    rewrite (reached_leaf_store raw data w key v app1 app2 post f
               Hdec Hreach Hreg Hp Hpost).
    exact Hattr. }
  exists stored, ne, c. split; [exact Hs|]. split; [exact Hstore|].
  split; [reflexivity|].
  intros T Hget.
  unfold reads_at in Hr.
  destruct (section_body E (fst (read_location key))) as [body|] eqn:Hbody;
    [|discriminate].
  rewrite (section_body_get_data E _ body app' Hbody) in Hget.
  destruct (reads_full body (snd (read_location key)) ne c (attribute f) app' T
              Hr) as [x [Hx Hloc]]; [|exact Hget|].
  - intros -> ->. exact Ho.
  - exists x. rewrite Hstore in Hx. now split.
Qed.

Lemma kodi_always_on_entry :
  patches_get E "notifiers.kodi.alwaysOn" = Some (BooleanField "USE_KODI").
Proof. reflexivity. Qed.

Lemma kodi_places :
  reads data_notifiers_body ["kodi"; "alwaysOn"]
    = Some (true, Bool_, "KODI_ALWAYS_ON") /\
  reads data_notifiers_body ["kodi"; "enabled"]
    = Some (true, Bool_, "USE_KODI").
Proof. split; vm_compute; reflexivity. Qed.

(** X2. The write side of [notifiers.kodi.alwaysOn] targets [USE_KODI]
    while [data_notifiers] fills that place from [KODI_ALWAYS_ON].  So for
    every store and every value, a request that writes just
    [notifiers.kodi.alwaysOn] stores the truth value of what it was given
    in [USE_KODI] and leaves [KODI_ALWAYS_ON] alone: a read of the
    notifiers finds the written value under [kodi.enabled], and under
    [kodi.alwaysOn] what was there before the request. *)
Theorem kodi_always_on_write (v : value) (raw : string) (w : world) :
  is_dict v = false ->
  json_decode E raw = Ok (nest ["notifiers"; "kodi"; "alwaysOn"] v) ->
  let app' := w_app (snd (http_patch E (Some "main") raw w)) in
  app' "USE_KODI" = VBool (truthy v) /\
  app' "KODI_ALWAYS_ON" = w_app w "KODI_ALWAYS_ON" /\
  forall T, data_notifiers E app' = Ok T ->
    get_path (VDict T) ["kodi"; "enabled"] = Some (VBool (truthy v)) /\
    get_path (VDict T) ["kodi"; "alwaysOn"]
      = Some (VBool (truthy (w_app w "KODI_ALWAYS_ON"))).
Proof.
  intros Hv Hdec app'.
  assert (Happ : app' = setattr (w_app w) "USE_KODI" (VBool (truthy v))).
  { unfold app'.
    rewrite (single_leaf_store E "notifiers.kodi.alwaysOn" _ v raw w
               kodi_always_on_entry Hv Hdec).
    reflexivity. }
  assert (H1 : app' "USE_KODI" = VBool (truthy v)) by (rewrite Happ; reflexivity).
  assert (H2 : app' "KODI_ALWAYS_ON" = w_app w "KODI_ALWAYS_ON")
    by (rewrite Happ; reflexivity).
  split; [exact H1|]. split; [exact H2|].
  intros T HT. destruct kodi_places as [Hon Hen]. split.
  - destruct (reads_spec E _ _ _ _ _ app' T Hen HT) as [x [Hx Hloc]].
    simpl in Hx. injection Hx as <-. rewrite H1 in Hloc. apply Hloc. reflexivity.
  - destruct (reads_spec E _ _ _ _ _ app' T Hon HT) as [x [Hx Hloc]].
    simpl in Hx. injection Hx as <-. rewrite H2 in Hloc. apply Hloc. reflexivity.
Qed.

End RoundTrip.

(** * The round trip and the metadata providers at concrete requests *)

(** X1 at a body with a sibling leaf. *)
Lemma metadata_without_providers_witness :
  let raw := "{metadata: {other: 1}, torrents: {enabled: true}}" in
  let md := [("other", VInt 1)] in
  let data := [("metadata", VDict md);
               ("torrents", VDict [("enabled", VBool true)])] in
  json_decode demo_env raw = Ok (VDict data) /\
  dict_get data "metadata" = Some (VDict md) /\
  dict_get md "metadataProviders" = None /\
  http_patch demo_env (Some "main") raw demo_world = (Raise KeyError, demo_world).
Proof.
  assert (Hne : [("other", VInt 1)] <> @nil (string * value)) by discriminate.
  split; [reflexivity|]. split; [reflexivity|]. split; [reflexivity|].
  exact (metadata_without_providers_raises demo_env
           "{metadata: {other: 1}, torrents: {enabled: true}}"
           [("metadata", VDict [("other", VInt 1)]);
            ("torrents", VDict [("enabled", VBool true)])]
           [("other", VInt 1)] demo_world eq_refl eq_refl Hne eq_refl).
Defined.

(** C3 as stated fails three times.  An empty [metadataProviders] tree is
    taken out of the body, the handler is not called (it would have
    replaced [metadata_provider_dict]), and the tree is recorded neither as
    accepted nor as ignored.  A body whose [metadata] tree has no
    [metadataProviders] key is not processed at all: the request raises
    [KeyError] and its sibling leaf is never written.  And a body that
    names [metadata.metadataProviders] a second time, by a dotted key, has
    that path in both result trees: the providers accepted as a unit, the
    dotted leaf ignored. *)
Lemma metadata_providers_counterexample :
  let data := [("metadata", VDict [("metadataProviders", VDict [])]);
               ("torrents", VDict [("enabled", VBool true)])] in
  let out := dispatch demo_env data demo_world in
  let raw := "{metadata: {other: 1}, torrents: {enabled: true}}" in
  let kodi := VDict [("kodi", VDict [("showMetadata", VBool true)])] in
  let dotted := [("metadata", VDict [("metadataProviders", kodi)]);
                 ("metadata.metadataProviders", VInt 5)] in
  (fst out = Ok ([("torrents", VDict [("enabled", VBool true)])], []) /\
   w_app (snd out) "metadata_provider_dict" = demo_app "metadata_provider_dict" /\
   fst (metadata_structure_patch demo_env demo_app (VDict [])) = true /\
   snd (metadata_structure_patch demo_env demo_app (VDict [])) "metadata_provider_dict"
     = VDict []) /\
  (json_decode demo_env raw
     = Ok (VDict [("metadata", VDict [("other", VInt 1)]);
                  ("torrents", VDict [("enabled", VBool true)])]) /\
   fst (demo_patch raw) = Raise KeyError /\
   w_app (snd (demo_patch raw)) "USE_TORRENTS" = demo_app "USE_TORRENTS" /\
   w_trace (snd (demo_patch raw)) = []) /\
  (wf_value (VDict dotted) = true /\
   fst (dispatch demo_env dotted demo_world)
     = Ok ([("metadata", VDict [("metadataProviders", kodi)])],
           [("metadata", VDict [("metadataProviders", VInt 5)])])).
Proof. repeat split; reflexivity. Qed.

(** C3 (amended) at a body with providers the handler accepts, an accepted
    and an ignored leaf. *)
Lemma metadata_providers_unit_witness :
  let mp := VDict [("kodi", VDict [("showMetadata", VBool true)])] in
  let md := [("metadataProviders", mp)] in
  let data := [("metadata", VDict md);
               ("torrents", VDict [("enabled", VBool true); ("bogusField", VInt 5)])] in
  let rest := [("metadata", VDict []);
               ("torrents", VDict [("enabled", VBool true); ("bogusField", VInt 5)])] in
  wf_value (VDict data) = true /\
  dot_free (VDict data) = true /\
  dict_get data "metadata" = Some (VDict md) /\
  dict_get md "metadataProviders" = Some mp /\
  exists accepted ignored w',
    dispatch demo_env data demo_world = (Ok (accepted, ignored), w') /\
    (get_path (VDict accepted) providers_path,
     get_path (VDict ignored) providers_path) = (Some mp, None) /\
    (forall qs x, is_prefix providers_path qs = false ->
       (leaf_at accepted qs x \/ leaf_at ignored qs x <-> leaf_at rest qs x)).
Proof.
  split; [reflexivity|]. split; [reflexivity|]. split; [reflexivity|].
  split; [reflexivity|].
  destruct (proj1 (metadata_providers_unit demo_env
                     [("metadata",
                       VDict [("metadataProviders",
                               VDict [("kodi", VDict [("showMetadata", VBool true)])])]);
                      ("torrents",
                       VDict [("enabled", VBool true); ("bogusField", VInt 5)])]
                     demo_world eq_refl eq_refl)
              [("metadataProviders",
                VDict [("kodi", VDict [("showMetadata", VBool true)])])]
              (VDict [("kodi", VDict [("showMetadata", VBool true)])])
              eq_refl eq_refl)
    as (accepted & ignored & w' & Hrun & Hunit & _ & Hl).
  exists accepted, ignored, w'.
  split; [exact Hrun|]. split; [exact Hunit|exact Hl].
Defined.

(** C1 as stated fails three times.  [torrents.password] is registered
    and the write is accepted and stored, but no section tree has a place
    for it.  An accepted write of the empty text to [anonRedirect] is
    stored, and the key is then missing from the main section.  And when a
    later leaf of the same body writes the same attribute, as [emby.enabled]
    does for [notifiers.emby.enabled], the read finds the later value. *)
Lemma read_after_write_counterexample :
  let raw := "{torrents: {password: s3cret}}" in
  let app' := w_app (snd (demo_patch raw)) in
  let raw2 := "{anonRedirect: (empty)}" in
  let out2 := http_patch round_trip_env (Some "main") raw2 demo_world in
  let raw3 := "{notifiers: {emby: {enabled: true}}, emby: {enabled: false}}" in
  let out3 := http_patch round_trip_env (Some "main") raw3 demo_world in
  (option_map attribute (patches_get demo_env "torrents.password")
     = Some "TORRENT_PASSWORD" /\
   fst (demo_patch raw)
     = Ok {| status := 200;
             body := Data (VDict [("torrents", VDict [("password", VStr "s3cret")])]) |} /\
   app' "TORRENT_PASSWORD" = VStr "s3cret" /\
   map (fun section => demo_read section app' ["torrents"; "password"])
       (sections demo_env)
     = [None; None; None; None; None; None]) /\
  (json_decode round_trip_env raw2 = Ok (VDict [("anonRedirect", VStr "")]) /\
   fst out2
     = Ok {| status := 200; body := Data (VDict [("anonRedirect", VStr "")]) |} /\
   w_app (snd out2) "ANON_REDIRECT" = VStr "" /\
   reads_at round_trip_env "anonRedirect" = Some (true, Raw, "ANON_REDIRECT") /\
   read_place round_trip_env "main" (w_app (snd out2)) ["anonRedirect"] = Ok None) /\
  (fst out3
     = Ok {| status := 200;
             body := Data (VDict [("notifiers", VDict [("emby",
                                     VDict [("enabled", VBool true)])]);
                                  ("emby", VDict [("enabled", VBool false)])]) |} /\
   reads_at round_trip_env "notifiers.emby.enabled" = Some (true, Bool_, "USE_EMBY") /\
   read_place round_trip_env "notifiers" (w_app (snd out3)) ["emby"; "enabled"]
     = Ok (Some (VBool false))).
Proof. repeat split; vm_compute; reflexivity. Qed.

(** C1 (amended) at a body with two leaves, for the first of them. *)
Lemma read_after_write_witness :
  let raw := "{torrents: {enabled: true, bogusField: 5}}" in
  let data := [("torrents", VDict [("enabled", VBool true); ("bogusField", VInt 5)])] in
  let post := [("torrents.bogusField", VInt 5)] in
  let app' := w_app (snd (http_patch demo_env (Some "main") raw demo_world)) in
  patches_get demo_env "torrents.enabled" = Some (BooleanField "USE_TORRENTS") /\
  json_decode demo_env raw = Ok (VDict data) /\
  reaches demo_env data demo_world "torrents.enabled" (VBool true) demo_app post /\
  fst (patch demo_env (BooleanField "USE_TORRENTS") demo_app (VBool true)) = true /\
  exists stored ne c,
    stored_value demo_env (BooleanField "USE_TORRENTS") (VBool true) = Ok stored /\
    app' "USE_TORRENTS" = stored /\
    reads_at demo_env "torrents.enabled" = Some (ne, c, "USE_TORRENTS") /\
    forall T,
      get_data demo_env "main" app' = Ok T ->
      exists x,
        coerce demo_env c stored = Ok x /\
        get_path (VDict T) ["torrents"; "enabled"]
        = if ne && is_empty_value x then None else Some x.
Proof.
  assert (Hreach : reaches demo_env
            [("torrents", VDict [("enabled", VBool true); ("bogusField", VInt 5)])]
            demo_world "torrents.enabled" (VBool true) demo_app
            [("torrents.bogusField", VInt 5)]).
  { exists [("torrents", VDict [("enabled", VBool true); ("bogusField", VInt 5)])],
           None, demo_world, ([], []), demo_world, [], ([], []), demo_world.
    repeat split; reflexivity. }
  assert (Hpost : forall kv, In kv [("torrents.bogusField", VInt 5)] ->
            fst kv <> "theme.name" /\
            ~ In (attribute (BooleanField "USE_TORRENTS"))
                 (leaf_writes demo_env (fst kv))).
  { intros kv [<-|[]]. split; [discriminate|]. intros H. exact H. }
  split; [reflexivity|]. split; [reflexivity|]. split; [exact Hreach|].
  split; [reflexivity|].
  exact (read_after_write demo_env "torrents.enabled" (BooleanField "USE_TORRENTS")
           (VBool true) "{torrents: {enabled: true, bogusField: 5}}"
           [("torrents", VDict [("enabled", VBool true); ("bogusField", VInt 5)])]
           demo_world demo_app [("torrents.bogusField", VInt 5)]
           eq_refl eq_refl eq_refl Hreach eq_refl Hpost).
Defined.

(** X2 at the example store, where [KODI_ALWAYS_ON] is off. *)
Lemma kodi_always_on_write_witness :
  let raw := "{notifiers: {kodi: {alwaysOn: true}}}" in
  let app' := w_app (snd (http_patch demo_env (Some "main") raw demo_world)) in
  json_decode demo_env raw
    = Ok (nest ["notifiers"; "kodi"; "alwaysOn"] (VBool true)) /\
  app' "USE_KODI" = VBool true /\
  app' "KODI_ALWAYS_ON" = demo_app "KODI_ALWAYS_ON" /\
  forall T, data_notifiers demo_env app' = Ok T ->
    get_path (VDict T) ["kodi"; "enabled"] = Some (VBool true) /\
    get_path (VDict T) ["kodi"; "alwaysOn"]
      = Some (VBool (truthy (demo_app "KODI_ALWAYS_ON"))).
Proof.
  split; [reflexivity|].
  exact (kodi_always_on_write demo_env (VBool true)
           "{notifiers: {kodi: {alwaysOn: true}}}" demo_world eq_refl eq_refl).
Defined.
